(** * Declaration-to-facade converter (src/src/converter.ts)

    A shallow embedding of the TypeScript-declaration to Scala.js-facade
    converter.  The parsed declaration tree (the part of the TypeScript
    compiler API the converter reads) is an inductive type; every function
    of converter.ts is a Rocq function of the same name; the output buffer
    (the CodeBlockWriter object threaded through the emitters) is an explicit
    state value passed from call to call. *)

From Stdlib Require Import String Ascii List Bool ZArith Lia Arith.
Import ListNotations.
Open Scope list_scope.
Open Scope string_scope.

Set Implicit Arguments.
Set Warnings "-register-all".
Set Warnings "-automation".


(* ================================================================== *)
(** ** JavaScript string and array primitives used by the converter    *)
(* ================================================================== *)

Module Js.

(** [hay.includes(needle)] on strings. *)
Fixpoint includes (needle hay : string) : bool :=
  String.prefix needle hay ||
  match hay with
  | EmptyString => false
  | String _ rest => includes needle rest
  end.

(** [arr.includes(x)] on arrays of strings. *)
Definition arrayIncludes (arr : list string) (x : string) : bool :=
  existsb (String.eqb x) arr.

(** [arr.join(sep)]. *)
Definition join (sep : string) (arr : list string) : string :=
  String.concat sep arr.

(** [[...new Set(arr)]]: duplicates dropped, first occurrences kept in
    insertion order.  [seen] is the set built so far. *)
Fixpoint dedupFrom (seen : list string) (arr : list string) : list string :=
  match arr with
  | [] => []
  | x :: rest =>
      if arrayIncludes seen x then dedupFrom seen rest
      else x :: dedupFrom (x :: seen) rest
  end.

Definition dedup (arr : list string) : list string := dedupFrom [] arr.

Definition isLower (c : ascii) : bool :=
  (97 <=? nat_of_ascii c)%nat && (nat_of_ascii c <=? 122)%nat.
Definition isUpper (c : ascii) : bool :=
  (65 <=? nat_of_ascii c)%nat && (nat_of_ascii c <=? 90)%nat.
Definition isDigit (c : ascii) : bool :=
  (48 <=? nat_of_ascii c)%nat && (nat_of_ascii c <=? 57)%nat.
Definition isUnderscore (c : ascii) : bool := Ascii.eqb c "_"%char.

(** [c.toUpperCase()] for one ASCII character. *)
Definition toUpperCase (c : ascii) : ascii :=
  if isLower c then ascii_of_nat (nat_of_ascii c - 32) else c.

(** The regular expression [/^[a-zA-Z_][a-zA-Z0-9_]*$/]. *)
Definition identStart (c : ascii) : bool :=
  isLower c || isUpper c || isUnderscore c.
Definition identPart (c : ascii) : bool :=
  isLower c || isUpper c || isDigit c || isUnderscore c.
Fixpoint allChars (p : ascii -> bool) (s : string) : bool :=
  match s with
  | EmptyString => true
  | String c rest => p c && allChars p rest
  end.
Definition matchesBareIdentifier (s : string) : bool :=
  match s with
  | EmptyString => false
  | String c rest => identStart c && allChars identPart rest
  end.

(** The regular expression [/^[0-9]/]. *)
Definition startsWithDigit (s : string) : bool :=
  match s with
  | EmptyString => false
  | String c _ => isDigit c
  end.

Fixpoint lastChar (s : string) : option ascii :=
  match s with
  | EmptyString => None
  | String c rest =>
      match rest with
      | EmptyString => Some c
      | String _ _ => lastChar rest
      end
  end.

Definition newline : ascii := ascii_of_nat 10.
Definition carriageReturn : ascii := ascii_of_nat 13.
Definition nl : string := String newline EmptyString.

(** The double-quote character, as a one-character string. *)
Definition dq : string := String (ascii_of_nat 34) EmptyString.

Definition isWhitespace (c : ascii) : bool :=
  let n := nat_of_ascii c in
  (n =? 32)%nat || ((9 <=? n)%nat && (n <=? 13)%nat).

Fixpoint trimStart (s : string) : string :=
  match s with
  | EmptyString => EmptyString
  | String c rest => if isWhitespace c then trimStart rest else s
  end.

Definition reverse (s : string) : string :=
  string_of_list_ascii (rev (list_ascii_of_string s)).

(** [s.trim()]. *)
Definition trim (s : string) : string :=
  reverse (trimStart (reverse (trimStart s))).

(** [s.split(/\r?\n/)]: the pieces between line feeds, a carriage return
    directly before a line feed belonging to the separator. *)
Fixpoint splitNewLines (s : string) : list string :=
  match s with
  | EmptyString => [EmptyString]
  | String c rest =>
      let pieces := splitNewLines rest in
      if Ascii.eqb c newline then EmptyString :: pieces
      else if Ascii.eqb c carriageReturn
              && match rest with
                 | String d _ => Ascii.eqb d newline
                 | EmptyString => false
                 end
      then pieces
      else match pieces with
           | piece :: others => String c piece :: others
           | [] => [String c EmptyString]
           end
  end.

Fixpoint spaces (n : nat) : string :=
  match n with
  | O => EmptyString
  | S k => String " "%char (spaces k)
  end.

(** [s.replace(/^js\.Array\[(.+)\]$/, '$1')]: the text between
    [js.Array[] and the final bracket when the whole string has that shape
    (the dot of the pattern matches no line terminator). *)
Fixpoint stripPrefix (p s : string) : option string :=
  match p, s with
  | EmptyString, _ => Some s
  | String a p', String b s' =>
      if Ascii.eqb a b then stripPrefix p' s' else None
  | String _ _, EmptyString => None
  end.

Definition isLineTerminator (c : ascii) : bool :=
  Ascii.eqb c newline || Ascii.eqb c carriageReturn.

Definition unwrapJsArray (s : string) : string :=
  match stripPrefix "js.Array[" s with
  | Some r =>
      match reverse r with
      | String c m =>
          if Ascii.eqb c "]"%char
             && negb (Nat.eqb (String.length m) 0)
             && allChars (fun d => negb (isLineTerminator d)) m
          then reverse m else s
      | EmptyString => s
      end
  | None => s
  end.

(** Truthiness of a string. *)
Definition truthy (s : string) : bool :=
  negb (Nat.eqb (String.length s) 0).

(** [s.split('.').pop()]: the text after the last dot (the whole string
    when it has none). *)
Fixpoint lastDotSegment (s : string) : string :=
  match s with
  | EmptyString => EmptyString
  | String c rest =>
      if includes "." rest then lastDotSegment rest
      else if Ascii.eqb c "."%char then rest
      else s
  end.

End Js.

(* ================================================================== *)
(** ** The declaration tree (the slice of the compiler API that is read) *)
(* ================================================================== *)

(** Modifier tokens ([SyntaxKind] of the entries of [node.modifiers]). *)
Inductive Modifier : Type :=
| ExportKeyword | DeclareKeyword | DefaultKeyword | AbstractKeyword
| StaticKeyword | PrivateKeyword | ProtectedKeyword | PublicKeyword
| ReadonlyKeyword | AsyncKeyword | OverrideKeyword.

Definition Modifier_eqb (a b : Modifier) : bool :=
  match a, b with
  | ExportKeyword, ExportKeyword | DeclareKeyword, DeclareKeyword
  | DefaultKeyword, DefaultKeyword | AbstractKeyword, AbstractKeyword
  | StaticKeyword, StaticKeyword | PrivateKeyword, PrivateKeyword
  | ProtectedKeyword, ProtectedKeyword | PublicKeyword, PublicKeyword
  | ReadonlyKeyword, ReadonlyKeyword | AsyncKeyword, AsyncKeyword
  | OverrideKeyword, OverrideKeyword => true
  | _, _ => false
  end.

(** [modifiers?.some(m => m.kind === k)] *)
Definition hasModifier (k : Modifier) (modifiers : list Modifier) : bool :=
  existsb (Modifier_eqb k) modifiers.

(** [modifiers?.some(m => m.kind === PrivateKeyword || m.kind === ProtectedKeyword)] *)
Definition isPrivateOrProtected (modifiers : list Modifier) : bool :=
  existsb (fun m => Modifier_eqb m PrivateKeyword || Modifier_eqb m ProtectedKeyword)
          modifiers.

(** Keyword type nodes (token nodes without children). *)
Inductive TypeKeyword : Type :=
| StringKeyword | NumberKeyword | BooleanKeyword | VoidKeyword | NullKeyword
| UndefinedKeyword | AnyKeyword | ObjectKeyword | NeverKeyword | ThisKeyword
| UnknownKeyword | SymbolKeyword | BigIntKeyword | IntrinsicKeyword.

(** The [literal] child of a [LiteralTypeNode]; the text of string and
    numeric literals is what [getText()] returns. *)
Inductive Literal : Type :=
| TrueKeyword
| FalseKeyword
| StringLiteral (text : string)
| NumericLiteral (text : string)
| NullLiteral
| PrefixUnaryExpression (text : string)
| NoSubstitutionTemplateLiteral (text : string)
| BigIntLiteral (text : string).

Inductive TypeOperatorKind : Type :=
| KeyOfKeyword | UniqueKeyword | ReadonlyOperator.

(** Type-node kinds for which [convertTypeToScala] has no [case]. *)
Inductive UnmappedKind : Type :=
| TupleType | ConditionalType | MappedType | TypeQuery | IndexedAccessType
| ConstructorType | TypePredicate | InferType | TemplateLiteralType
| ImportType | OptionalType | RestType | NamedTupleMember
| ExpressionWithTypeArguments.

Record ParameterDeclarationOf (T : Type) : Type := mkParameter {
  param_name : string;               (* p.name.getText() *)
  param_type : option T;             (* p.type *)
  dotDotDotToken : bool;             (* p.dotDotDotToken present *)
  questionToken : bool               (* p.questionToken present *)
}.

Record TypeParameterDeclarationOf (T : Type) : Type := mkTypeParameter {
  tp_name : string;                  (* tp.name.getText() *)
  tp_constraint : option T           (* tp.constraint *)
}.

(** Members of interfaces and of type literals. [typeParameters] absent is
    the empty list (the code reads it through [?.map(...) || []]). *)
Inductive TypeElementOf (T : Type) : Type :=
| PropertySignature (name : string) (modifiers : list Modifier) (type : option T)
| MethodSignature (name : string)
                  (typeParameters : list (TypeParameterDeclarationOf T))
                  (parameters : list (ParameterDeclarationOf T))
                  (type : option T)
| IndexSignature (modifiers : list Modifier)
                 (parameter0 : ParameterDeclarationOf T)   (* node.parameters[0] *)
                 (type : option T)
| CallSignature
| ConstructSignature.

Arguments CallSignature {T}.
Arguments ConstructSignature {T}.

Inductive TypeNode : Type :=
| Keyword (kind : TypeKeyword)
| ThisType
| TypeReference (typeName : string) (typeArguments : list TypeNode)
| LiteralType (literal : Literal)
| TypeLiteral (members : list (TypeElementOf TypeNode))
| FunctionType (parameters : list (ParameterDeclarationOf TypeNode))
               (type : option TypeNode)
| ParenthesizedType (type : TypeNode)
| ArrayType (elementType : TypeNode)
| UnionType (types : list TypeNode)
| IntersectionType (types : list TypeNode)
| TypeOperator (operator : TypeOperatorKind) (type : TypeNode)
| Unmapped (kind : UnmappedKind).

Definition TypeElement : Type := TypeElementOf TypeNode.
Definition ParameterDeclaration : Type := ParameterDeclarationOf TypeNode.
Definition TypeParameterDeclaration : Type := TypeParameterDeclarationOf TypeNode.

(** [ts.isLiteralTypeNode(t) && ts.isStringLiteral(t.literal)] *)
Definition isStringLiteralType (t : TypeNode) : bool :=
  match t with
  | LiteralType (StringLiteral _) => true
  | _ => false
  end.

(** [ts.isLiteralTypeNode(t) && ts.isNumericLiteral(t.literal)] *)
Definition isNumericLiteralType (t : TypeNode) : bool :=
  match t with
  | LiteralType (NumericLiteral _) => true
  | _ => false
  end.

(** [ts.isTypeLiteralNode(t)] *)
Definition isTypeLiteralNode (t : TypeNode) : bool :=
  match t with
  | TypeLiteral _ => true
  | _ => false
  end.

(* ================================================================== *)
(** ** TypeMapper: [convertTypeToScala] and its helpers                *)
(* ================================================================== *)

Definition SCALA_RESERVED_WORDS : list string :=
  ["abstract"; "case"; "catch"; "class"; "def"; "do"; "else"; "extends";
   "false"; "final"; "finally"; "for"; "forSome"; "if"; "implicit"; "import";
   "lazy"; "macro"; "match"; "new"; "null"; "object"; "override"; "package";
   "private"; "protected"; "return"; "sealed"; "super"; "then"; "this";
   "throw"; "trait"; "try"; "true"; "type"; "val"; "var"; "while"; "with";
   "yield"].

(** The [typeMapping] record of [convertTypeReference], in declaration
    order.  A lookup is by own key; type names that are members of
    [Object.prototype] are outside this model. *)
Definition typeMapping : list (string * string) :=
  [("null", "Null");
   ("undefined", "Unit");
   ("Float32Array", "js.typedarray.Float32Array");
   ("Float64Array", "js.typedarray.Float64Array");
   ("Uint8Array", "js.typedarray.Uint8Array");
   ("Uint16Array", "js.typedarray.Uint16Array");
   ("Uint32Array", "js.typedarray.Uint32Array");
   ("Int8Array", "js.typedarray.Int8Array");
   ("Int16Array", "js.typedarray.Int16Array");
   ("Int32Array", "js.typedarray.Int32Array");
   ("Uint8ClampedArray", "js.typedarray.Uint8ClampedArray");
   ("ArrayBuffer", "js.typedarray.ArrayBuffer");
   ("ArrayBufferView", "js.typedarray.ArrayBufferView");
   ("DataView", "js.typedarray.DataView");
   ("ReadonlyArray", "js.Array");
   ("PromiseLike", "js.Thenable")].

Definition typeMappingLookup (typeName : string) : option string :=
  match find (fun kv => String.eqb (fst kv) typeName) typeMapping with
  | Some kv => Some (snd kv)
  | None => None
  end.

Definition convertLiteralType (literal : Literal) : string :=
  match literal with
  | TrueKeyword | FalseKeyword => "Boolean"
  | StringLiteral _ => "String"
  | NumericLiteral text => if Js.includes "." text then "Double" else "Int"
  | NullLiteral => "Null"
  | _ => "js.Any"
  end.

Definition convertTypeOperator (operator : TypeOperatorKind) : string :=
  match operator with
  | KeyOfKeyword => "String"
  | _ => "js.Any"
  end.

(** [convertTypeReference], given the already mapped type arguments. *)
Definition convertTypeReference (typeName : string) (typeArgs : list string)
  : string :=
  let args := Js.join ", " typeArgs in
  let hasArgs := negb (Nat.eqb (length typeArgs) 0) in
  if String.eqb typeName "Array" && hasArgs then
    "js.Array[" ++ args ++ "]"
  else if String.eqb typeName "ReadonlyArray" && hasArgs then
    "js.Array[_ <: " ++ args ++ "]"
  else
    match typeMappingLookup typeName with
    | Some mapped =>
        if hasArgs then mapped ++ "[" ++ args ++ "]" else mapped
    | None =>
        if hasArgs then typeName ++ "[" ++ args ++ "]" else typeName
    end.

(** [convertFunctionType], given the mapped parameter types and the mapped
    return type. *)
Definition convertFunctionType (params : list string) (returnType : string)
  : string :=
  match params with
  | [] => "js.Function0[" ++ returnType ++ "]"
  | [p0] => "js.Function1[" ++ p0 ++ ", " ++ returnType ++ "]"
  | [p0; p1] => "js.Function2[" ++ p0 ++ ", " ++ p1 ++ ", " ++ returnType ++ "]"
  | _ => "js.Function"
  end.

(** The numeric-literal test inside [allIntegers] / [allDoubles]. *)
Definition numericLiteralHasDot (t : TypeNode) : option bool :=
  match t with
  | LiteralType (NumericLiteral text) => Some (Js.includes "." text)
  | _ => None
  end.

(** [convertUnionType].  [types] is [node.types.map(convertTypeToScala)];
    [nonStringLiteralTypes] is
    [node.types.filter(t => !isStringLiteral(t)).map(convertTypeToScala)];
    both are computed by the caller, which owns the recursion. *)
Definition convertUnionType (nodeTypes : list TypeNode) (types : list string)
           (nonStringLiteralTypes : list string) : string :=
  let allStringLiterals := forallb isStringLiteralType nodeTypes in
  if allStringLiterals then "String" else
  let allNumericLiterals := forallb isNumericLiteralType nodeTypes in
  let allIntegers :=
    forallb (fun t => match numericLiteralHasDot t with
                      | Some d => negb d | None => false end) nodeTypes in
  let allDoubles :=
    forallb (fun t => match numericLiteralHasDot t with
                      | Some d => d | None => false end) nodeTypes in
  if allNumericLiterals && allIntegers then "Int"
  else if allNumericLiterals && allDoubles then "Double"
  else
    let uniqueTypes := Js.dedup types in
    let otherTypes :=
      filter (fun t => negb (String.eqb t "Null") && negb (String.eqb t "Unit"))
             uniqueTypes in
    if Js.arrayIncludes uniqueTypes "Null" && Js.arrayIncludes uniqueTypes "Unit"
       && Nat.eqb (length otherTypes) 1
    then hd "" otherTypes ++ " | Null | Unit"
    else
      let hasStringLiterals := existsb isStringLiteralType nodeTypes in
      let hasNonStringLiterals :=
        existsb (fun t => negb (isStringLiteralType t)) nodeTypes in
      if hasStringLiterals && hasNonStringLiterals
      then Js.join " | " ("String" :: nonStringLiteralTypes)
      else Js.join " | " uniqueTypes.

Definition convertIntersectionType (types : list string) : string :=
  Js.join " with " (Js.dedup types).

Definition convertArrayType (elementType : string) : string :=
  "js.Array[" ++ elementType ++ "]".

Fixpoint convertTypeToScala (typeNode : TypeNode) : string :=
  match typeNode with
  | Keyword StringKeyword => "String"
  | Keyword NumberKeyword => "Double"
  | Keyword BooleanKeyword => "Boolean"
  | Keyword VoidKeyword => "Unit"
  | Keyword NullKeyword => "Null"
  | Keyword UndefinedKeyword => "Unit"
  | Keyword AnyKeyword => "js.Any"
  | Keyword ObjectKeyword => "js.Object"
  | Keyword NeverKeyword => "Nothing"
  | Keyword ThisKeyword | ThisType => "this.type"
  | TypeReference typeName typeArguments =>
      convertTypeReference typeName (map convertTypeToScala typeArguments)
  | LiteralType literal => convertLiteralType literal
  | TypeLiteral _ => "js.Any"
  | FunctionType parameters type =>
      convertFunctionType
        (map (fun p => match param_type p with
                       | Some t => convertTypeToScala t
                       | None => "js.Any"
                       end) parameters)
        (match type with
         | Some t => convertTypeToScala t
         | None => "Unit"
         end)
  | ParenthesizedType type => convertTypeToScala type
  | ArrayType elementType => convertArrayType (convertTypeToScala elementType)
  | UnionType types =>
      convertUnionType types (map convertTypeToScala types)
        (flat_map (fun t => if isStringLiteralType t then []
                            else [convertTypeToScala t]) types)
  | IntersectionType types =>
      convertIntersectionType (map convertTypeToScala types)
  | TypeOperator operator _ => convertTypeOperator operator
  | _ => "js.Any"
  end.

(** [p.type ? convertTypeToScala(p.type) : dflt] *)
Definition typeOrDefault (type : option TypeNode) (dflt : string) : string :=
  match type with
  | Some t => convertTypeToScala t
  | None => dflt
  end.

(** [str.charAt(0).toUpperCase() + str.slice(1)], for a first character in
    the ASCII range (the only letters [Js.toUpperCase] changes). *)
Definition capitalize (str : string) : string :=
  match str with
  | EmptyString => EmptyString
  | String c rest => String (Js.toUpperCase c) rest
  end.

(* ================================================================== *)
(** ** Declarations and statements                                     *)
(* ================================================================== *)

Record PropertyDeclaration : Type := mkProperty {
  prop_modifiers : list Modifier;
  prop_name : string;
  prop_type : option TypeNode
}.

Record MethodDeclaration : Type := mkMethod {
  meth_modifiers : list Modifier;
  meth_name : string;
  meth_typeParameters : list TypeParameterDeclaration;
  meth_parameters : list ParameterDeclaration;
  meth_type : option TypeNode
}.

Record ConstructorDeclaration : Type := mkConstructor {
  ctor_modifiers : list Modifier;
  ctor_parameters : list ParameterDeclaration
}.

(** Class members.  [OtherClassElement] stands for the member kinds that the
    converter never emits (accessors, index signatures, static blocks, stray
    semicolons); its modifiers are what [ts.getModifiers] returns (empty when
    [ts.canHaveModifiers] is false). *)
Inductive ClassElement : Type :=
| PropertyMember (node : PropertyDeclaration)
| MethodMember (node : MethodDeclaration)
| ConstructorMember (node : ConstructorDeclaration)
| OtherClassElement (modifiers : list Modifier).

Inductive HeritageToken : Type := ExtendsKeyword | ImplementsKeyword.

Record HeritageClause : Type := mkHeritage {
  token : HeritageToken;
  heritage_types : list string        (* t.expression.getText() of each type *)
}.

Record ClassDeclaration : Type := mkClass {
  class_modifiers : list Modifier;
  class_name : option string;
  class_typeParameters : list TypeParameterDeclaration;
  class_heritageClauses : list HeritageClause;
  class_members : list ClassElement
}.

Record InterfaceDeclaration : Type := mkInterface {
  iface_modifiers : list Modifier;
  iface_name : string;
  iface_typeParameters : list TypeParameterDeclaration;
  iface_members : list TypeElement
}.

Record EnumDeclaration : Type := mkEnum {
  enum_modifiers : list Modifier;
  enum_name : string;
  enum_members : list string          (* member.name?.getText() *)
}.

Record TypeAliasDeclaration : Type := mkTypeAlias {
  alias_modifiers : list Modifier;
  alias_name : string;
  alias_typeParameters : list TypeParameterDeclaration;
  alias_type : TypeNode
}.

(** A variable declaration together with the [flags] of its parent
    declaration list ([variable.parent.flags]). *)
Record VariableDeclaration : Type := mkVariable {
  var_name : string;
  var_type : option TypeNode;
  var_parentFlags : Z
}.

Record VariableStatement : Type := mkVariableStatement {
  vs_modifiers : list Modifier;
  declarations : list VariableDeclaration   (* declarationList.declarations *)
}.

(** Function declarations carry their name.  The anonymous
    [export default function] form, whose name the aggregators dereference
    unconditionally, is not represented. *)
Record FunctionDeclaration : Type := mkFunction {
  fn_modifiers : list Modifier;
  fn_name : string;
  fn_typeParameters : list TypeParameterDeclaration;
  fn_parameters : list ParameterDeclaration;
  fn_type : option TypeNode
}.

Inductive Expression : Type :=
| Identifier (text : string)
| OtherExpression (text : string).

Record ExportAssignment : Type := mkExportAssignment {
  ea_modifiers : list Modifier;
  expression : Expression
}.

Inductive ModuleName : Type :=
| ModuleIdentifier (text : string)       (* namespace Foo / module Foo *)
| ModuleStringLiteral (text : string).   (* declare module "foo"      *)

(** Statements.  The body of a module declaration is [Some statements] when
    it is a [ModuleBlock]; it is [None] when there is no body or when the
    body is itself a module declaration (the dotted form [namespace A.B]). *)
Inductive Statement : Type :=
| StModule (modifiers : list Modifier) (name : ModuleName)
           (body : option (list Statement))
| StClass (node : ClassDeclaration)
| StInterface (node : InterfaceDeclaration)
| StEnum (node : EnumDeclaration)
| StTypeAlias (node : TypeAliasDeclaration)
| StVariable (node : VariableStatement)
| StFunction (node : FunctionDeclaration)
| StExportDeclaration
| StExportAssignment (node : ExportAssignment)
| StImportDeclaration
| StOther (modifiers : list Modifier).

Definition SourceFile : Type := list Statement.   (* sourceFile.statements *)

Definition statementModifiers (st : Statement) : list Modifier :=
  match st with
  | StModule m _ _ => m
  | StClass n => class_modifiers n
  | StInterface n => iface_modifiers n
  | StEnum n => enum_modifiers n
  | StTypeAlias n => alias_modifiers n
  | StVariable n => vs_modifiers n
  | StFunction n => fn_modifiers n
  | StExportAssignment n => ea_modifiers n
  | StOther m => m
  | StExportDeclaration | StImportDeclaration => []
  end.

Definition hasExportModifier (st : Statement) : bool :=
  hasModifier ExportKeyword (statementModifiers st).

Definition isModuleDeclaration (st : Statement) : bool :=
  match st with StModule _ _ _ => true | _ => false end.

(** [ts.NodeFlags.Const] *)
Definition NodeFlags_Const : Z := 2.

(** Truthiness of [declList.flags & ts.NodeFlags.Const]. *)
Definition hasConstFlag (flags : Z) : bool :=
  negb (Z.eqb (Z.land flags NodeFlags_Const) 0).

(* ================================================================== *)
(** ** The output buffer                                               *)
(* ================================================================== *)

(** Modelled from the spec: the OutputBuffer, "an append-only sequence of
    text lines with a current indentation level" with scoped blocks.  In the
    source it is the CodeBlockWriter class of the external package
    code-block-writer, which is not part of the repository; the model keeps
    the methods the converter calls ([write], [writeLine], [newLine],
    [block], [setIndentationLevel], [getIndentationLevel], [toString]) with
    the package's documented behaviour.  The package also tracks whether the
    text written so far ends inside a string literal or a comment (it then
    suppresses indentation); that tracking is left out. *)
Record CodeBlockWriter : Type := mkWriter {
  w_indentNumberOfSpaces : nat;
  w_currentIndentation : nat;
  w_newLineOnNextWrite : bool;
  w_text : string
}.

Definition Action : Type := CodeBlockWriter -> CodeBlockWriter.

Module Writer.

(** [new CodeBlockWriter({indentNumberOfSpaces: n, ...})]; the package
    reads the option as [opts.indentNumberOfSpaces || 4]. *)
Definition create (n : nat) : CodeBlockWriter :=
  mkWriter (if Nat.eqb n 0 then 4 else n) 0 false "".

Definition toString (w : CodeBlockWriter) : string := w_text w.

Definition getIndentationLevel (w : CodeBlockWriter) : nat :=
  w_currentIndentation w.

Definition setIndentationLevel (n : nat) : Action := fun w =>
  mkWriter (w_indentNumberOfSpaces w) n (w_newLineOnNextWrite w) (w_text w).

Definition setNewLineOnNextWrite (b : bool) : Action := fun w =>
  mkWriter (w_indentNumberOfSpaces w) (w_currentIndentation w) b (w_text w).

Definition writeRaw (s : string) : Action := fun w =>
  mkWriter (w_indentNumberOfSpaces w) (w_currentIndentation w)
           (w_newLineOnNextWrite w) (w_text w ++ s).

Definition getLastChar (w : CodeBlockWriter) : option ascii :=
  Js.lastChar (w_text w).

Definition isLastNewLine (w : CodeBlockWriter) : bool :=
  match getLastChar w with
  | Some c => Js.isLineTerminator c
  | None => false
  end.

Definition isLastSpace (w : CodeBlockWriter) : bool :=
  match getLastChar w with
  | Some c => Ascii.eqb c " "%char
  | None => false
  end.

Definition baseWriteNewline : Action := writeRaw Js.nl.

Definition newLine : Action := fun w =>
  baseWriteNewline (setNewLineOnNextWrite false w).

Definition newLineIfNewLineOnNextWrite : Action := fun w =>
  if w_newLineOnNextWrite w then newLine w else w.

Definition newLineIfLastNot : Action := fun w =>
  let w1 := newLineIfNewLineOnNextWrite w in
  if isLastNewLine w1 then w1 else newLine w1.

Definition writeIndentation : Action := fun w =>
  writeRaw (Js.spaces (w_indentNumberOfSpaces w * w_currentIndentation w)) w.

(** One line of a text being written: indentation first when the buffer
    stands at the start of a line; nothing for an empty piece. *)
Definition writeItem (s : string) : Action := fun w =>
  if Nat.eqb (String.length s) 0 then w
  else writeRaw s (if isLastNewLine w then writeIndentation w else w).

Fixpoint writeItems (first : bool) (items : list string) : Action := fun w =>
  match items with
  | [] => w
  | s :: rest =>
      writeItems false rest
        (writeItem s (if first then w else baseWriteNewline w))
  end.

Definition writeIndentingNewLines (s : string) : Action :=
  writeItems true (Js.splitNewLines s).

Definition write (s : string) : Action := fun w =>
  writeIndentingNewLines s (newLineIfNewLineOnNextWrite w).

Definition writeLine (s : string) : Action := fun w =>
  let w1 := newLineIfNewLineOnNextWrite w in
  let w2 := match getLastChar w1 with
            | Some _ => newLineIfLastNot w1
            | None => w1
            end in
  newLine (writeIndentingNewLines s w2).

Definition spaceIfLastNot : Action := fun w =>
  let w1 := newLineIfNewLineOnNextWrite w in
  if isLastSpace w1 then w1 else writeIndentingNewLines " " w1.

Definition indentBlockInternal (body : Action) : Action := fun w =>
  let w1 := match getLastChar w with
            | Some _ => newLineIfLastNot w
            | None => w
            end in
  let w2 := setIndentationLevel (S (w_currentIndentation w1)) w1 in
  let w3 := body w2 in
  setIndentationLevel (Nat.pred (w_currentIndentation w3)) w3.

Definition inlineBlock (body : Action) : Action := fun w =>
  let w1 := newLineIfNewLineOnNextWrite w in
  let w2 := write "{" w1 in
  let w3 := indentBlockInternal body w2 in
  write "}" (newLineIfLastNot w3).

Definition block (body : Action) : Action := fun w =>
  let w1 := newLineIfNewLineOnNextWrite w in
  let w2 := if negb (Nat.eqb (String.length (w_text w1)) 0)
               && negb (isLastNewLine w1)
            then spaceIfLastNot w1 else w1 in
  setNewLineOnNextWrite true (inlineBlock body w2).

End Writer.

(** Sequencing of writer calls, and [forEach] over a node array. *)
Definition andThen (a b : Action) : Action := fun w => b (a w).
Notation "a ;; b" := (andThen a b) (at level 61, left associativity).
Definition skip : Action := fun w => w.
Definition forEach {A : Type} (arr : list A) (f : A -> Action) : Action :=
  fun w => fold_left (fun acc x => f x acc) arr w.

(* ================================================================== *)
(** ** NameSanitizer and MemberEmitter                                 *)
(* ================================================================== *)

Definition backquote (name : string) : string := "`" ++ name ++ "`".

(** [SCALA_RESERVED_WORDS.includes(name) ? `\`${name}\`` : name], the
    expression behind [safeModuleName], [safeClassName], [safeName] and
    [safeParamName]. *)
Definition quoteIfReserved (name : string) : string :=
  if Js.arrayIncludes SCALA_RESERVED_WORDS name then backquote name else name.

(** [packageDeclaration] of [generateScalaOutput]. *)
Definition packageDeclaration (packageName : string) : string :=
  if Js.includes "-" packageName
     || negb (Js.matchesBareIdentifier packageName)
     || Js.arrayIncludes SCALA_RESERVED_WORDS packageName
  then "package " ++ backquote packageName
  else "package " ++ packageName.

(** The [typeParams] / [typeParamString] computation shared by classes,
    interfaces, methods, functions and type aliases. *)
Definition typeParams (tps : list TypeParameterDeclaration) : list string :=
  map (fun tp =>
         tp_name tp ++
         match tp_constraint tp with
         | Some c => " <: " ++ convertTypeToScala c
         | None => ""
         end) tps.

Definition typeParamString (tps : list TypeParameterDeclaration) : string :=
  if negb (Nat.eqb (length (typeParams tps)) 0)
  then "[" ++ Js.join ", " (typeParams tps) ++ "]" else "".

Definition processPropertyDeclaration (node : PropertyDeclaration)
           (isAbstractClass : bool) : Action :=
  if isPrivateOrProtected (prop_modifiers node) then skip
  else if hasModifier StaticKeyword (prop_modifiers node) then skip
  else
    let name := prop_name node in
    let typeText := typeOrDefault (prop_type node) "js.Any" in
    let keyword :=
      if hasModifier ReadonlyKeyword (prop_modifiers node) then "def" else "var" in
    let implementation := if isAbstractClass then "" else " = js.native" in
    Writer.writeLine (keyword ++ " " ++ name ++ ": " ++ typeText ++ implementation).

Definition processPropertySignature (name : string) (modifiers : list Modifier)
           (type : option TypeNode) : Action :=
  let typeText := typeOrDefault type "js.Any" in
  let keyword := if hasModifier ReadonlyKeyword modifiers then "def" else "var" in
  Writer.writeLine (keyword ++ " " ++ name ++ ": " ++ typeText ++ " = js.native").

(** One entry of [params] in [processMethodDeclaration] (the parameter name
    is used as written). *)
Definition methodDeclarationParam (p : ParameterDeclaration) : string :=
  let paramName := param_name p in
  let paramType := typeOrDefault (param_type p) "js.Any" in
  if dotDotDotToken p then
    paramName ++ ": " ++ Js.unwrapJsArray paramType ++ "*"
  else
    paramName ++ ": " ++ paramType ++ (if questionToken p then " = ???" else "").

(** One entry of [params] in [processMethodSignature]. *)
Definition methodSignatureParam (p : ParameterDeclaration) : string :=
  let paramName := param_name p in
  let paramType := typeOrDefault (param_type p) "js.Any" in
  let safeParamName := quoteIfReserved paramName in
  if dotDotDotToken p then
    safeParamName ++ ": " ++ Js.unwrapJsArray paramType ++ "*"
  else
    safeParamName ++ ": " ++ paramType ++ (if questionToken p then " = ???" else "").

Definition overridePrefix (name : string) : string :=
  if Js.arrayIncludes ["toString"; "clone"] name then "override " else "".

Definition processMethodDeclaration (node : MethodDeclaration)
           (isAbstractClass : bool) : Action :=
  if isPrivateOrProtected (meth_modifiers node) then skip
  else
    let name := meth_name node in
    let safeName := quoteIfReserved name in
    let params := Js.join ", " (map methodDeclarationParam (meth_parameters node)) in
    let returnType := typeOrDefault (meth_type node) "Unit" in
    let implementation := if isAbstractClass then "" else " = js.native" in
    Writer.writeLine (overridePrefix name ++ "def " ++ safeName
                      ++ typeParamString (meth_typeParameters node)
                      ++ "(" ++ params ++ "): " ++ returnType ++ implementation).

Definition processMethodSignature (name : string)
           (typeParameters : list TypeParameterDeclaration)
           (parameters : list ParameterDeclaration) (type : option TypeNode)
  : Action :=
  let safeName := quoteIfReserved name in
  let params := Js.join ", " (map methodSignatureParam parameters) in
  let returnType := typeOrDefault type "js.Dynamic" in
  Writer.writeLine (overridePrefix name ++ "def " ++ safeName
                    ++ typeParamString typeParameters
                    ++ "(" ++ params ++ "): " ++ returnType ++ " = js.native").

Definition processIndexSignature (modifiers : list Modifier)
           (parameter : ParameterDeclaration) (type : option TypeNode) : Action :=
  let indexType := typeOrDefault (param_type parameter) "js.Any" in
  let returnType := typeOrDefault type "js.Any" in
  let paramName := param_name parameter in
  Writer.writeLine "@JSBracketAccess" ;;
  Writer.writeLine ("def apply(" ++ paramName ++ ": " ++ indexType ++ "): "
                    ++ returnType ++ " = js.native") ;;
  (if hasModifier ReadonlyKeyword modifiers then skip
   else
     Writer.writeLine "@JSBracketAccess" ;;
     Writer.writeLine ("def update(" ++ paramName ++ ": " ++ indexType ++ ", v: "
                       ++ returnType ++ "): Unit = js.native")).

Definition processClassMember (member : ClassElement) (isAbstractClass : bool)
  : Action :=
  match member with
  | PropertyMember node => processPropertyDeclaration node isAbstractClass
  | MethodMember node => processMethodDeclaration node isAbstractClass
  | _ => skip
  end.

Definition processInterfaceMember (member : TypeElement) : Action :=
  match member with
  | PropertySignature name modifiers type =>
      processPropertySignature name modifiers type
  | MethodSignature name typeParameters parameters type =>
      processMethodSignature name typeParameters parameters type
  | IndexSignature modifiers parameter type =>
      processIndexSignature modifiers parameter type
  | _ => skip
  end.

(* ================================================================== *)
(** ** DeclarationEmitter: classes, interfaces, enums, variables       *)
(* ================================================================== *)

Definition classElementModifiers (member : ClassElement) : list Modifier :=
  match member with
  | PropertyMember n => prop_modifiers n
  | MethodMember n => meth_modifiers n
  | ConstructorMember n => ctor_modifiers n
  | OtherClassElement m => m
  end.

(** [ts.canHaveModifiers(member) && ts.getModifiers(member)?.some(static)] *)
Definition isStaticMember (member : ClassElement) : bool :=
  hasModifier StaticKeyword (classElementModifiers member).

Definition staticMethodsOf (members : list ClassElement) : list MethodDeclaration :=
  flat_map (fun m => match m with
                     | MethodMember n => if isStaticMember m then [n] else []
                     | _ => []
                     end) members.

Definition staticPropertiesOf (members : list ClassElement)
  : list PropertyDeclaration :=
  flat_map (fun m => match m with
                     | PropertyMember n => if isStaticMember m then [n] else []
                     | _ => []
                     end) members.

Definition ctorDeclarationsOf (members : list ClassElement)
  : list ConstructorDeclaration :=
  flat_map (fun m => match m with
                     | ConstructorMember n => [n]
                     | _ => []
                     end) members.

(** [heritageString] of [processClassDeclaration]. *)
Definition heritageString (heritageClauses : list HeritageClause) : string :=
  let heritageTypes := flat_map heritage_types heritageClauses in
  let extendsClause :=
    find (fun h => match token h with ExtendsKeyword => true | _ => false end)
         heritageClauses in
  match heritageTypes with
  | [] => Js.join " with " ["js.Object"]
  | first :: others =>
      match extendsClause with
      | Some (mkHeritage _ (t0 :: _)) => Js.join " with " (t0 :: others)
      | _ => Js.join " with " (first :: others)
      end
  end.

(** The line of a secondary constructor. *)
Definition ctorParam (p : ParameterDeclaration) : string :=
  param_name p ++ ": " ++ typeOrDefault (param_type p) "js.Any".

Definition emitSecondaryConstructor (cons : ConstructorDeclaration) : Action :=
  if Nat.eqb (length (ctor_parameters cons)) 0 then skip
  else Writer.writeLine
         ("def this(" ++ Js.join ", " (map ctorParam (ctor_parameters cons))
          ++ ") = this()").

(** The [@JSGlobal] line of the class itself. *)
Definition classJSGlobal (namespace className : string) : string :=
  if Js.truthy namespace
  then "@JSGlobal(" ++ Js.dq ++ namespace ++ "." ++ className ++ Js.dq ++ ")"
  else "@JSGlobal".

(** The [@JSGlobal] line of the companion object of the static members. *)
Definition companionJSGlobal (namespace className : string) : string :=
  if Js.truthy namespace && Js.truthy (Js.lastDotSegment namespace)
  then "@JSGlobal(" ++ Js.dq ++ Js.lastDotSegment namespace ++ "." ++ className ++ Js.dq ++ ")"
  else "@JSGlobal".

Definition emitStaticProperty (prop : PropertyDeclaration) : Action :=
  if isPrivateOrProtected (prop_modifiers prop) then skip
  else
    let keyword :=
      if hasModifier ReadonlyKeyword (prop_modifiers prop) then "val" else "var" in
    Writer.writeLine (keyword ++ " " ++ prop_name prop ++ ": "
                      ++ typeOrDefault (prop_type prop) "js.Any" ++ " = js.native").

Definition emitStaticMethod (m : MethodDeclaration) : Action :=
  if isPrivateOrProtected (meth_modifiers m) then skip
  else processMethodDeclaration m false.

Definition processClassDeclaration (node : ClassDeclaration) (namespace : string)
  : Action := fun writer =>
  let className :=
    match class_name node with
    | Some n => if Js.truthy n then n else "AnonymousClass"
    | None => "AnonymousClass"
    end in
  let isAbstract := hasModifier AbstractKeyword (class_modifiers node) in
  let safeClassName := quoteIfReserved className in
  let typeParamString := typeParamString (class_typeParameters node) in
  let writer := Writer.newLine writer in
  let currentIndentLevel := Writer.getIndentationLevel writer in
  let staticMethods := staticMethodsOf (class_members node) in
  let staticProperties := staticPropertiesOf (class_members node) in
  let ctorDeclarations := ctorDeclarationsOf (class_members node) in
  let hasParamCtor :=
    existsb (fun c => negb (Nat.eqb (length (ctor_parameters c)) 0))
            ctorDeclarations in
  (Writer.setIndentationLevel 0 ;;
   Writer.write "@js.native" ;; Writer.newLine ;;
   Writer.write (classJSGlobal namespace className) ;; Writer.newLine ;;
   Writer.write ((if isAbstract then "abstract " else "") ++ "class "
                 ++ safeClassName ++ typeParamString
                 ++ (if hasParamCtor then " protected ()" else "")
                 ++ " extends " ++ heritageString (class_heritageClauses node)
                 ++ " ") ;;
   Writer.block
     (forEach ctorDeclarations emitSecondaryConstructor ;;
      forEach (class_members node)
        (fun member => if isStaticMember member then skip
                       else processClassMember member isAbstract)) ;;
   Writer.newLine ;;
   (if negb (Nat.eqb (length staticMethods) 0)
       || negb (Nat.eqb (length staticProperties) 0)
    then
      Writer.write "@js.native" ;; Writer.newLine ;;
      Writer.write (companionJSGlobal namespace className) ;; Writer.newLine ;;
      Writer.write ("object " ++ safeClassName ++ " extends js.Object ") ;;
      Writer.block
        (forEach staticProperties emitStaticProperty ;;
         forEach staticMethods emitStaticMethod) ;;
      Writer.newLine
    else skip) ;;
   Writer.setIndentationLevel currentIndentLevel) writer.

(** A property signature whose declared type is a type literal:
    [ts.isPropertySignature(m) && m.type && ts.isTypeLiteralNode(m.type)]. *)
Definition inlineTypeLiteral (member : TypeElement)
  : option (string * list Modifier * list TypeElement) :=
  match member with
  | PropertySignature name modifiers (Some (TypeLiteral members)) =>
      Some (name, modifiers, members)
  | _ => None
  end.

Definition inlineTypeLiteralMembersOf (members : list TypeElement)
  : list (string * list Modifier * list TypeElement) :=
  flat_map (fun m => match inlineTypeLiteral m with
                     | Some x => [x]
                     | None => []
                     end) members.

(** [if (!seen.has(line)) { seen.add(line); writer.writeLine(line) }] on the
    pair of the [seen] set and the writer. *)
Definition writeLineOnce (line : string) (st : list string * CodeBlockWriter)
  : list string * CodeBlockWriter :=
  let (seen, writer) := st in
  if Js.arrayIncludes seen line then (seen, writer)
  else (line :: seen, Writer.writeLine line writer).

(** The signature text of a member that is rendered through a temporary
    writer: [temp.toString().trim()]. *)
Definition memberSignature (member : TypeElement) : string :=
  Js.trim (Writer.toString (processInterfaceMember member (Writer.create 0))).

(** The line of one member of the interface trait. *)
Definition interfaceTraitLine (interfaceName : string) (member : TypeElement)
  : string :=
  match inlineTypeLiteral member with
  | Some (propName, modifiers, _) =>
      let traitName := capitalize propName in
      let keyword := if hasModifier ReadonlyKeyword modifiers then "def" else "var" in
      keyword ++ " " ++ propName ++ ": " ++ interfaceName ++ "." ++ traitName
      ++ " = js.native"
  | None => memberSignature member
  end.

Definition writeInterfaceTrait (node : InterfaceDeclaration) : Action :=
  let interfaceName := iface_name node in
  Writer.write "@js.native" ;; Writer.newLine ;;
  Writer.write ("trait " ++ interfaceName
                ++ typeParamString (iface_typeParameters node)
                ++ " extends js.Object ") ;;
  Writer.block (fun writer =>
    snd (fold_left
           (fun st member => writeLineOnce (interfaceTraitLine interfaceName member) st)
           (iface_members node) ([], writer))).

(** Body of the innermost (third-level) trait. *)
Definition emitDeepTrait (nestedPropSig : string * list Modifier * list TypeElement)
  : Action :=
  let '(name, _, nestedMembers) := nestedPropSig in
  let nestedTraitName := capitalize name in
  Writer.write "@js.native" ;; Writer.newLine ;;
  Writer.write ("trait " ++ nestedTraitName ++ " extends js.Object ") ;;
  Writer.block (forEach nestedMembers processInterfaceMember).

(** One member of a nested (second-level) trait. *)
Definition emitNestedMember (traitName : string) (nestedMember : TypeElement)
  : Action :=
  match inlineTypeLiteral nestedMember with
  | Some (nestedPropName, _, _) =>
      let nestedTraitName := capitalize nestedPropName in
      Writer.writeLine ("var " ++ nestedPropName ++ ": " ++ traitName ++ "."
                        ++ nestedTraitName ++ " = js.native")
  | None => processInterfaceMember nestedMember
  end.

(** The nested trait generated for one inline type-literal property of the
    interface, followed by the object holding its own inline literals. *)
Definition emitNestedTrait (propSig : string * list Modifier * list TypeElement)
  : Action :=
  let '(name, _, typeLiteralMembers) := propSig in
  let traitName := capitalize name in
  let deepInlineMembers := inlineTypeLiteralMembersOf typeLiteralMembers in
  Writer.write "@js.native" ;; Writer.newLine ;;
  Writer.write ("trait " ++ traitName ++ " extends js.Object ") ;;
  Writer.block (forEach typeLiteralMembers (emitNestedMember traitName)) ;;
  (if negb (Nat.eqb (length deepInlineMembers) 0) then
     Writer.newLine ;;
     Writer.write ("object " ++ traitName ++ " ") ;;
     Writer.block (forEach deepInlineMembers emitDeepTrait)
   else skip).

Definition processInterfaceDeclaration (node : InterfaceDeclaration)
           (_namespace : string) : Action := fun writer =>
  let interfaceName := iface_name node in
  let writer := Writer.newLine writer in
  let currentIndentLevel := Writer.getIndentationLevel writer in
  let inlineTypeLiteralMembers := inlineTypeLiteralMembersOf (iface_members node) in
  (Writer.setIndentationLevel 0 ;;
   writeInterfaceTrait node ;;
   (if negb (Nat.eqb (length inlineTypeLiteralMembers) 0) then
      Writer.newLine ;;
      Writer.write ("object " ++ interfaceName ++ " ") ;;
      Writer.block (forEach inlineTypeLiteralMembers emitNestedTrait)
    else skip) ;;
   Writer.newLine ;;
   Writer.setIndentationLevel currentIndentLevel) writer.

Definition processEnumDeclaration (node : EnumDeclaration) (namespace : string)
  : Action := fun writer =>
  let enumName := enum_name node in
  let writer := Writer.newLine writer in
  let currentIndentLevel := Writer.getIndentationLevel writer in
  (Writer.setIndentationLevel 0 ;;
   Writer.write "@js.native" ;; Writer.newLine ;;
   Writer.write ("sealed trait " ++ enumName ++ " extends js.Object ") ;;
   Writer.block skip ;;
   Writer.newLine ;;
   Writer.newLine ;;
   Writer.write "@js.native" ;; Writer.newLine ;;
   (if Js.truthy namespace
    then Writer.write ("@JSGlobal(" ++ Js.dq ++ namespace ++ "." ++ enumName ++ Js.dq ++ ")")
    else Writer.write ("@JSGlobal(" ++ Js.dq ++ enumName ++ Js.dq ++ ")")) ;;
   Writer.newLine ;;
   Writer.write ("object " ++ enumName ++ " extends js.Object ") ;;
   Writer.block
     (forEach (enum_members node)
        (fun memberName =>
           if Js.truthy memberName
           then Writer.writeLine ("var " ++ memberName ++ ": " ++ enumName
                                  ++ " = js.native")
           else skip) ;;
      Writer.writeLine "@JSBracketAccess" ;;
      Writer.writeLine ("def apply(value: " ++ enumName ++ "): String = js.native")) ;;
   Writer.newLine ;;
   Writer.setIndentationLevel currentIndentLevel) writer.

Definition processTypeAliasDeclaration (_node : TypeAliasDeclaration)
           (_namespace : string) : Action := skip.

(** One member of the object emitted for a variable of type-literal type. *)
Definition emitObjectMember (member : TypeElement) : Action :=
  match member with
  | PropertySignature name _ type =>
      let memberName := if Js.truthy name then name else "unknown" in
      let memberType := typeOrDefault type "js.Any" in
      let safeMemberName :=
        if Js.startsWithDigit memberName || Js.includes "." memberName
        then backquote memberName else memberName in
      Writer.writeLine ("var " ++ safeMemberName ++ ": " ++ memberType
                        ++ " = js.native")
  | _ => skip
  end.

Definition processVariableDeclaration (decl : VariableDeclaration)
           (namespace : string) : Action := fun writer =>
  let varName := var_name decl in
  match var_type decl with
  | Some (TypeLiteral members) =>
      let writer := Writer.newLine writer in
      let currentIndentLevel := Writer.getIndentationLevel writer in
      (Writer.setIndentationLevel 0 ;;
       Writer.write "@js.native" ;; Writer.newLine ;;
       (if Js.truthy namespace
        then Writer.write ("@JSGlobal(" ++ Js.dq ++ namespace ++ "." ++ varName ++ Js.dq ++ ")")
        else Writer.write "@JSGlobal") ;;
       Writer.newLine ;;
       Writer.write ("object " ++ varName ++ " extends js.Object ") ;;
       Writer.block (forEach members emitObjectMember) ;;
       Writer.newLine ;;
       Writer.setIndentationLevel currentIndentLevel) writer
  | _ => writer
  end.

Definition processVariableStatement (node : VariableStatement)
           (namespace : string) : Action :=
  forEach (declarations node) (fun decl => processVariableDeclaration decl namespace).

Definition processFunctionDeclaration (_node : FunctionDeclaration)
           (_namespace : string) : Action := skip.

Definition processExportAssignment (_node : ExportAssignment)
           (_namespace : string) : Action := skip.

(* ================================================================== *)
(** ** ExportAggregator                                                *)
(* ================================================================== *)

Definition getTypeAliasName (typeAlias : TypeAliasDeclaration) : string :=
  let name := alias_name typeAlias in
  let tps := typeParams (alias_typeParameters typeAlias) in
  if negb (Nat.eqb (length tps) 0)
  then name ++ "[" ++ Js.join ", " tps ++ "]" else name.

Definition convertTypeAliasToScala (typeAlias : TypeAliasDeclaration) : string :=
  convertTypeToScala (alias_type typeAlias).

Definition typeAliasLine (typeAlias : TypeAliasDeclaration) : string :=
  "type " ++ getTypeAliasName typeAlias ++ " = " ++ convertTypeAliasToScala typeAlias.

(** The line written for one collected variable (both aggregators). *)
Definition variableLine (variable : VariableDeclaration) : string :=
  let varName := var_name variable in
  let varType := typeOrDefault (var_type variable) "js.Any" in
  let keyword := if hasConstFlag (var_parentFlags variable) then "val" else "def" in
  keyword ++ " " ++ varName ++ ": " ++ varType ++ " = js.native".

(** The [params] of a collected function (no sanitising, no rest or
    optional handling). *)
Definition functionParams (func : FunctionDeclaration) : string :=
  Js.join ", " (map ctorParam (fn_parameters func)).

(** The line of a function in a module object. *)
Definition moduleFunctionLine (func : FunctionDeclaration) : string :=
  "def " ++ fn_name func ++ typeParamString (fn_typeParameters func)
  ++ "(" ++ functionParams func ++ "): "
  ++ typeOrDefault (fn_type func) "js.Dynamic" ++ " = js.native".

(** The line of a function in the global scope object (the same text for
    the forwarding binding of an export assignment and for the direct
    binding). *)
Definition globalFunctionLine (func : FunctionDeclaration) : string :=
  "def " ++ fn_name func ++ "(" ++ functionParams func ++ "): "
  ++ typeOrDefault (fn_type func) "Unit" ++ " = js.native".

Record ModuleExports : Type := mkModuleExports {
  m_interfaces : list InterfaceDeclaration;
  m_types : list TypeAliasDeclaration;
  m_functions : list FunctionDeclaration;
  m_variables : list VariableDeclaration
}.

Record TopLevelExports : Type := mkTopLevelExports {
  interfaces : list InterfaceDeclaration;
  types : list TypeAliasDeclaration;
  classes : list ClassDeclaration;
  functions : list FunctionDeclaration;
  exportAssignments : list ExportAssignment;
  variables : list VariableDeclaration
}.

Definition generateModuleObject (moduleName : string) (exports : ModuleExports)
  : Action := fun writer =>
  if Nat.eqb (length (m_types exports)) 0
     && Nat.eqb (length (m_functions exports)) 0
     && Nat.eqb (length (m_variables exports)) 0
  then writer
  else
    let writer := Writer.newLine writer in
    let currentIndentLevel := Writer.getIndentationLevel writer in
    (Writer.setIndentationLevel 0 ;;
     Writer.write "@js.native" ;; Writer.newLine ;;
     Writer.write ("@JSGlobal(" ++ Js.dq ++ moduleName ++ Js.dq ++ ")") ;; Writer.newLine ;;
     Writer.write ("object " ++ capitalize moduleName ++ " extends js.Object ") ;;
     Writer.block
       (forEach (m_types exports)
          (fun typeAlias => Writer.writeLine (typeAliasLine typeAlias)) ;;
        forEach (m_variables exports)
          (fun variable => Writer.writeLine (variableLine variable)) ;;
        forEach (m_functions exports)
          (fun func => Writer.writeLine (moduleFunctionLine func))) ;;
     Writer.newLine ;;
     Writer.setIndentationLevel currentIndentLevel) writer.

(** The function an export assignment forwards to:
    [exports.functions.find(func => func.name?.getText() === exportedName)]
    when the assigned expression is an identifier. *)
Definition exportedFunction (fns : list FunctionDeclaration)
           (exportAssignment : ExportAssignment) : option FunctionDeclaration :=
  match expression exportAssignment with
  | Identifier exportedName =>
      find (fun func => String.eqb (fn_name func) exportedName) fns
  | OtherExpression _ => None
  end.

Definition generateGlobalScopeObject (packageName : string)
           (exports : TopLevelExports) : Action := fun writer =>
  if Nat.eqb (length (types exports)) 0
     && Nat.eqb (length (functions exports)) 0
     && Nat.eqb (length (exportAssignments exports)) 0
     && Nat.eqb (length (variables exports)) 0
  then writer
  else
    let writer := Writer.newLine writer in
    let currentIndentLevel := Writer.getIndentationLevel writer in
    (Writer.setIndentationLevel 0 ;;
     Writer.write "@js.native" ;; Writer.newLine ;;
     Writer.write "@JSGlobalScope" ;; Writer.newLine ;;
     Writer.write ("object " ++ capitalize packageName ++ " extends js.Object ") ;;
     Writer.block (fun writer =>
       (* const emitted = new Set<string>(); emit = writeLineOnce *)
       let writer :=
         forEach (types exports)
           (fun typeAlias => Writer.writeLine (typeAliasLine typeAlias)) writer in
       let st :=
         fold_left
           (fun st exportAssignment =>
              match exportedFunction (functions exports) exportAssignment with
              | Some func => writeLineOnce (globalFunctionLine func) st
              | None => st
              end)
           (exportAssignments exports) ([], writer) in
       let st :=
         (fst st,
          forEach (variables exports)
            (fun variable => Writer.writeLine (variableLine variable)) (snd st)) in
       snd (fold_left
              (fun st func => writeLineOnce (globalFunctionLine func) st)
              (functions exports) st)) ;;
     Writer.newLine ;;
     Writer.setIndentationLevel currentIndentLevel) writer.

(* ================================================================== *)
(** ** Statement dispatch, modules and the file                        *)
(* ================================================================== *)

(** What the loop over a module body pushes into [exports]. The pushes and
    the calls of [processStatement] in that loop act on different objects,
    so the collected arrays are computed on their own. *)
Definition collectModuleExports (statements : list Statement) : ModuleExports :=
  mkModuleExports
    (flat_map (fun st => match st with StInterface n => [n] | _ => [] end) statements)
    (flat_map (fun st => match st with StTypeAlias n => [n] | _ => [] end) statements)
    (flat_map (fun st => match st with StFunction n => [n] | _ => [] end) statements)
    (flat_map (fun st =>
                 match st with
                 | StVariable n =>
                     filter (fun decl => negb (match var_type decl with
                                               | Some t => isTypeLiteralNode t
                                               | None => false
                                               end))
                            (declarations n)
                 | _ => []
                 end) statements).

(** What the loop over [sourceFile.statements] pushes into
    [topLevelExports]. *)
Definition collectTopLevelExports (statements : list Statement) : TopLevelExports :=
  mkTopLevelExports
    (flat_map (fun st => match st with
                         | StInterface n => if hasExportModifier st then [n] else []
                         | _ => [] end) statements)
    (flat_map (fun st => match st with StTypeAlias n => [n] | _ => [] end) statements)
    (flat_map (fun st => match st with
                         | StClass n => if hasExportModifier st then [n] else []
                         | _ => [] end) statements)
    (flat_map (fun st => match st with StFunction n => [n] | _ => [] end) statements)
    (flat_map (fun st => match st with StExportAssignment n => [n] | _ => [] end)
              statements)
    (flat_map (fun st =>
                 match st with
                 | StVariable n =>
                     filter (fun decl => match var_type decl with
                                         | Some t => negb (isTypeLiteralNode t)
                                         | None => false
                                         end)
                            (declarations n)
                 | _ => []
                 end) statements).

(** [processModuleDeclaration], with the statement dispatcher it calls back
    as a parameter. *)
Definition processModuleDeclarationWith
           (processStatement : Statement -> string -> Action)
           (name : ModuleName) (body : option (list Statement))
           (namespace : string) : Action := fun writer =>
  match name with
  | ModuleStringLiteral _ => writer
  | ModuleIdentifier moduleName =>
      let newNamespace :=
        if Js.truthy namespace then namespace ++ "." ++ moduleName else moduleName in
      let safeModuleName := quoteIfReserved moduleName in
      let writer := Writer.newLine writer in
      let currentIndentLevel := Writer.getIndentationLevel writer in
      (Writer.setIndentationLevel 0 ;;
       Writer.write ("package " ++ safeModuleName ++ " ") ;;
       Writer.block
         ((match body with
           | Some statements =>
               let exports := collectModuleExports statements in
               forEach statements (fun st => processStatement st newNamespace) ;;
               (if negb (Nat.eqb (length (m_types exports)) 0)
                   || negb (Nat.eqb (length (m_functions exports)) 0)
                   || negb (Nat.eqb (length (m_variables exports)) 0)
                then generateModuleObject moduleName exports
                else skip)
           | None => skip
           end) ;;
          Writer.setIndentationLevel 0 ;;
          Writer.newLine) ;;
       Writer.setIndentationLevel currentIndentLevel) writer
  end.

Fixpoint processStatement (statement : Statement) (namespace : string)
  : Action :=
  match statement with
  | StModule _ name body =>
      processModuleDeclarationWith processStatement name body namespace
  | StClass node => processClassDeclaration node namespace
  | StInterface node => processInterfaceDeclaration node namespace
  | StEnum node => processEnumDeclaration node namespace
  | StTypeAlias node => processTypeAliasDeclaration node namespace
  | StVariable node => processVariableStatement node namespace
  | StFunction node => processFunctionDeclaration node namespace
  | StExportDeclaration => skip
  | StExportAssignment node => processExportAssignment node namespace
  | StImportDeclaration => skip
  | StOther _ => skip
  end.

Definition processModuleDeclaration (name : ModuleName)
           (body : option (list Statement)) (namespace : string) : Action :=
  processModuleDeclarationWith processStatement name body namespace.

Definition generateScalaOutput (sourceFile : SourceFile) (packageName : string)
  : Action :=
  Writer.writeLine "" ;;
  Writer.writeLine "import scala.scalajs.js" ;;
  Writer.writeLine "import js.annotation._" ;;
  Writer.writeLine "import js.|" ;;
  Writer.writeLine "" ;;
  Writer.write (packageDeclaration packageName ++ " ") ;;
  Writer.block
    (let topLevelExports := collectTopLevelExports sourceFile in
     forEach sourceFile (fun statement => processStatement statement "") ;;
     (if negb (Nat.eqb (length (types topLevelExports)) 0)
         || negb (Nat.eqb (length (exportAssignments topLevelExports)) 0)
         || negb (Nat.eqb (length (variables topLevelExports)) 0)
      then generateGlobalScopeObject packageName topLevelExports
      else skip) ;;
     Writer.setIndentationLevel 0 ;;
     Writer.newLine ;;
     (if existsb isModuleDeclaration sourceFile then Writer.newLine else skip)).

(** [convertTsToScala] on the parsed source file (the parser is an external
    collaborator). *)
Definition convertTsToScala (sourceFile : SourceFile) (packageName : string)
  : string :=
  Writer.toString (generateScalaOutput sourceFile packageName (Writer.create 2)).

(* ================================================================== *)
(** ** Definitions used to state the properties                        *)
(* ================================================================== *)

(** The type-node kinds that have a mapping rule of their own in the
    [switch] of [convertTypeToScala]; the [TypeLiteral] case and the
    [default] case are the two that answer with the universal type. *)
Definition hasMappingRule (typeNode : TypeNode) : bool :=
  match typeNode with
  | Keyword StringKeyword | Keyword NumberKeyword | Keyword BooleanKeyword
  | Keyword VoidKeyword | Keyword NullKeyword | Keyword UndefinedKeyword
  | Keyword AnyKeyword | Keyword ObjectKeyword | Keyword NeverKeyword
  | Keyword ThisKeyword | ThisType => true
  | TypeReference _ _ | LiteralType _ | FunctionType _ _
  | ParenthesizedType _ | ArrayType _ | UnionType _ | IntersectionType _
  | TypeOperator _ _ => true
  | TypeLiteral _ | Unmapped _ | Keyword _ => false
  end.

(** A numeric literal type with the given source text. *)
Definition numericLiteralType (text : string) : TypeNode :=
  LiteralType (NumericLiteral text).

(** *** The text a writer call appends

    [render ind startOfLine s] is the text that writing the string [s]
    appends to a buffer whose indentation text is [ind]: the pieces of [s]
    between line breaks, each non-empty piece that starts a line preceded by
    [ind].  [startOfLine] tells whether the buffer stands at the start of a
    line when the write begins. *)
Definition renderPiece (ind : string) (startOfLine : bool) (s : string) : string :=
  if Nat.eqb (String.length s) 0 then ""
  else (if startOfLine then ind else "") ++ s.

Fixpoint renderRest (ind : string) (items : list string) : string :=
  match items with
  | [] => ""
  | s :: rest => Js.nl ++ renderPiece ind true s ++ renderRest ind rest
  end.

Definition renderItems (ind : string) (startOfLine : bool) (items : list string)
  : string :=
  match items with
  | [] => ""
  | s :: rest => renderPiece ind startOfLine s ++ renderRest ind rest
  end.

Definition render (ind : string) (startOfLine : bool) (s : string) : string :=
  renderItems ind startOfLine (Js.splitNewLines s).

(** The text of one [writeLine] call, and of a run of them. *)
Definition renderLine (ind : string) (s : string) : string :=
  render ind true s ++ Js.nl.

Fixpoint linesText (ind : string) (lines : list string) : string :=
  match lines with
  | [] => ""
  | l :: rest => renderLine ind l ++ linesText ind rest
  end.

(** Indentation text of a writer with [n] spaces per level at level [i]. *)
Definition indentOf (n i : nat) : string := Js.spaces (n * i).

Definition endsWithNewLine (t : string) : bool :=
  match Js.lastChar t with
  | Some c => Js.isLineTerminator c
  | None => false
  end.

(** The buffer text once a pending line break has been written. *)
Definition settle (pending : bool) (t : string) : string :=
  if pending then t ++ Js.nl else t.

(** The buffer text once it is made to end with a line break. *)
Definition ensureNewLine (pending : bool) (t : string) : string :=
  if pending then t ++ Js.nl
  else if endsWithNewLine t then t else t ++ Js.nl.

(** A string that is written as one line as it stands: not empty and free
    of line terminators. *)
Definition singleLine (s : string) : bool :=
  negb (Nat.eqb (String.length s) 0)
  && Js.allChars (fun c => negb (Js.isLineTerminator c)) s.

(** The [seen] set after a run of [writeLineOnce] calls. *)
Definition seenAfter (seen : list string) (lines : list string) : list string :=
  fold_left (fun acc l => if Js.arrayIncludes acc l then acc else l :: acc)
            lines seen.

(** [hay] contains [needle] as a substring. *)
Definition containsText (needle hay : string) : Prop :=
  exists before after, hay = before ++ needle ++ after.

(** The state a block is closed in: the line break that is still due is
    written, then the closing brace one level out. *)
Definition closeBlock (w : CodeBlockWriter) : CodeBlockWriter :=
  mkWriter (w_indentNumberOfSpaces w) (Nat.pred (w_currentIndentation w)) true
           (ensureNewLine (w_newLineOnNextWrite w) (w_text w)
            ++ indentOf (w_indentNumberOfSpaces w) (Nat.pred (w_currentIndentation w))
            ++ "}").

(** The lines of the body of a module object, in the order written. *)
Definition moduleObjectLines (exports : ModuleExports) : list string :=
  app (map typeAliasLine (m_types exports))
      (app (map variableLine (m_variables exports))
           (map moduleFunctionLine (m_functions exports))).

(** The forwarding bindings of the export assignments, before
    de-duplication. *)
Definition forwardingLines (exports : TopLevelExports) : list string :=
  flat_map (fun exportAssignment =>
              match exportedFunction (functions exports) exportAssignment with
              | Some func => [globalFunctionLine func]
              | None => []
              end) (exportAssignments exports).

(** The lines of the body of the global scope object, in the order
    written: type aliases, forwarding bindings, variables, then the direct
    function bindings whose text has not been written as a forwarding
    binding. *)
Definition globalScopeLines (exports : TopLevelExports) : list string :=
  app (map typeAliasLine (types exports))
      (app (Js.dedup (forwardingLines exports))
           (app (map variableLine (variables exports))
                (Js.dedupFrom (seenAfter [] (forwardingLines exports))
                              (map globalFunctionLine (functions exports))))).

(** The text of an object or package emitted at the left margin: two
    annotation lines, the header, the indented body lines, the closing
    brace and a line break. *)
Definition annotatedObjectText (n : nat) (annotation1 annotation2 header : string)
           (bodyLines : list string) : string :=
  Js.nl ++ renderLine "" annotation1 ++ renderLine "" annotation2
  ++ render "" true header ++ "{" ++ Js.nl
  ++ linesText (Js.spaces n) bodyLines ++ "}" ++ Js.nl.

(** The binding specified for a collected variable: [val] when the parent
    declaration list carries the const flag, a parameterless [def]
    otherwise. *)
Definition readOnlyBinding (variable : VariableDeclaration) : string :=
  (if hasConstFlag (var_parentFlags variable) then "val" else "def")
  ++ " " ++ var_name variable ++ ": "
  ++ typeOrDefault (var_type variable) "js.Any" ++ " = js.native".

(** The buffer is append-only: an action extends the text written so far. *)
Definition appendOnly (a : Action) : Prop :=
  forall w, exists s, w_text (a w) = w_text w ++ s.

(** The fixed text every output starts with: a blank line, the three
    import lines and a blank line. *)
Definition fileHeader : string :=
  Js.nl ++ "import scala.scalajs.js" ++ Js.nl
  ++ "import js.annotation._" ++ Js.nl
  ++ "import js.|" ++ Js.nl
  ++ Js.nl.

(** The package clause as the specification words it: the name is quoted exactly
    when it contains a hyphen, fails the bare-identifier grammar or is a
    reserved word. *)
Definition packageClause (packageName : string) : string :=
  if Js.includes "-" packageName
     || negb (Js.matchesBareIdentifier packageName)
     || Js.arrayIncludes SCALA_RESERVED_WORDS packageName
  then "package `" ++ packageName ++ "`"
  else "package " ++ packageName.

(** A line of the output that is an import line. *)
Definition isImportLine (line : string) : bool := String.prefix "import " line.

(** A text given line by line. *)
Definition textOfLines (lines : list string) : string := Js.join Js.nl lines.

(** A string between double quotes. *)
Definition quoted (s : string) : string := Js.dq ++ s ++ Js.dq.

(** The sanitizer as the specification words it: an identifier that is a
    reserved word or fails the bare-identifier grammar is wrapped in
    backquotes, any other identifier is returned unchanged. *)
Definition sanitize_spec (identifier : string) : string :=
  if Js.arrayIncludes SCALA_RESERVED_WORDS identifier
     || negb (Js.matchesBareIdentifier identifier)
  then "`" ++ identifier ++ "`"
  else identifier.

(** The rule the emitters apply to module, class, method and
    method-signature parameter names: backquotes for reserved words only. *)
Definition quoteReservedOnly (identifier : string) : string :=
  if Js.arrayIncludes SCALA_RESERVED_WORDS identifier
  then "`" ++ identifier ++ "`"
  else identifier.

(** [className] of [processClassDeclaration]. *)
Definition classNameOf (node : ClassDeclaration) : string :=
  match class_name node with
  | Some n => if Js.truthy n then n else "AnonymousClass"
  | None => "AnonymousClass"
  end.

(** The header line of a class, around its name. *)
Definition classHeader (node : ClassDeclaration) (renderedName : string) : string :=
  (if hasModifier AbstractKeyword (class_modifiers node) then "abstract " else "")
  ++ "class " ++ renderedName ++ typeParamString (class_typeParameters node)
  ++ (if existsb (fun c => negb (Nat.eqb (length (ctor_parameters c)) 0))
                 (ctorDeclarationsOf (class_members node))
      then " protected ()" else "")
  ++ " extends " ++ heritageString (class_heritageClauses node) ++ " ".

(** The text after the parameter name in a rendered method parameter. *)
Definition paramSuffix (p : ParameterDeclaration) : string :=
  if dotDotDotToken p
  then ": " ++ Js.unwrapJsArray (typeOrDefault (param_type p) "js.Any") ++ "*"
  else ": " ++ typeOrDefault (param_type p) "js.Any"
       ++ (if questionToken p then " = ???" else "").

(** [a] is the beginning of [s]. *)
Definition startsWith (a s : string) : Prop := exists rest, s = a ++ rest.

(** *** The text of an interface declaration

    The lines [processInterfaceMember] writes for one member. *)
Definition memberLines (member : TypeElement) : list string :=
  match member with
  | PropertySignature name modifiers type =>
      [(if hasModifier ReadonlyKeyword modifiers then "def" else "var")
       ++ " " ++ name ++ ": " ++ typeOrDefault type "js.Any" ++ " = js.native"]
  | MethodSignature name typeParameters parameters type =>
      [overridePrefix name ++ "def " ++ quoteIfReserved name
       ++ typeParamString typeParameters
       ++ "(" ++ Js.join ", " (map methodSignatureParam parameters) ++ "): "
       ++ typeOrDefault type "js.Dynamic" ++ " = js.native"]
  | IndexSignature modifiers parameter type =>
      app ["@JSBracketAccess";
           "def apply(" ++ param_name parameter ++ ": "
           ++ typeOrDefault (param_type parameter) "js.Any" ++ "): "
           ++ typeOrDefault type "js.Any" ++ " = js.native"]
          (if hasModifier ReadonlyKeyword modifiers then []
           else ["@JSBracketAccess";
                 "def update(" ++ param_name parameter ++ ": "
                 ++ typeOrDefault (param_type parameter) "js.Any" ++ ", v: "
                 ++ typeOrDefault type "js.Any" ++ "): Unit = js.native"])
  | _ => []
  end.

(** The lines written for one member of a nested (second-level) trait. *)
Definition nestedMemberLines (traitName : string) (member : TypeElement)
  : list string :=
  match inlineTypeLiteral member with
  | Some (name, _, _) =>
      ["var " ++ name ++ ": " ++ traitName ++ "." ++ capitalize name
       ++ " = js.native"]
  | None => memberLines member
  end.

(** A trait emitted inside an object at indentation level [level]: the
    annotation, the header, the body lines one level further in, the
    closing brace. *)
Definition traitBlock (n level : nat) (traitName : string)
           (bodyLines : list string) : string :=
  renderLine (indentOf n level) "@js.native"
  ++ render (indentOf n level) true ("trait " ++ traitName ++ " extends js.Object ")
  ++ "{" ++ Js.nl
  ++ linesText (indentOf n (S level)) bodyLines
  ++ indentOf n level ++ "}" ++ Js.nl.

Fixpoint concatBlocks (blocks : list string) : string :=
  match blocks with
  | [] => ""
  | b :: rest => b ++ concatBlocks rest
  end.

(** An object emitted at indentation level [level] around blocks of text. *)
Definition objectBlock (n level : nat) (objectName : string)
           (blocks : list string) : string :=
  render (indentOf n level) true ("object " ++ objectName ++ " ")
  ++ "{" ++ Js.nl ++ concatBlocks blocks ++ indentOf n level ++ "}" ++ Js.nl.

(** Third level: the trait of a type literal found inside a nested trait.
    Its members are written by [processInterfaceMember], whatever their
    type. *)
Definition deepTraitBlock (n : nat)
           (propSig : string * list Modifier * list TypeElement) : string :=
  let '(name, _, members) := propSig in
  traitBlock n 2 (capitalize name) (flat_map memberLines members).

(** Second level: the trait of a type literal found in the interface, and
    the object that holds the traits of its own type-literal properties. *)
Definition nestedTraitBlock (n : nat)
           (propSig : string * list Modifier * list TypeElement) : string :=
  let '(name, _, members) := propSig in
  let traitName := capitalize name in
  traitBlock n 1 traitName (flat_map (nestedMemberLines traitName) members)
  ++ (if negb (Nat.eqb (length (inlineTypeLiteralMembersOf members)) 0)
      then objectBlock n 1 traitName
             (map (deepTraitBlock n) (inlineTypeLiteralMembersOf members))
      else "").

(** The whole text of an interface declaration. *)
Definition interfaceText (n : nat) (node : InterfaceDeclaration) : string :=
  Js.nl ++ renderLine "" "@js.native"
  ++ render "" true ("trait " ++ iface_name node
                     ++ typeParamString (iface_typeParameters node)
                     ++ " extends js.Object ")
  ++ "{" ++ Js.nl
  ++ linesText (indentOf n 1)
       (Js.dedup (map (interfaceTraitLine (iface_name node)) (iface_members node)))
  ++ "}" ++ Js.nl
  ++ (if negb (Nat.eqb (length (inlineTypeLiteralMembersOf (iface_members node))) 0)
      then objectBlock n 0 (iface_name node)
             (map (nestedTraitBlock n)
                  (inlineTypeLiteralMembersOf (iface_members node)))
      else "").

(** An action that, from a buffer at the start of a line or with a line
    break pending, writes the block [blk] and leaves its final line break
    pending. *)
Definition emitsBlock (a : Action) (n i : nat) (blk : string) : Prop :=
  forall f t, (f || endsWithNewLine t) = true ->
    exists t', a (mkWriter n i f t) = mkWriter n i true t'
               /\ t' ++ Js.nl = settle f t ++ blk.

(** A string literal type with the given source text. *)
Definition stringLiteralType (text : string) : TypeNode :=
  LiteralType (StringLiteral text).

(** The mapped type of a parameter of a function type. *)
Definition functionParamType (p : ParameterDeclaration) : string :=
  typeOrDefault (param_type p) "js.Any".

(** The buffer stands at a line boundary: at the start of a line, or with
    the line break after a closed block still pending. *)
Definition atLineBoundary (w : CodeBlockWriter) : bool :=
  w_newLineOnNextWrite w || Writer.isLastNewLine w.

(** *** The text of an enum declaration *)

(** The body lines of the object of an enum: one binding per named member,
    then the subscript-style lookup. *)
Definition enumObjectLines (node : EnumDeclaration) : list string :=
  app (flat_map (fun memberName =>
                   if Js.truthy memberName
                   then ["var " ++ memberName ++ ": " ++ enum_name node
                         ++ " = js.native"]
                   else []) (enum_members node))
      ["@JSBracketAccess";
       "def apply(value: " ++ enum_name node ++ "): String = js.native"].

Definition enumJSGlobal (namespace enumName : string) : string :=
  if Js.truthy namespace
  then "@JSGlobal(" ++ Js.dq ++ namespace ++ "." ++ enumName ++ Js.dq ++ ")"
  else "@JSGlobal(" ++ Js.dq ++ enumName ++ Js.dq ++ ")".

(** The sealed marker trait with its empty body, then the annotated object. *)
Definition enumText (n : nat) (namespace : string) (node : EnumDeclaration)
  : string :=
  Js.nl ++ renderLine "" "@js.native"
  ++ render "" true ("sealed trait " ++ enum_name node ++ " extends js.Object ")
  ++ "{" ++ Js.nl ++ "}" ++ Js.nl
  ++ annotatedObjectText n "@js.native" (enumJSGlobal namespace (enum_name node))
       ("object " ++ enum_name node ++ " extends js.Object ")
       (enumObjectLines node).

(** *** The text of a variable of type-literal type *)

(** The line of one member of the object: property signatures only, the
    name backquoted when it starts with a digit or contains a dot. *)
Definition objectMemberLines (member : TypeElement) : list string :=
  match member with
  | PropertySignature name _ type =>
      let memberName := if Js.truthy name then name else "unknown" in
      ["var "
       ++ (if Js.startsWithDigit memberName || Js.includes "." memberName
           then "`" ++ memberName ++ "`" else memberName)
       ++ ": " ++ typeOrDefault type "js.Any" ++ " = js.native"]
  | _ => []
  end.

Definition variableJSGlobal (namespace varName : string) : string :=
  if Js.truthy namespace
  then "@JSGlobal(" ++ Js.dq ++ namespace ++ "." ++ varName ++ Js.dq ++ ")"
  else "@JSGlobal".

(** What a variable declaration writes at its place in the output. *)
Definition variableObjectText (n : nat) (namespace : string)
           (decl : VariableDeclaration) : string :=
  match var_type decl with
  | Some (TypeLiteral members) =>
      annotatedObjectText n "@js.native"
        (variableJSGlobal namespace (var_name decl))
        ("object " ++ var_name decl ++ " extends js.Object ")
        (flat_map objectMemberLines members)
  | _ => ""
  end.

(** *** The text of a class declaration *)

Definition secondaryConstructorLines (cons : ConstructorDeclaration)
  : list string :=
  if Nat.eqb (length (ctor_parameters cons)) 0 then []
  else ["def this(" ++ Js.join ", " (map ctorParam (ctor_parameters cons))
        ++ ") = this()"].

Definition methodLine (node : MethodDeclaration) (isAbstractClass : bool)
  : string :=
  overridePrefix (meth_name node) ++ "def " ++ quoteIfReserved (meth_name node)
  ++ typeParamString (meth_typeParameters node)
  ++ "(" ++ Js.join ", " (map methodDeclarationParam (meth_parameters node))
  ++ "): " ++ typeOrDefault (meth_type node) "Unit"
  ++ (if isAbstractClass then "" else " = js.native").

Definition propertyLine (node : PropertyDeclaration) (isAbstractClass : bool)
  : string :=
  (if hasModifier ReadonlyKeyword (prop_modifiers node) then "def" else "var")
  ++ " " ++ prop_name node ++ ": " ++ typeOrDefault (prop_type node) "js.Any"
  ++ (if isAbstractClass then "" else " = js.native").

(** The lines of one member in the body of the class: nothing for static
    members, for private or protected members and for members that are
    neither properties nor methods. *)
Definition classMemberLines (isAbstractClass : bool) (member : ClassElement)
  : list string :=
  if isStaticMember member then []
  else match member with
       | PropertyMember node =>
           if isPrivateOrProtected (prop_modifiers node) then []
           else [propertyLine node isAbstractClass]
       | MethodMember node =>
           if isPrivateOrProtected (meth_modifiers node) then []
           else [methodLine node isAbstractClass]
       | _ => []
       end.

Definition staticPropertyLines (prop : PropertyDeclaration) : list string :=
  if isPrivateOrProtected (prop_modifiers prop) then []
  else [(if hasModifier ReadonlyKeyword (prop_modifiers prop) then "val" else "var")
        ++ " " ++ prop_name prop ++ ": "
        ++ typeOrDefault (prop_type prop) "js.Any" ++ " = js.native"].

Definition staticMethodLines (m : MethodDeclaration) : list string :=
  if isPrivateOrProtected (meth_modifiers m) then [] else [methodLine m false].

Definition classBodyLines (node : ClassDeclaration) : list string :=
  app (flat_map secondaryConstructorLines (ctorDeclarationsOf (class_members node)))
      (flat_map (classMemberLines
                   (hasModifier AbstractKeyword (class_modifiers node)))
                (class_members node)).

Definition companionLines (node : ClassDeclaration) : list string :=
  app (flat_map staticPropertyLines (staticPropertiesOf (class_members node)))
      (flat_map staticMethodLines (staticMethodsOf (class_members node))).

(** The class has a companion object: it declares a static method or a
    static property, of any visibility. *)
Definition hasStaticMembers (node : ClassDeclaration) : bool :=
  negb (Nat.eqb (length (staticMethodsOf (class_members node))) 0)
  || negb (Nat.eqb (length (staticPropertiesOf (class_members node))) 0).

(** The whole text of a class declaration: the annotated class with its
    body, then, when there are static members, the annotated companion
    object. *)
Definition classText (n : nat) (namespace : string) (node : ClassDeclaration)
  : string :=
  Js.nl ++ renderLine "" "@js.native"
  ++ renderLine "" (classJSGlobal namespace (classNameOf node))
  ++ render "" true (classHeader node (quoteIfReserved (classNameOf node)))
  ++ "{" ++ Js.nl
  ++ linesText (Js.spaces n) (classBodyLines node)
  ++ "}" ++ Js.nl
  ++ (if hasStaticMembers node
      then renderLine "" "@js.native"
           ++ renderLine "" (companionJSGlobal namespace (classNameOf node))
           ++ render "" true ("object " ++ quoteIfReserved (classNameOf node)
                              ++ " extends js.Object ")
           ++ "{" ++ Js.nl
           ++ linesText (Js.spaces n) (companionLines node)
           ++ "}" ++ Js.nl
      else "").

(** Members that leave no trace in the output: private and protected
    instance properties and methods, constructors without parameters, and
    the member kinds that are never emitted (accessors, index signatures,
    static blocks). *)
Definition leavesNoTrace (member : ClassElement) : bool :=
  match member with
  | PropertyMember node =>
      negb (isStaticMember member) && isPrivateOrProtected (prop_modifiers node)
  | MethodMember node =>
      negb (isStaticMember member) && isPrivateOrProtected (meth_modifiers node)
  | ConstructorMember node => Nat.eqb (length (ctor_parameters node)) 0
  | OtherClassElement _ => true
  end.

(** The class without the members that leave no trace. *)
Definition withoutSilentMembers (node : ClassDeclaration) : ClassDeclaration :=
  mkClass (class_modifiers node) (class_name node) (class_typeParameters node)
          (class_heritageClauses node)
          (filter (fun m => negb (leavesNoTrace m)) (class_members node)).

(** *** The text of a whole file *)

(** The text of the object written by [generateModuleObject] under the
    guard of its caller: nothing when no type alias, function or variable
    was collected. *)
Definition moduleObjectText (n : nat) (moduleName : string)
           (exports : ModuleExports) : string :=
  if negb (Nat.eqb (length (m_types exports)) 0)
     || negb (Nat.eqb (length (m_functions exports)) 0)
     || negb (Nat.eqb (length (m_variables exports)) 0)
  then annotatedObjectText n "@js.native"
         ("@JSGlobal(" ++ Js.dq ++ moduleName ++ Js.dq ++ ")")
         ("object " ++ capitalize moduleName ++ " extends js.Object ")
         (moduleObjectLines exports)
  else "".

(** The text of the object written by [generateGlobalScopeObject] under
    the guard of its caller: nothing when no type alias, export assignment
    or typed variable was collected. *)
Definition globalScopeObjectText (n : nat) (packageName : string)
           (exports : TopLevelExports) : string :=
  if negb (Nat.eqb (length (types exports)) 0)
     || negb (Nat.eqb (length (exportAssignments exports)) 0)
     || negb (Nat.eqb (length (variables exports)) 0)
  then annotatedObjectText n "@js.native" "@JSGlobalScope"
         ("object " ++ capitalize packageName ++ " extends js.Object ")
         (globalScopeLines exports)
  else "".

(** A package block at the left margin: a line break, the header, the
    opening brace, the body, a line break and the closing brace. *)
Definition packageBlockText (header body : string) : string :=
  Js.nl ++ render "" true header ++ "{" ++ Js.nl ++ body ++ Js.nl ++ "}".

(** The namespace path inside a module. *)
Definition newNamespaceOf (namespace moduleName : string) : string :=
  if Js.truthy namespace then namespace ++ "." ++ moduleName else moduleName.

(** The text a statement contributes at its place in the output. *)
Fixpoint statementText (n : nat) (namespace : string) (statement : Statement)
  {struct statement} : string :=
  match statement with
  | StModule _ (ModuleIdentifier moduleName) body =>
      packageBlockText
        ("package " ++ quoteIfReserved moduleName ++ " ")
        (match body with
         | Some statements =>
             concatBlocks
               (map (statementText n (newNamespaceOf namespace moduleName))
                    statements)
             ++ moduleObjectText n moduleName (collectModuleExports statements)
         | None => ""
         end)
  | StModule _ (ModuleStringLiteral _) _ => ""
  | StClass node => classText n namespace node
  | StInterface node => interfaceText n node
  | StEnum node => enumText n namespace node
  | StVariable node =>
      concatBlocks (map (variableObjectText n namespace) (declarations node))
  | StTypeAlias _ | StFunction _ | StExportDeclaration | StExportAssignment _
  | StImportDeclaration | StOther _ => ""
  end.

(** The text of a whole output for the statements of a source file. *)
Definition fileText (sourceFile : SourceFile) (packageName : string) : string :=
  fileHeader
  ++ render "" true (packageDeclaration packageName ++ " ") ++ "{" ++ Js.nl
  ++ concatBlocks (map (statementText 2 "") sourceFile)
  ++ globalScopeObjectText 2 packageName (collectTopLevelExports sourceFile)
  ++ Js.nl
  ++ (if existsb isModuleDeclaration sourceFile then Js.nl else "")
  ++ "}".

(** Statements that leave no trace in the output of a file when they stand
    at the top level: imports, export declarations, statements of a kind
    the dispatcher has no case for, and variable statements none of whose
    declarations has a type annotation. *)
Definition ignoredAtTopLevel (statement : Statement) : bool :=
  match statement with
  | StExportDeclaration | StImportDeclaration | StOther _ => true
  | StVariable node =>
      forallb (fun decl => match var_type decl with
                           | Some _ => false
                           | None => true
                           end) (declarations node)
  | _ => false
  end.

(** Statements after which a file still has nothing to show: the ignored
    ones and function declarations. *)
Definition declaresNothingVisible (statement : Statement) : bool :=
  ignoredAtTopLevel statement
  || match statement with
     | StFunction _ => true
     | _ => false
     end.

(* ================================================================== *)
(** ** The batch driver: the names derived from a file path            *)
(* ================================================================== *)

Module Run.

(** [s.replace(/\.d\.ts$/, replacement)]: the suffix [.d.ts] is replaced
    when the string ends with it; the string is returned as it is
    otherwise. *)
Definition replaceDeclarationSuffix (replacement s : string) : string :=
  match Js.stripPrefix "st.d." (Js.reverse s) with
  | Some r => Js.reverse r ++ replacement
  | None => s
  end.

(** A global replacement by a character class: every character is
    replaced on its own. *)
Fixpoint replaceChars (f : ascii -> ascii) (s : string) : string :=
  match s with
  | EmptyString => EmptyString
  | String c rest => String (f c) (replaceChars f rest)
  end.

Definition slash : ascii := ascii_of_nat 47.
Definition backslash : ascii := ascii_of_nat 92.

(** The character class of [/[\/\\]/]. *)
Definition isSeparator (c : ascii) : bool :=
  Ascii.eqb c slash || Ascii.eqb c backslash.

(** The complement of the character class of [/[^a-zA-Z0-9_.]/]. *)
Definition isPackageChar (c : ascii) : bool :=
  Js.isLower c || Js.isUpper c || Js.isDigit c || Js.isUnderscore c
  || Ascii.eqb c "."%char.

(** [s.replace(/[\/\\]/g, '.')] *)
Definition replaceSeparators (s : string) : string :=
  replaceChars (fun c => if isSeparator c then "."%char else c) s.

(** [s.replace(/[^a-zA-Z0-9_.]/g, '_')] *)
Definition replaceUnsafe (s : string) : string :=
  replaceChars (fun c => if isPackageChar c then c else "_"%char) s.

(** The [packageName] of [convertFile], from the path of the file relative
    to the input folder. *)
Definition packageNameOf (relativePath : string) : string :=
  replaceUnsafe (replaceSeparators (replaceDeclarationSuffix "" relativePath)).

(** The path of the written file relative to the output folder. *)
Definition outputRelativePath (relativePath : string) : string :=
  replaceDeclarationSuffix ".d.ts.scala" relativePath.

(** The [scalaContent] of [convertFile], from the parsed content of the
    file. *)
Definition scalaContent (sourceFile : SourceFile) (relativePath : string)
  : string :=
  convertTsToScala sourceFile (packageNameOf relativePath).

(** A path segment after the two replacements. *)
Definition segmentName (segment : string) : string :=
  replaceUnsafe (replaceSeparators segment).

End Run.

(* ================================================================== *)
(** * Properties                                                        *)
(* ================================================================== *)

(* ================================================================== *)
(** ** Facts about the JavaScript primitives                           *)
(* ================================================================== *)

Lemma arrayIncludes_In (arr : list string) (x : string) :
  Js.arrayIncludes arr x = true <-> In x arr.
Proof.
  unfold Js.arrayIncludes. rewrite existsb_exists. split.
  - intros [y [Hin Heq]]. apply String.eqb_eq in Heq. now subst.
  - intros Hin. exists x. split; [assumption | apply String.eqb_refl].
Qed.

Lemma arrayIncludes_false (arr : list string) (x : string) :
  Js.arrayIncludes arr x = false <-> ~ In x arr.
Proof.
  rewrite <- arrayIncludes_In.
  destruct (Js.arrayIncludes arr x); split; intros H;
    try reflexivity; try discriminate; try (exfalso; now apply H).
Qed.

Lemma dedupFrom_In (x : string) (arr seen : list string) :
  In x (Js.dedupFrom seen arr) <-> In x arr /\ ~ In x seen.
Proof.
  revert seen. induction arr as [|a rest IH]; intros seen; simpl.
  - tauto.
  - destruct (Js.arrayIncludes seen a) eqn:E.
    + apply arrayIncludes_In in E. rewrite IH. split.
      * tauto.
      * intros [[Hax | Hin] Hns]; [subst; contradiction | tauto].
    + apply arrayIncludes_false in E. simpl. rewrite IH. simpl. split.
      * intros [Hax | [Hin Hns]]; [subst; tauto | tauto].
      * intros [[Hax | Hin] Hns]; [tauto |].
        destruct (string_dec a x); [tauto | right; tauto].
Qed.

Lemma dedupFrom_NoDup (arr seen : list string) : NoDup (Js.dedupFrom seen arr).
Proof.
  revert seen. induction arr as [|a rest IH]; intros seen; simpl.
  - constructor.
  - destruct (Js.arrayIncludes seen a); [apply IH |].
    constructor; [| apply IH].
    rewrite dedupFrom_In. simpl. tauto.
Qed.

Lemma dedup_In (x : string) (arr : list string) :
  In x (Js.dedup arr) <-> In x arr.
Proof. unfold Js.dedup. rewrite dedupFrom_In. simpl. tauto. Qed.

Lemma dedupFrom_all_seen (arr seen : list string) :
  (forall x, In x arr -> In x seen) -> Js.dedupFrom seen arr = [].
Proof.
  revert seen. induction arr as [|a rest IH]; intros seen H; simpl; [reflexivity|].
  assert (Ha : Js.arrayIncludes seen a = true)
    by (apply arrayIncludes_In, H; now left).
  rewrite Ha. apply IH. intros x Hx. apply H. now right.
Qed.

(** De-duplication of a list over two values, the first of which has been
    seen. *)
Lemma dedupFrom_two_valued (a b : string) (arr : list string) :
  a <> b -> (forall x, In x arr -> x = a \/ x = b) ->
  Js.dedupFrom [a] arr = if Js.arrayIncludes arr b then [b] else [].
Proof.
  intros Hab. induction arr as [|x rest IH]; intros H; simpl; [reflexivity|].
  destruct (H x (or_introl eq_refl)) as [-> | ->].
  - rewrite String.eqb_refl. simpl.
    assert (String.eqb b a = false) as -> by (apply String.eqb_neq; congruence).
    simpl. apply IH. intros y Hy. apply H. now right.
  - assert (String.eqb b a = false) as -> by (apply String.eqb_neq; congruence).
    rewrite String.eqb_refl. simpl.
    rewrite dedupFrom_all_seen; [reflexivity|].
    intros y Hy. destruct (H y (or_intror Hy)) as [-> | ->]; simpl; tauto.
Qed.

Lemma filter_NoDup_singleton (p : string -> bool) (T : string) (l : list string) :
  NoDup l -> In T l -> p T = true ->
  (forall x, In x l -> p x = true -> x = T) ->
  filter p l = [T].
Proof.
  intros Hnd. induction Hnd as [|a l Hnotin Hnd IH]; intros Hin HpT Hall.
  - destruct Hin.
  - simpl. destruct Hin as [-> | Hin].
    + rewrite HpT. f_equal.
      assert (Hnone : forall x, In x l -> p x = false).
      { intros x Hx. destruct (p x) eqn:E; [|reflexivity].
        assert (x = T) by (apply Hall; [now right | assumption]).
        subst. contradiction. }
      clear -Hnone. induction l as [|y l IHl]; simpl; [reflexivity|].
      rewrite (Hnone y (or_introl eq_refl)). apply IHl.
      intros x Hx. apply Hnone. now right.
    + destruct (p a) eqn:E.
      * assert (a = T) by (apply Hall; [now left | assumption]).
        subst. contradiction.
      * apply IH; try assumption. intros x Hx. apply Hall. now right.
Qed.

(* ================================================================== *)
(** ** TypeMapper properties                                           *)
(* ================================================================== *)

Lemma all_string_literals_map (nodeTypes : list TypeNode) :
  forallb isStringLiteralType nodeTypes = true ->
  forall x, In x (map convertTypeToScala nodeTypes) -> x = "String".
Proof.
  intros H x Hin. apply in_map_iff in Hin. destruct Hin as [t [<- Ht]].
  rewrite forallb_forall in H. specialize (H t Ht).
  destruct t; try discriminate. destruct literal; try discriminate. reflexivity.
Qed.

Lemma all_numeric_literals_map (nodeTypes : list TypeNode) :
  forallb isNumericLiteralType nodeTypes = true ->
  forall x, In x (map convertTypeToScala nodeTypes) -> x = "Int" \/ x = "Double".
Proof.
  intros H x Hin. apply in_map_iff in Hin. destruct Hin as [t [<- Ht]].
  rewrite forallb_forall in H. specialize (H t Ht).
  destruct t; try discriminate. destruct literal; try discriminate. simpl.
  destruct (Js.includes "." text); auto.
Qed.

Lemma numeric_literals_not_strings (texts : list string) :
  existsb isStringLiteralType (map numericLiteralType texts) = false.
Proof. induction texts as [|s rest IH]; simpl; auto. Qed.

Lemma numeric_literals_all_numeric (texts : list string) :
  forallb isNumericLiteralType (map numericLiteralType texts) = true.
Proof. induction texts as [|s rest IH]; simpl; auto. Qed.

Lemma numeric_literals_allIntegers (texts : list string) :
  forallb (fun t => match numericLiteralHasDot t with
                    | Some d => negb d | None => false end)
          (map numericLiteralType texts)
  = forallb (fun s => negb (Js.includes "." s)) texts.
Proof. induction texts as [|s rest IH]; simpl; [reflexivity | now rewrite IH]. Qed.

Lemma numeric_literals_allDoubles (texts : list string) :
  forallb (fun t => match numericLiteralHasDot t with
                    | Some d => d | None => false end)
          (map numericLiteralType texts)
  = forallb (Js.includes ".") texts.
Proof. induction texts as [|s rest IH]; simpl; [reflexivity | now rewrite IH]. Qed.

Lemma numeric_literals_mapped (texts : list string) :
  map convertTypeToScala (map numericLiteralType texts)
  = map (fun s => if Js.includes "." s then "Double" else "Int") texts.
Proof. induction texts as [|s rest IH]; simpl; [reflexivity | now rewrite IH]. Qed.

Lemma mapped_numeric_Int_or_Double (texts : list string) (x : string) :
  In x (map (fun s => if Js.includes "." s then "Double" else "Int") texts) ->
  x = "Int" \/ x = "Double".
Proof.
  intros H. apply in_map_iff in H. destruct H as [s [<- _]].
  destruct (Js.includes "." s); auto.
Qed.

Lemma mapped_numeric_has_Double (texts : list string) :
  Js.arrayIncludes
    (map (fun s => if Js.includes "." s then "Double" else "Int") texts) "Double"
  = negb (forallb (fun s => negb (Js.includes "." s)) texts).
Proof.
  unfold Js.arrayIncludes.
  induction texts as [|s rest IH]; [reflexivity|].
  cbn [map existsb forallb]. rewrite IH.
  destruct (Js.includes "." s); reflexivity.
Qed.

Lemma mapped_numeric_has_Int (texts : list string) :
  Js.arrayIncludes
    (map (fun s => if Js.includes "." s then "Double" else "Int") texts) "Int"
  = negb (forallb (Js.includes ".") texts).
Proof.
  unfold Js.arrayIncludes.
  induction texts as [|s rest IH]; [reflexivity|].
  cbn [map existsb forallb]. rewrite IH.
  destruct (Js.includes "." s); reflexivity.
Qed.

(** C3, as the code has it.  A union whose members are all numeric literal
    types maps to [Int] when no literal text contains a decimal point and to
    [Double] when every literal text contains one; when the two kinds are
    mixed the union is not collapsed: it is the de-duplicated join of the
    mapped members in first-seen order, [Int | Double] or [Double | Int]. *)
Theorem union_of_numeric_literals (texts : list string) :
  texts <> [] ->
  convertTypeToScala (UnionType (map numericLiteralType texts)) =
    if forallb (fun s => negb (Js.includes "." s)) texts then "Int"
    else if forallb (Js.includes ".") texts then "Double"
    else if Js.includes "." (hd "" texts) then "Double | Int"
    else "Int | Double".
Proof.
  intros Hne. destruct texts as [|s0 rest]; [congruence|].
  cbn [convertTypeToScala]. unfold convertUnionType.
  rewrite numeric_literals_all_numeric, numeric_literals_allIntegers,
    numeric_literals_allDoubles, numeric_literals_mapped,
    numeric_literals_not_strings.
  change (forallb isStringLiteralType (map numericLiteralType (s0 :: rest)))
    with false.
  cbn [andb].
  destruct (forallb (fun s => negb (Js.includes "." s)) (s0 :: rest)) eqn:EI;
    [reflexivity|].
  destruct (forallb (Js.includes ".") (s0 :: rest)) eqn:ED; [reflexivity|].
  cbn [map hd]. unfold Js.dedup. cbn [Js.dedupFrom Js.arrayIncludes existsb].
  set (f := fun s => if Js.includes "." s then "Double" else "Int").
  cbn [forallb] in EI, ED.
  destruct (Js.includes "." s0) eqn:E0; cbn [negb andb] in EI, ED.
  - rewrite (@dedupFrom_two_valued "Double" "Int");
      [| discriminate | intros x Hx; destruct (mapped_numeric_Int_or_Double _ _ Hx); auto].
    unfold f. rewrite mapped_numeric_has_Int, ED. reflexivity.
  - rewrite (@dedupFrom_two_valued "Int" "Double");
      [| discriminate | intros x Hx; destruct (mapped_numeric_Int_or_Double _ _ Hx); auto].
    unfold f. rewrite mapped_numeric_has_Double, EI. reflexivity.
Qed.

Lemma union_of_numeric_literals_witness :
  convertTypeToScala (UnionType (map numericLiteralType ["1"; "2"; "3"])) = "Int"
  /\ convertTypeToScala (UnionType (map numericLiteralType ["0.5"; "1.5"])) = "Double".
Proof.
  split.
  - apply (@union_of_numeric_literals ["1"; "2"; "3"]). discriminate.
  - apply (@union_of_numeric_literals ["0.5"; "1.5"]). discriminate.
Defined.

(** C3 as stated fails: the union [1 | 2.5] has only numeric literal
    members, one of them with a decimal point, and does not map to
    [Double]. *)
Lemma union_of_numeric_literals_counterexample :
  let node := UnionType [LiteralType (NumericLiteral "1");
                         LiteralType (NumericLiteral "2.5")] in
  forallb isNumericLiteralType [LiteralType (NumericLiteral "1");
                                LiteralType (NumericLiteral "2.5")] = true
  /\ existsb (Js.includes ".") ["1"; "2.5"] = true
  /\ convertTypeToScala node = "Int | Double"
  /\ convertTypeToScala node <> "Double".
Proof. repeat split; try reflexivity. discriminate. Qed.

(** C6.  [convertTypeToScala] is a function from type nodes to strings with
    no failure outcome: it has a result on every node, and every node kind
    without a mapping rule of its own (a type literal used as a type, the
    keyword kinds that are not listed, every kind that reaches the default
    case) yields [js.Any]. *)
Theorem convertTypeToScala_total_degrades_to_any :
  (forall typeNode, exists scalaType, convertTypeToScala typeNode = scalaType)
  /\ (forall typeNode,
        hasMappingRule typeNode = false ->
        convertTypeToScala typeNode = "js.Any").
Proof.
  split.
  - intros typeNode. eexists. reflexivity.
  - intros typeNode H.
    destruct typeNode as [k| | | | | | | | | | |k]; try discriminate H;
      try reflexivity.
    destruct k; try discriminate H; reflexivity.
Qed.

Lemma convertTypeToScala_total_degrades_to_any_witness :
  convertTypeToScala (Unmapped ConditionalType) = "js.Any"
  /\ convertTypeToScala
       (TypeLiteral [PropertySignature "name" [] (Some (Keyword StringKeyword))])
     = "js.Any".
Proof.
  split;
    apply (proj2 convertTypeToScala_total_degrades_to_any); reflexivity.
Defined.

(** C8.  When the de-duplicated mapped members of a union are exactly
    [T], [Null] and [Unit] for one other type [T], the union renders as
    [T | Null | Unit]. *)
Theorem nullable_union_collapses (nodeTypes : list TypeNode) (T : string) :
  T <> "Null" -> T <> "Unit" ->
  (forall x, In x (Js.dedup (map convertTypeToScala nodeTypes))
             <-> x = T \/ x = "Null" \/ x = "Unit") ->
  convertTypeToScala (UnionType nodeTypes) = T ++ " | Null | Unit".
Proof.
  intros HN HU Hset.
  cbn [convertTypeToScala]. unfold convertUnionType.
  set (types := map convertTypeToScala nodeTypes) in *.
  assert (HinNull : In "Null" types)
    by (apply dedup_In, Hset; auto).
  destruct (forallb isStringLiteralType nodeTypes) eqn:ES.
  { pose proof (all_string_literals_map _ ES _ HinNull). discriminate. }
  destruct (forallb isNumericLiteralType nodeTypes) eqn:EN.
  { destruct (all_numeric_literals_map _ EN _ HinNull); discriminate. }
  cbn [andb].
  assert (Js.arrayIncludes (Js.dedup types) "Null" = true) as ->
    by (apply arrayIncludes_In, Hset; auto).
  assert (Js.arrayIncludes (Js.dedup types) "Unit" = true) as ->
    by (apply arrayIncludes_In, Hset; auto).
  rewrite (@filter_NoDup_singleton _ T).
  - reflexivity.
  - apply dedupFrom_NoDup.
  - apply Hset; auto.
  - apply andb_true_intro; split; apply negb_true_iff, String.eqb_neq; assumption.
  - intros x Hx Hp. apply Hset in Hx. destruct Hx as [-> | [-> | ->]].
    + reflexivity.
    + discriminate Hp.
    + discriminate Hp.
Qed.

Lemma nullable_union_collapses_witness :
  convertTypeToScala
    (UnionType [LiteralType NullLiteral; Keyword StringKeyword;
                Keyword UndefinedKeyword; Keyword VoidKeyword])
  = "String | Null | Unit".
Proof.
  apply (@nullable_union_collapses
           [LiteralType NullLiteral; Keyword StringKeyword;
            Keyword UndefinedKeyword; Keyword VoidKeyword] "String").
  - discriminate.
  - discriminate.
  - intros x. simpl. split.
    + intros [H | [H | [H | H]]]; auto. contradiction.
    + intros [H | [H | H]]; auto.
Defined.

(* ================================================================== *)
(** ** Facts about strings                                             *)
(* ================================================================== *)

Lemma string_app_nil_r (s : string) : s ++ "" = s.
Proof. induction s as [|c s IH]; simpl; [reflexivity | now rewrite IH]. Qed.

Lemma string_app_assoc (a b c : string) : (a ++ b) ++ c = a ++ (b ++ c).
Proof. induction a as [|x a IH]; simpl; [reflexivity | now rewrite IH]. Qed.

Lemma string_app_inv_head (a b c : string) : a ++ b = a ++ c -> b = c.
Proof.
  induction a as [|x a IH]; simpl; intros H; [assumption|].
  injection H as H. now apply IH.
Qed.

Lemma lastChar_app (a b : string) :
  b <> "" -> Js.lastChar (a ++ b) = Js.lastChar b.
Proof.
  intros Hb. induction a as [|x a IH]; [reflexivity|].
  change (String x a ++ b) with (String x (a ++ b)).
  cbn [Js.lastChar]. destruct (a ++ b) eqn:E.
  - destruct a; [simpl in E; congruence | discriminate E].
  - exact IH.
Qed.

Lemma lastChar_app_char (a : string) (c : ascii) :
  Js.lastChar (a ++ String c "") = Some c.
Proof. rewrite lastChar_app; [reflexivity | discriminate]. Qed.

Lemma endsWithNewLine_app_nl (t : string) : endsWithNewLine (t ++ Js.nl) = true.
Proof. unfold endsWithNewLine, Js.nl. now rewrite lastChar_app_char. Qed.

Lemma endsWithNewLine_app (a b : string) :
  b <> "" -> endsWithNewLine (a ++ b) = endsWithNewLine b.
Proof. intros H. unfold endsWithNewLine. now rewrite lastChar_app. Qed.

Lemma length_zero_iff (s : string) :
  Nat.eqb (String.length s) 0 = true <-> s = "".
Proof. destruct s; simpl; split; intros; congruence. Qed.

Lemma splitNewLines_nonempty (s : string) : Js.splitNewLines s <> [].
Proof.
  induction s as [|c s IH]; simpl; [discriminate|].
  destruct (Ascii.eqb c Js.newline); [discriminate|].
  destruct (Ascii.eqb c Js.carriageReturn &&
            match s with String d _ => Ascii.eqb d Js.newline | EmptyString => false end);
    [assumption|].
  destruct (Js.splitNewLines s); discriminate.
Qed.

Lemma splitNewLines_singleLine (s : string) :
  Js.allChars (fun c => negb (Js.isLineTerminator c)) s = true ->
  Js.splitNewLines s = [s].
Proof.
  induction s as [|c s IH]; simpl; intros H; [reflexivity|].
  apply andb_true_iff in H. destruct H as [Hc Hs].
  unfold Js.isLineTerminator in Hc. apply negb_true_iff, orb_false_iff in Hc.
  destruct Hc as [Hn Hr]. rewrite Hn, Hr. simpl. now rewrite (IH Hs).
Qed.

Lemma render_singleLine (ind s : string) :
  singleLine s = true -> render ind true s = ind ++ s.
Proof.
  unfold singleLine. intros H. apply andb_true_iff in H. destruct H as [Hl Hc].
  unfold render. rewrite (splitNewLines_singleLine _ Hc).
  unfold renderItems, renderPiece. apply negb_true_iff in Hl. rewrite Hl.
  simpl. now rewrite string_app_nil_r.
Qed.

(** A string that ends with a space is written with that space as the last
    character of the buffer. *)
Lemma splitNewLines_app_space (x : string) :
  exists pre p, Js.splitNewLines (x ++ " ") = app pre [p ++ " "].
Proof.
  induction x as [|c x [pre [p IH]]].
  - exists [], "". reflexivity.
  - change (String c x ++ " ") with (String c (x ++ " ")).
    cbn [Js.splitNewLines]. rewrite IH.
    destruct (Ascii.eqb c Js.newline).
    + exists (EmptyString :: pre), p. reflexivity.
    + destruct (Ascii.eqb c Js.carriageReturn &&
                match x ++ " " with
                | String d _ => Ascii.eqb d Js.newline
                | EmptyString => false
                end).
      * exists pre, p. reflexivity.
      * destruct pre as [|q pre].
        -- exists [], (String c p). reflexivity.
        -- exists (String c q :: pre), p. reflexivity.
Qed.

Lemma renderRest_app (ind : string) (a b : list string) :
  renderRest ind (app a b) = renderRest ind a ++ renderRest ind b.
Proof.
  induction a as [|s a IH]; [reflexivity|].
  cbn [app renderRest]. rewrite IH. now rewrite !string_app_assoc.
Qed.

Lemma renderPiece_space (ind : string) (b : bool) (p : string) :
  renderPiece ind b (p ++ " ") = ((if b then ind else "") ++ p) ++ " ".
Proof.
  unfold renderPiece.
  assert (Nat.eqb (String.length (p ++ " ")) 0 = false) as ->.
  { destruct p; reflexivity. }
  now rewrite string_app_assoc.
Qed.

Lemma render_app_space (ind : string) (b : bool) (x : string) :
  exists r, render ind b (x ++ " ") = r ++ " ".
Proof.
  unfold render. destruct (splitNewLines_app_space x) as [pre [p ->]].
  destruct pre as [|q pre].
  - cbn [app renderItems renderRest]. rewrite renderPiece_space.
    eexists. rewrite string_app_nil_r. reflexivity.
  - cbn [app renderItems]. rewrite renderRest_app. cbn [renderRest].
    rewrite renderPiece_space, string_app_nil_r.
    eexists. rewrite <- !string_app_assoc. reflexivity.
Qed.

Lemma lastChar_render_space (t ind : string) (b : bool) (x : string) :
  Js.lastChar (t ++ render ind b (x ++ " ")) = Some " "%char.
Proof.
  destruct (render_app_space ind b x) as [r ->].
  rewrite <- string_app_assoc. apply lastChar_app_char.
Qed.

Lemma linesText_app (ind : string) (a b : list string) :
  linesText ind (app a b) = linesText ind a ++ linesText ind b.
Proof.
  induction a as [|l a IH]; [reflexivity|].
  cbn [app linesText]. now rewrite IH, string_app_assoc.
Qed.

Lemma endsWithNewLine_linesText (t ind : string) (lines : list string) :
  endsWithNewLine t = true -> endsWithNewLine (t ++ linesText ind lines) = true.
Proof.
  revert t. induction lines as [|l rest IH]; intros t Ht.
  - cbn [linesText]. now rewrite string_app_nil_r.
  - cbn [linesText]. unfold renderLine.
    rewrite <- string_app_assoc. apply IH.
    rewrite <- string_app_assoc. apply endsWithNewLine_app_nl.
Qed.

(* ================================================================== *)
(** ** The output buffer: what each call appends                       *)
(* ================================================================== *)

Lemma isLastNewLine_W (n i : nat) (f : bool) (t : string) :
  Writer.isLastNewLine (mkWriter n i f t) = endsWithNewLine t.
Proof. reflexivity. Qed.

Lemma writeItem_W (n i : nat) (f : bool) (t s : string) :
  Writer.writeItem s (mkWriter n i f t)
  = mkWriter n i f (t ++ renderPiece (indentOf n i) (endsWithNewLine t) s).
Proof.
  unfold Writer.writeItem, renderPiece.
  destruct (Nat.eqb (String.length s) 0).
  - now rewrite string_app_nil_r.
  - rewrite isLastNewLine_W. destruct (endsWithNewLine t).
    + unfold Writer.writeIndentation, Writer.writeRaw, indentOf. cbn.
      now rewrite string_app_assoc.
    + reflexivity.
Qed.

Lemma writeItems_rest_W (items : list string) (n i : nat) (f : bool) (t : string) :
  Writer.writeItems false items (mkWriter n i f t)
  = mkWriter n i f (t ++ renderRest (indentOf n i) items).
Proof.
  revert t. induction items as [|s rest IH]; intros t.
  - cbn. now rewrite string_app_nil_r.
  - cbn [Writer.writeItems renderRest].
    unfold Writer.baseWriteNewline, Writer.writeRaw. cbn [w_text w_indentNumberOfSpaces
      w_currentIndentation w_newLineOnNextWrite].
    rewrite writeItem_W, IH, endsWithNewLine_app_nl.
    now rewrite !string_app_assoc.
Qed.

Lemma writeIndentingNewLines_W (s : string) (n i : nat) (f : bool) (t : string) :
  Writer.writeIndentingNewLines s (mkWriter n i f t)
  = mkWriter n i f (t ++ render (indentOf n i) (endsWithNewLine t) s).
Proof.
  unfold Writer.writeIndentingNewLines, render.
  destruct (Js.splitNewLines s) as [|s0 rest].
  - cbn. now rewrite string_app_nil_r.
  - cbn [Writer.writeItems renderItems].
    rewrite writeItem_W, writeItems_rest_W. now rewrite string_app_assoc.
Qed.

Lemma newLine_W (n i : nat) (f : bool) (t : string) :
  Writer.newLine (mkWriter n i f t) = mkWriter n i false (t ++ Js.nl).
Proof. reflexivity. Qed.

Lemma setIndentationLevel_W (k n i : nat) (f : bool) (t : string) :
  Writer.setIndentationLevel k (mkWriter n i f t) = mkWriter n k f t.
Proof. reflexivity. Qed.

Lemma settle_W (n i : nat) (f : bool) (t : string) :
  Writer.newLineIfNewLineOnNextWrite (mkWriter n i f t)
  = mkWriter n i false (settle f t).
Proof. destruct f; reflexivity. Qed.

Lemma endsWithNewLine_settle (f : bool) (t : string) :
  (f || endsWithNewLine t) = true -> endsWithNewLine (settle f t) = true.
Proof.
  destruct f; simpl; intros H; [apply endsWithNewLine_app_nl | assumption].
Qed.

Lemma endsWithNewLine_lastChar (t : string) :
  endsWithNewLine t = true -> exists c, Js.lastChar t = Some c.
Proof.
  unfold endsWithNewLine. destruct (Js.lastChar t) as [c|]; [eauto | discriminate].
Qed.

(** [write] from a buffer that stands at the start of a line, or has a line
    break pending. *)
Lemma write_W (s : string) (n i : nat) (f : bool) (t : string) :
  (f || endsWithNewLine t) = true ->
  Writer.write s (mkWriter n i f t)
  = mkWriter n i false (settle f t ++ render (indentOf n i) true s).
Proof.
  intros H. unfold Writer.write.
  rewrite settle_W, writeIndentingNewLines_W, (endsWithNewLine_settle _ _ H).
  reflexivity.
Qed.

(** [write] in the middle of a line. *)
Lemma write_midline_W (s : string) (n i : nat) (t : string) :
  endsWithNewLine t = false ->
  Writer.write s (mkWriter n i false t)
  = mkWriter n i false (t ++ render (indentOf n i) false s).
Proof.
  intros H. unfold Writer.write.
  rewrite settle_W, writeIndentingNewLines_W. cbn [settle]. now rewrite H.
Qed.

Lemma writeLine_W (s : string) (n i : nat) (f : bool) (t : string) :
  (f || endsWithNewLine t) = true ->
  Writer.writeLine s (mkWriter n i f t)
  = mkWriter n i false (settle f t ++ renderLine (indentOf n i) s).
Proof.
  intros H. unfold Writer.writeLine. rewrite settle_W.
  pose proof (endsWithNewLine_settle _ _ H) as Hs.
  destruct (endsWithNewLine_lastChar _ Hs) as [c Hc].
  unfold Writer.getLastChar. cbn [w_text]. rewrite Hc.
  unfold Writer.newLineIfLastNot. rewrite settle_W. cbn [settle].
  rewrite isLastNewLine_W, Hs, writeIndentingNewLines_W, Hs, newLine_W.
  unfold renderLine. now rewrite string_app_assoc.
Qed.

Lemma endsWithNewLine_ensure (f : bool) (t : string) :
  endsWithNewLine (ensureNewLine f t) = true.
Proof.
  unfold ensureNewLine. destruct f; [apply endsWithNewLine_app_nl|].
  destruct (endsWithNewLine t) eqn:E; [assumption | apply endsWithNewLine_app_nl].
Qed.

Lemma render_brace (ind : string) : render ind true "}" = ind ++ "}".
Proof. apply render_singleLine. reflexivity. Qed.

Lemma close_W (n j : nat) (f : bool) (t : string) :
  Writer.setNewLineOnNextWrite true
    (Writer.write "}"
       (Writer.newLineIfLastNot
          (Writer.setIndentationLevel (Nat.pred j) (mkWriter n j f t))))
  = closeBlock (mkWriter n j f t).
Proof.
  rewrite setIndentationLevel_W. unfold Writer.newLineIfLastNot.
  rewrite settle_W, isLastNewLine_W. unfold closeBlock, ensureNewLine.
  cbn [w_indentNumberOfSpaces w_currentIndentation w_newLineOnNextWrite w_text].
  destruct f; cbn [settle].
  - rewrite endsWithNewLine_app_nl.
    rewrite write_W by (cbn; apply endsWithNewLine_app_nl).
    cbn [settle]. now rewrite render_brace.
  - destruct (endsWithNewLine t) eqn:E.
    + rewrite write_W by (cbn; exact E). cbn [settle]. now rewrite render_brace.
    + rewrite newLine_W.
      rewrite write_W by (cbn; apply endsWithNewLine_app_nl).
      cbn [settle]. now rewrite render_brace.
Qed.

Lemma indentBlockInternal_W (body : Action) (n i : nat) (t : string) :
  Writer.indentBlockInternal body (mkWriter n i false (t ++ "{"))
  = Writer.setIndentationLevel
      (Nat.pred (w_currentIndentation
                   (body (mkWriter n (S i) false ((t ++ "{") ++ Js.nl)))))
      (body (mkWriter n (S i) false ((t ++ "{") ++ Js.nl))).
Proof.
  assert (H : match Writer.getLastChar (mkWriter n i false (t ++ "{")) with
              | Some _ => Writer.newLineIfLastNot (mkWriter n i false (t ++ "{"))
              | None => mkWriter n i false (t ++ "{")
              end = mkWriter n i false ((t ++ "{") ++ Js.nl)).
  { unfold Writer.getLastChar. cbn [w_text]. rewrite lastChar_app_char.
    unfold Writer.newLineIfLastNot. rewrite settle_W. cbn [settle].
    rewrite isLastNewLine_W.
    assert (endsWithNewLine (t ++ "{") = false) as ->
      by (unfold endsWithNewLine; now rewrite lastChar_app_char).
    apply newLine_W. }
  unfold Writer.indentBlockInternal. cbv zeta. rewrite H. reflexivity.
Qed.

(** [block] after a header that ends with a space. *)
Lemma block_W (body : Action) (n i : nat) (t : string) :
  Js.lastChar t = Some " "%char ->
  Writer.block body (mkWriter n i false t)
  = closeBlock (body (mkWriter n (S i) false (t ++ "{" ++ Js.nl))).
Proof.
  intros Hlast.
  assert (Hnl : endsWithNewLine t = false)
    by (unfold endsWithNewLine; now rewrite Hlast).
  assert (Hlen : Nat.eqb (String.length t) 0 = false)
    by (destruct t; [discriminate Hlast | reflexivity]).
  unfold Writer.block. rewrite settle_W. cbn [settle w_text].
  rewrite Hlen, isLastNewLine_W, Hnl. cbn [negb andb].
  unfold Writer.spaceIfLastNot. rewrite settle_W. cbn [settle].
  unfold Writer.isLastSpace, Writer.getLastChar. cbn [w_text]. rewrite Hlast.
  rewrite Ascii.eqb_refl.
  unfold Writer.inlineBlock. rewrite settle_W. cbn [settle].
  rewrite write_midline_W by assumption.
  change (render (indentOf n i) false "{") with "{".
  rewrite indentBlockInternal_W.
  rewrite string_app_assoc.
  destruct (body (mkWriter n (S i) false (t ++ "{" ++ Js.nl))) as [n' j f' t'].
  cbn [w_currentIndentation]. apply close_W.
Qed.

Lemma lastChar_space_split (s : string) :
  Js.lastChar s = Some " "%char -> exists x, s = x ++ " ".
Proof.
  induction s as [|c s IH]; [discriminate|].
  cbn [Js.lastChar]. destruct s as [|d s'].
  - intros H. injection H as ->. exists "". reflexivity.
  - intros H. destruct (IH H) as [x Hx]. exists (String c x).
    cbn [append]. now rewrite <- Hx.
Qed.

Lemma lastChar_render (t ind : string) (b : bool) (s : string) :
  Js.lastChar s = Some " "%char ->
  Js.lastChar (t ++ render ind b s) = Some " "%char.
Proof.
  intros H. destruct (lastChar_space_split _ H) as [x ->].
  apply lastChar_render_space.
Qed.

Lemma indentOf_0 (n : nat) : indentOf n 0 = "".
Proof. unfold indentOf. now rewrite Nat.mul_0_r. Qed.

Lemma indentOf_1 (n : nat) : indentOf n 1 = Js.spaces n.
Proof. unfold indentOf. now rewrite Nat.mul_1_r. Qed.

Lemma ensureNewLine_id (t : string) :
  endsWithNewLine t = true -> ensureNewLine false t = t.
Proof. intros H. unfold ensureNewLine. now rewrite H. Qed.

Lemma endsWithNewLine_renderLine (t ind s : string) :
  endsWithNewLine (t ++ renderLine ind s) = true.
Proof.
  unfold renderLine. rewrite <- string_app_assoc. apply endsWithNewLine_app_nl.
Qed.

(** A header that ends with a space, written at the start of a line and
    followed by a block. *)
Lemma header_block_W (hdr : string) (body : Action) (n i : nat) (f : bool)
      (t : string) :
  (f || endsWithNewLine t) = true ->
  Js.lastChar hdr = Some " "%char ->
  Writer.block body (Writer.write hdr (mkWriter n i f t))
  = closeBlock
      (body (mkWriter n (S i) false
               ((settle f t ++ render (indentOf n i) true hdr) ++ "{" ++ Js.nl))).
Proof.
  intros Hready Hlast. rewrite write_W by assumption.
  rewrite block_W by (now apply lastChar_render). reflexivity.
Qed.

(** A line written by [write(...).newLine()]. *)
Lemma write_newLine_W (s : string) (n i : nat) (f : bool) (t : string) :
  (f || endsWithNewLine t) = true ->
  Writer.newLine (Writer.write s (mkWriter n i f t))
  = mkWriter n i false (settle f t ++ renderLine (indentOf n i) s).
Proof.
  intros H. rewrite write_W by assumption. rewrite newLine_W.
  unfold renderLine. now rewrite string_app_assoc.
Qed.

(** A run of [writeLine] calls from the start of a line. *)
Lemma forEach_writeLine_W {A : Type} (g : A -> string) (arr : list A)
      (n i : nat) (t : string) :
  endsWithNewLine t = true ->
  forEach arr (fun x => Writer.writeLine (g x)) (mkWriter n i false t)
  = mkWriter n i false (t ++ linesText (indentOf n i) (map g arr)).
Proof.
  unfold forEach. revert t. induction arr as [|x rest IH]; intros t Ht.
  - cbn. now rewrite string_app_nil_r.
  - cbn [fold_left map linesText].
    rewrite writeLine_W by (cbn; exact Ht). cbn [settle].
    rewrite IH by apply endsWithNewLine_renderLine.
    now rewrite string_app_assoc.
Qed.

(** A run of [writeLineOnce] calls from the start of a line: the lines not
    yet seen are written, each once, in order. *)
Lemma fold_writeLineOnce_W (lines seen : list string) (n i : nat) (t : string) :
  endsWithNewLine t = true ->
  fold_left (fun st l => writeLineOnce l st) lines (seen, mkWriter n i false t)
  = (seenAfter seen lines,
     mkWriter n i false (t ++ linesText (indentOf n i) (Js.dedupFrom seen lines))).
Proof.
  revert seen t. induction lines as [|l rest IH]; intros seen t Ht.
  - cbn. now rewrite string_app_nil_r.
  - cbn [fold_left Js.dedupFrom seenAfter]. unfold writeLineOnce at 2.
    destruct (Js.arrayIncludes seen l) eqn:E.
    + rewrite IH by assumption. reflexivity.
    + rewrite writeLine_W by (cbn; exact Ht). cbn [settle].
      rewrite IH by apply endsWithNewLine_renderLine.
      cbn [linesText]. now rewrite string_app_assoc.
Qed.

Lemma seenAfter_In (x : string) (lines seen : list string) :
  In x (seenAfter seen lines) <-> In x seen \/ In x lines.
Proof.
  unfold seenAfter. revert seen.
  induction lines as [|l rest IH]; intros seen; cbn [fold_left].
  - simpl. tauto.
  - rewrite IH. destruct (Js.arrayIncludes seen l) eqn:E.
    + apply arrayIncludes_In in E. simpl. split.
      * tauto.
      * intros [H | [-> | H]]; auto.
    + simpl. tauto.
Qed.

(* ================================================================== *)
(** ** ExportAggregator: the text of the synthesized objects           *)
(* ================================================================== *)

Ltac ends_nl :=
  first [ assumption
        | apply endsWithNewLine_app_nl
        | apply endsWithNewLine_renderLine
        | apply endsWithNewLine_linesText; ends_nl
        | rewrite <- string_app_assoc; ends_nl ].

Ltac ready := cbn [orb settle]; ends_nl.

Ltac last_is_space :=
  repeat rewrite <- string_app_assoc;
  rewrite lastChar_app by discriminate; reflexivity.

(** The object of four fixed parts written by both aggregators. *)
Lemma annotatedObject_W (annotation1 annotation2 header : string)
      (g : Action) (bodyLines : list string) (n i : nat) (f : bool) (t : string) :
  Js.lastChar header = Some " "%char ->
  (forall t', endsWithNewLine t' = true ->
     g (mkWriter n 1 false t')
     = mkWriter n 1 false (t' ++ linesText (indentOf n 1) bodyLines)) ->
  Writer.setIndentationLevel i
    (Writer.newLine
       (Writer.block g
          (Writer.write header
             (Writer.newLine
                (Writer.write annotation2
                   (Writer.newLine
                      (Writer.write annotation1
                         (Writer.setIndentationLevel 0
                            (Writer.newLine (mkWriter n i f t))))))))))
  = mkWriter n i false
      (t ++ annotatedObjectText n annotation1 annotation2 header bodyLines).
Proof.
  intros Hhdr Hg.
  rewrite newLine_W, setIndentationLevel_W.
  rewrite write_newLine_W by ready. cbn [settle].
  rewrite write_newLine_W by ready. cbn [settle].
  rewrite header_block_W by (first [ready | assumption]). cbn [settle].
  rewrite Hg by ready.
  unfold closeBlock.
  cbn [w_indentNumberOfSpaces w_currentIndentation w_newLineOnNextWrite w_text
       Nat.pred].
  rewrite ensureNewLine_id by ready.
  rewrite newLine_W, setIndentationLevel_W.
  unfold annotatedObjectText. rewrite indentOf_0, indentOf_1.
  f_equal. cbn [append]. rewrite !string_app_assoc. reflexivity.
Qed.

Lemma moduleObject_header_space (moduleName : string) :
  Js.lastChar ("object " ++ capitalize moduleName ++ " extends js.Object ")
  = Some " "%char.
Proof. last_is_space. Qed.

(** The text [generateModuleObject] appends, from any buffer state. *)
Lemma generateModuleObject_W (moduleName : string) (exports : ModuleExports)
      (n i : nat) (f : bool) (t : string) :
  generateModuleObject moduleName exports (mkWriter n i f t)
  = if Nat.eqb (length (m_types exports)) 0
       && Nat.eqb (length (m_functions exports)) 0
       && Nat.eqb (length (m_variables exports)) 0
    then mkWriter n i f t
    else mkWriter n i false
           (t ++ annotatedObjectText n "@js.native"
                   ("@JSGlobal(" ++ Js.dq ++ moduleName ++ Js.dq ++ ")")
                   ("object " ++ capitalize moduleName ++ " extends js.Object ")
                   (moduleObjectLines exports)).
Proof.
  unfold generateModuleObject.
  destruct (Nat.eqb (length (m_types exports)) 0
            && Nat.eqb (length (m_functions exports)) 0
            && Nat.eqb (length (m_variables exports)) 0); [reflexivity|].
  unfold andThen, Writer.getIndentationLevel. rewrite newLine_W at 1.
  cbn [w_currentIndentation].
  apply annotatedObject_W; [apply moduleObject_header_space|].
  intros t' Ht'. unfold moduleObjectLines.
  rewrite !forEach_writeLine_W by ready.
  rewrite !linesText_app, !string_app_assoc. reflexivity.
Qed.

Lemma fold_writeLineOnce_map {A : Type} (g : A -> string) (arr : list A)
      (st : list string * CodeBlockWriter) :
  fold_left (fun st x => writeLineOnce (g x) st) arr st
  = fold_left (fun st l => writeLineOnce l st) (map g arr) st.
Proof.
  revert st. induction arr as [|x rest IH]; intros st; [reflexivity|].
  cbn [fold_left map]. apply IH.
Qed.

Lemma fold_forwarding (exports : TopLevelExports)
      (eas : list ExportAssignment) (st : list string * CodeBlockWriter) :
  fold_left
    (fun st exportAssignment =>
       match exportedFunction (functions exports) exportAssignment with
       | Some func => writeLineOnce (globalFunctionLine func) st
       | None => st
       end) eas st
  = fold_left (fun st l => writeLineOnce l st)
      (flat_map (fun exportAssignment =>
                   match exportedFunction (functions exports) exportAssignment with
                   | Some func => [globalFunctionLine func]
                   | None => []
                   end) eas) st.
Proof.
  revert st. induction eas as [|ea rest IH]; intros st; [reflexivity|].
  cbn [fold_left flat_map]. rewrite fold_left_app, IH.
  destruct (exportedFunction (functions exports) ea); reflexivity.
Qed.

Lemma globalScope_header_space (packageName : string) :
  Js.lastChar ("object " ++ capitalize packageName ++ " extends js.Object ")
  = Some " "%char.
Proof. last_is_space. Qed.

(** The text [generateGlobalScopeObject] appends, from any buffer state. *)
Lemma generateGlobalScopeObject_W (packageName : string)
      (exports : TopLevelExports) (n i : nat) (f : bool) (t : string) :
  generateGlobalScopeObject packageName exports (mkWriter n i f t)
  = if Nat.eqb (length (types exports)) 0
       && Nat.eqb (length (functions exports)) 0
       && Nat.eqb (length (exportAssignments exports)) 0
       && Nat.eqb (length (variables exports)) 0
    then mkWriter n i f t
    else mkWriter n i false
           (t ++ annotatedObjectText n "@js.native" "@JSGlobalScope"
                   ("object " ++ capitalize packageName ++ " extends js.Object ")
                   (globalScopeLines exports)).
Proof.
  unfold generateGlobalScopeObject.
  destruct (Nat.eqb (length (types exports)) 0
            && Nat.eqb (length (functions exports)) 0
            && Nat.eqb (length (exportAssignments exports)) 0
            && Nat.eqb (length (variables exports)) 0); [reflexivity|].
  unfold andThen, Writer.getIndentationLevel. rewrite newLine_W at 1.
  cbn [w_currentIndentation].
  apply annotatedObject_W; [apply globalScope_header_space|].
  intros t' Ht'. cbv zeta. unfold globalScopeLines, Js.dedup.
  rewrite forEach_writeLine_W by ready.
  rewrite fold_forwarding. fold (forwardingLines exports).
  rewrite fold_writeLineOnce_W by ready. cbn [fst snd].
  rewrite forEach_writeLine_W by ready.
  rewrite fold_writeLineOnce_map, fold_writeLineOnce_W by ready. cbn [snd].
  rewrite !linesText_app, !string_app_assoc. reflexivity.
Qed.

(** C10.  Whenever variables have been collected, the module object and the
    global scope object are written, and their bodies hold, between the
    type-alias lines and the function lines, one line per collected
    variable: [val name: T = js.native] when the variable's declaration
    list carries the const flag, [def name: T = js.native] otherwise.  No
    such line starts with [var]. *)
Theorem variable_bindings_read_only
        (moduleName packageName : string) (mexports : ModuleExports)
        (texports : TopLevelExports) (writer : CodeBlockWriter) :
  (m_variables mexports <> [] ->
   w_text (generateModuleObject moduleName mexports writer)
   = w_text writer
     ++ annotatedObjectText (w_indentNumberOfSpaces writer) "@js.native"
          ("@JSGlobal(" ++ Js.dq ++ moduleName ++ Js.dq ++ ")")
          ("object " ++ capitalize moduleName ++ " extends js.Object ")
          (app (map typeAliasLine (m_types mexports))
               (app (map readOnlyBinding (m_variables mexports))
                    (map moduleFunctionLine (m_functions mexports)))))
  /\ (variables texports <> [] ->
      w_text (generateGlobalScopeObject packageName texports writer)
      = w_text writer
        ++ annotatedObjectText (w_indentNumberOfSpaces writer) "@js.native"
             "@JSGlobalScope"
             ("object " ++ capitalize packageName ++ " extends js.Object ")
             (app (map typeAliasLine (types texports))
                  (app (Js.dedup (forwardingLines texports))
                       (app (map readOnlyBinding (variables texports))
                            (Js.dedupFrom (seenAfter [] (forwardingLines texports))
                               (map globalFunctionLine (functions texports)))))))
  /\ (forall variable, String.prefix "var" (readOnlyBinding variable) = false).
Proof.
  destruct writer as [n i f t]. cbn [w_text w_indentNumberOfSpaces].
  split; [|split].
  - intros Hne. rewrite generateModuleObject_W.
    destruct (m_variables mexports) as [|v vs] eqn:E; [congruence|].
    cbn [length Nat.eqb]. rewrite !andb_false_r. cbn [w_text].
    unfold moduleObjectLines. rewrite E. reflexivity.
  - intros Hne. rewrite generateGlobalScopeObject_W.
    destruct (variables texports) as [|v vs] eqn:E; [congruence|].
    cbn [length Nat.eqb]. rewrite !andb_false_r. cbn [w_text].
    unfold globalScopeLines. rewrite E. reflexivity.
  - intros variable. unfold readOnlyBinding.
    destruct (hasConstFlag (var_parentFlags variable)); reflexivity.
Qed.

Lemma variable_bindings_read_only_witness :
  let constVar := mkVariable "version" (Some (Keyword StringKeyword)) 2 in
  let letVar := mkVariable "counter" (Some (Keyword NumberKeyword)) 1 in
  w_text (generateModuleObject "lib"
            (mkModuleExports [] [] [] [constVar; letVar]) (Writer.create 2))
  = Js.nl ++ "@js.native" ++ Js.nl
    ++ "@JSGlobal(" ++ Js.dq ++ "lib" ++ Js.dq ++ ")" ++ Js.nl
    ++ "object Lib extends js.Object {" ++ Js.nl
    ++ "  val version: String = js.native" ++ Js.nl
    ++ "  def counter: Double = js.native" ++ Js.nl
    ++ "}" ++ Js.nl
  /\ w_text (generateGlobalScopeObject "pkg"
               (mkTopLevelExports [] [] [] [] [] [constVar; letVar])
               (Writer.create 2))
     = Js.nl ++ "@js.native" ++ Js.nl
       ++ "@JSGlobalScope" ++ Js.nl
       ++ "object Pkg extends js.Object {" ++ Js.nl
       ++ "  val version: String = js.native" ++ Js.nl
       ++ "  def counter: Double = js.native" ++ Js.nl
       ++ "}" ++ Js.nl.
Proof.
  intros constVar letVar. split.
  - apply (proj1 (variable_bindings_read_only "lib" "pkg"
                    (mkModuleExports [] [] [] [constVar; letVar])
                    (mkTopLevelExports [] [] [] [] [] [constVar; letVar])
                    (Writer.create 2))).
    discriminate.
  - apply (proj1 (proj2 (variable_bindings_read_only "lib" "pkg"
                    (mkModuleExports [] [] [] [constVar; letVar])
                    (mkTopLevelExports [] [] [] [] [] [constVar; letVar])
                    (Writer.create 2)))).
    discriminate.
Defined.

(* ================================================================== *)
(** ** The buffer is append-only                                       *)
(* ================================================================== *)

Section AppendOnly.

Lemma appendOnly_skip : appendOnly skip.
Proof. intros w. exists "". now rewrite string_app_nil_r. Qed.

Lemma appendOnly_andThen (a b : Action) :
  appendOnly a -> appendOnly b -> appendOnly (a ;; b).
Proof.
  intros Ha Hb w. unfold andThen.
  destruct (Ha w) as [s1 H1]. destruct (Hb (a w)) as [s2 H2].
  exists (s1 ++ s2). now rewrite H2, H1, string_app_assoc.
Qed.

Lemma appendOnly_compose (a b : Action) :
  appendOnly a -> appendOnly b -> appendOnly (fun w => b (a w)).
Proof. exact (@appendOnly_andThen a b). Qed.

Lemma appendOnly_forEach {A : Type} (arr : list A) (f : A -> Action) :
  Forall (fun x => appendOnly (f x)) arr -> appendOnly (forEach arr f).
Proof.
  unfold forEach. induction 1 as [|x rest Hx _ IH]; intros w.
  - exists "". cbn. now rewrite string_app_nil_r.
  - cbn [fold_left]. destruct (Hx w) as [s1 H1].
    destruct (IH (f x w)) as [s2 H2].
    exists (s1 ++ s2). now rewrite H2, H1, string_app_assoc.
Qed.

Lemma appendOnly_forEach_all {A : Type} (arr : list A) (f : A -> Action) :
  (forall x, appendOnly (f x)) -> appendOnly (forEach arr f).
Proof.
  intros H. apply appendOnly_forEach. apply Forall_forall. intros x _. apply H.
Qed.

Lemma appendOnly_setIndentationLevel (k : nat) :
  appendOnly (Writer.setIndentationLevel k).
Proof. intros w. exists "". cbn. now rewrite string_app_nil_r. Qed.

Lemma appendOnly_setNewLineOnNextWrite (b : bool) :
  appendOnly (Writer.setNewLineOnNextWrite b).
Proof. intros w. exists "". cbn. now rewrite string_app_nil_r. Qed.

Lemma appendOnly_newLine : appendOnly Writer.newLine.
Proof. intros w. exists Js.nl. reflexivity. Qed.

Lemma appendOnly_settle : appendOnly Writer.newLineIfNewLineOnNextWrite.
Proof.
  intros [n i f t]. rewrite settle_W. destruct f; cbn.
  - eexists; reflexivity.
  - exists "". now rewrite string_app_nil_r.
Qed.

Lemma appendOnly_newLineIfLastNot : appendOnly Writer.newLineIfLastNot.
Proof.
  unfold Writer.newLineIfLastNot. intros w.
  destruct (appendOnly_settle w) as [s1 H1].
  destruct (Writer.isLastNewLine (Writer.newLineIfNewLineOnNextWrite w)).
  - exists s1. exact H1.
  - destruct (appendOnly_newLine (Writer.newLineIfNewLineOnNextWrite w))
      as [s2 H2].
    exists (s1 ++ s2). now rewrite H2, H1, string_app_assoc.
Qed.

Lemma appendOnly_writeIndentingNewLines (s : string) :
  appendOnly (Writer.writeIndentingNewLines s).
Proof.
  intros [n i f t]. rewrite writeIndentingNewLines_W. eexists; reflexivity.
Qed.

Lemma appendOnly_write (s : string) : appendOnly (Writer.write s).
Proof.
  unfold Writer.write. apply appendOnly_compose.
  - apply appendOnly_settle.
  - apply appendOnly_writeIndentingNewLines.
Qed.

Lemma appendOnly_if (b : bool) (x y : Action) :
  appendOnly x -> appendOnly y -> appendOnly (if b then x else y).
Proof. destruct b; auto. Qed.

Lemma appendOnly_writeLine (s : string) : appendOnly (Writer.writeLine s).
Proof.
  unfold Writer.writeLine. intros w. cbv zeta.
  destruct (appendOnly_settle w) as [s1 H1].
  set (w1 := Writer.newLineIfNewLineOnNextWrite w) in *.
  assert (H2 : exists s2,
             w_text (match Writer.getLastChar w1 with
                     | Some _ => Writer.newLineIfLastNot w1
                     | None => w1
                     end) = w_text w1 ++ s2).
  { destruct (Writer.getLastChar w1).
    - apply appendOnly_newLineIfLastNot.
    - exists "". now rewrite string_app_nil_r. }
  destruct H2 as [s2 H2].
  set (w2 := match Writer.getLastChar w1 with
             | Some _ => Writer.newLineIfLastNot w1
             | None => w1
             end) in *.
  destruct (appendOnly_writeIndentingNewLines s w2) as [s3 H3].
  destruct (appendOnly_newLine (Writer.writeIndentingNewLines s w2)) as [s4 H4].
  exists (s1 ++ s2 ++ s3 ++ s4).
  now rewrite H4, H3, H2, H1, !string_app_assoc.
Qed.

Lemma appendOnly_spaceIfLastNot : appendOnly Writer.spaceIfLastNot.
Proof.
  unfold Writer.spaceIfLastNot. intros w. cbv zeta.
  destruct (appendOnly_settle w) as [s1 H1].
  destruct (Writer.isLastSpace (Writer.newLineIfNewLineOnNextWrite w)).
  - exists s1. exact H1.
  - destruct (appendOnly_writeIndentingNewLines " "
                (Writer.newLineIfNewLineOnNextWrite w)) as [s2 H2].
    exists (s1 ++ s2). now rewrite H2, H1, string_app_assoc.
Qed.

Lemma appendOnly_indentBlockInternal (body : Action) :
  appendOnly body -> appendOnly (Writer.indentBlockInternal body).
Proof.
  intros Hb w. unfold Writer.indentBlockInternal. cbv zeta.
  assert (H1 : exists s1,
             w_text (match Writer.getLastChar w with
                     | Some _ => Writer.newLineIfLastNot w
                     | None => w
                     end) = w_text w ++ s1).
  { destruct (Writer.getLastChar w).
    - apply appendOnly_newLineIfLastNot.
    - exists "". now rewrite string_app_nil_r. }
  destruct H1 as [s1 H1].
  set (w1 := match Writer.getLastChar w with
             | Some _ => Writer.newLineIfLastNot w
             | None => w
             end) in *.
  destruct (Hb (Writer.setIndentationLevel (S (w_currentIndentation w1)) w1))
    as [s2 H2].
  exists (s1 ++ s2). cbn [Writer.setIndentationLevel w_text] in *.
  now rewrite H2, H1, string_app_assoc.
Qed.

Lemma extend_step (a : Action) (w0 w : CodeBlockWriter) :
  appendOnly a ->
  (exists s, w_text w = w_text w0 ++ s) ->
  exists s, w_text (a w) = w_text w0 ++ s.
Proof.
  intros Ha [s1 H1]. destruct (Ha w) as [s2 H2].
  exists (s1 ++ s2). now rewrite H2, H1, string_app_assoc.
Qed.

Lemma extend_refl (w : CodeBlockWriter) : exists s, w_text w = w_text w ++ s.
Proof. exists "". now rewrite string_app_nil_r. Qed.

Lemma appendOnly_inlineBlock (body : Action) :
  appendOnly body -> appendOnly (Writer.inlineBlock body).
Proof.
  intros Hb w. unfold Writer.inlineBlock. cbv zeta.
  apply extend_step; [apply appendOnly_write|].
  apply extend_step; [apply appendOnly_newLineIfLastNot|].
  apply extend_step; [now apply appendOnly_indentBlockInternal|].
  apply extend_step; [apply appendOnly_write|].
  apply extend_step; [apply appendOnly_settle|].
  apply extend_refl.
Qed.

Lemma appendOnly_block (body : Action) :
  appendOnly body -> appendOnly (Writer.block body).
Proof.
  intros Hb w. unfold Writer.block. cbv zeta.
  apply extend_step; [apply appendOnly_setNewLineOnNextWrite|].
  apply extend_step; [now apply appendOnly_inlineBlock|].
  destruct (negb (Nat.eqb (String.length
                             (w_text (Writer.newLineIfNewLineOnNextWrite w))) 0)
            && negb (Writer.isLastNewLine (Writer.newLineIfNewLineOnNextWrite w))).
  - apply extend_step; [apply appendOnly_spaceIfLastNot|].
    apply extend_step; [apply appendOnly_settle | apply extend_refl].
  - apply extend_step; [apply appendOnly_settle | apply extend_refl].
Qed.

End AppendOnly.


Ltac append_only :=
  repeat match goal with
    | |- appendOnly (andThen _ _) => apply appendOnly_andThen
    | |- appendOnly skip => apply appendOnly_skip
    | |- appendOnly Writer.newLine => apply appendOnly_newLine
    | |- appendOnly (Writer.write _) => apply appendOnly_write
    | |- appendOnly (Writer.writeLine _) => apply appendOnly_writeLine
    | |- appendOnly (Writer.setIndentationLevel _) =>
        apply appendOnly_setIndentationLevel
    | |- appendOnly (Writer.block _) => apply appendOnly_block
    | |- appendOnly (if _ then _ else _) => apply appendOnly_if
    | |- appendOnly (forEach _ _) => apply appendOnly_forEach_all; intros
    end.

Lemma appendOnly_fold_writeLineOnce {A : Type} (g : A -> string) (arr : list A)
      (seen : list string) :
  appendOnly (fun writer =>
                snd (fold_left (fun st x => writeLineOnce (g x) st) arr
                               (seen, writer))).
Proof.
  revert seen. induction arr as [|x rest IH]; intros seen w; cbn [fold_left].
  - apply extend_refl.
  - unfold writeLineOnce at 2. destruct (Js.arrayIncludes seen (g x)).
    + apply IH.
    + destruct (appendOnly_writeLine (g x) w) as [s1 H1].
      destruct (IH (g x :: seen) (Writer.writeLine (g x) w)) as [s2 H2].
      exists (s1 ++ s2). now rewrite H2, H1, string_app_assoc.
Qed.

Lemma processPropertyDeclaration_appendOnly node isAbstractClass :
  appendOnly (processPropertyDeclaration node isAbstractClass).
Proof. unfold processPropertyDeclaration. append_only. Qed.

Lemma processMethodDeclaration_appendOnly node isAbstractClass :
  appendOnly (processMethodDeclaration node isAbstractClass).
Proof. unfold processMethodDeclaration. append_only. Qed.

Lemma processInterfaceMember_appendOnly member :
  appendOnly (processInterfaceMember member).
Proof.
  destruct member; cbn [processInterfaceMember];
    unfold processPropertySignature, processMethodSignature,
      processIndexSignature; append_only.
Qed.

Lemma processClassMember_appendOnly member isAbstractClass :
  appendOnly (processClassMember member isAbstractClass).
Proof.
  destruct member; cbn [processClassMember];
    first [ apply processPropertyDeclaration_appendOnly
          | apply processMethodDeclaration_appendOnly
          | apply appendOnly_skip ].
Qed.

Lemma processClassDeclaration_appendOnly node namespace :
  appendOnly (processClassDeclaration node namespace).
Proof.
  intros w. unfold processClassDeclaration. cbv zeta.
  apply extend_step; [| apply extend_step;
                        [apply appendOnly_newLine | apply extend_refl]].
  unfold emitStaticProperty, emitStaticMethod, emitSecondaryConstructor.
  append_only;
    first [ apply processClassMember_appendOnly
          | apply processMethodDeclaration_appendOnly ].
Qed.

Lemma emitDeepTrait_appendOnly nestedPropSig :
  appendOnly (emitDeepTrait nestedPropSig).
Proof.
  destruct nestedPropSig as [[name mods] members]. unfold emitDeepTrait.
  append_only. apply processInterfaceMember_appendOnly.
Qed.

Lemma emitNestedMember_appendOnly traitName nestedMember :
  appendOnly (emitNestedMember traitName nestedMember).
Proof.
  unfold emitNestedMember.
  destruct (inlineTypeLiteral nestedMember) as [[[name mods] members]|].
  - append_only.
  - apply processInterfaceMember_appendOnly.
Qed.

Lemma emitNestedTrait_appendOnly propSig :
  appendOnly (emitNestedTrait propSig).
Proof.
  destruct propSig as [[name mods] members]. unfold emitNestedTrait.
  append_only;
    first [ apply emitNestedMember_appendOnly | apply emitDeepTrait_appendOnly ].
Qed.

Lemma writeInterfaceTrait_appendOnly node :
  appendOnly (writeInterfaceTrait node).
Proof.
  unfold writeInterfaceTrait. append_only.
  apply appendOnly_fold_writeLineOnce.
Qed.

Lemma processInterfaceDeclaration_appendOnly node namespace :
  appendOnly (processInterfaceDeclaration node namespace).
Proof.
  intros w. unfold processInterfaceDeclaration. cbv zeta.
  apply extend_step; [| apply extend_step;
                        [apply appendOnly_newLine | apply extend_refl]].
  append_only;
    first [ apply writeInterfaceTrait_appendOnly
          | apply emitNestedTrait_appendOnly ].
Qed.

Lemma processEnumDeclaration_appendOnly node namespace :
  appendOnly (processEnumDeclaration node namespace).
Proof.
  intros w. unfold processEnumDeclaration. cbv zeta.
  apply extend_step; [| apply extend_step;
                        [apply appendOnly_newLine | apply extend_refl]].
  append_only.
Qed.

Lemma emitObjectMember_appendOnly member : appendOnly (emitObjectMember member).
Proof. destruct member; cbn [emitObjectMember]; append_only. Qed.

Lemma processVariableStatement_appendOnly node namespace :
  appendOnly (processVariableStatement node namespace).
Proof.
  unfold processVariableStatement. apply appendOnly_forEach_all. intros decl w.
  unfold processVariableDeclaration.
  destruct (var_type decl) as [[]|]; try apply extend_refl.
  cbv zeta.
  apply extend_step; [| apply extend_step;
                        [apply appendOnly_newLine | apply extend_refl]].
  append_only. apply emitObjectMember_appendOnly.
Qed.

Lemma generateModuleObject_appendOnly moduleName exports :
  appendOnly (generateModuleObject moduleName exports).
Proof.
  intros [n i f t]. rewrite generateModuleObject_W.
  destruct (_ && _); [apply extend_refl | eexists; reflexivity].
Qed.

Lemma generateGlobalScopeObject_appendOnly packageName exports :
  appendOnly (generateGlobalScopeObject packageName exports).
Proof.
  intros [n i f t]. rewrite generateGlobalScopeObject_W.
  destruct (_ && _); [apply extend_refl | eexists; reflexivity].
Qed.

Lemma processModuleDeclarationWith_appendOnly
      (process : Statement -> string -> Action) name body namespace :
  match body with
  | Some statements =>
      Forall (fun st => forall ns, appendOnly (process st ns)) statements
  | None => True
  end ->
  appendOnly (processModuleDeclarationWith process name body namespace).
Proof.
  intros Hbody w. unfold processModuleDeclarationWith.
  destruct name as [moduleName|]; [| apply extend_refl].
  cbv zeta.
  apply extend_step; [| apply extend_step;
                        [apply appendOnly_newLine | apply extend_refl]].
  append_only.
  destruct body as [statements|]; [| apply appendOnly_skip].
  apply appendOnly_andThen.
  - apply appendOnly_forEach.
    eapply Forall_impl; [| exact Hbody]. intros st Hst. apply Hst.
  - apply appendOnly_if;
      [apply generateModuleObject_appendOnly | apply appendOnly_skip].
Qed.

Lemma processStatement_appendOnly :
  forall statement namespace, appendOnly (processStatement statement namespace).
Proof.
  fix IH 1. intros statement namespace.
  destruct statement as [mods name body| | | | | | | | | |];
    cbn [processStatement].
  - apply processModuleDeclarationWith_appendOnly.
    destruct body as [statements|]; [| exact I].
    induction statements as [|st rest IHrest]; constructor.
    + intros ns. apply IH.
    + apply IHrest.
  - apply processClassDeclaration_appendOnly.
  - apply processInterfaceDeclaration_appendOnly.
  - apply processEnumDeclaration_appendOnly.
  - apply appendOnly_skip.
  - apply processVariableStatement_appendOnly.
  - apply appendOnly_skip.
  - apply appendOnly_skip.
  - apply appendOnly_skip.
  - apply appendOnly_skip.
  - apply appendOnly_skip.
Qed.

(* ================================================================== *)
(** ** The file: header and package clause                             *)
(* ================================================================== *)

Lemma packageDeclaration_clause (packageName : string) :
  packageDeclaration packageName = packageClause packageName.
Proof.
  unfold packageDeclaration, packageClause, backquote.
  destruct (_ || _); reflexivity.
Qed.

Lemma packageClause_space (packageName : string) :
  Js.lastChar (packageClause packageName ++ " ") = Some " "%char.
Proof. apply lastChar_app_char. Qed.

Lemma singleLine_app (a b : string) :
  singleLine a = true ->
  Js.allChars (fun c => negb (Js.isLineTerminator c)) b = true ->
  singleLine (a ++ b) = true.
Proof.
  unfold singleLine. intros Ha Hb. apply andb_true_iff in Ha.
  destruct Ha as [Hl Hc]. apply andb_true_iff. split.
  - destruct a; [discriminate Hl | reflexivity].
  - clear Hl. induction a as [|c a IH]; [exact Hb|].
    cbn [append Js.allChars] in *. apply andb_true_iff in Hc.
    destruct Hc as [H1 H2]. rewrite H1. cbn. now apply IH.
Qed.

Lemma allChars_app (p : ascii -> bool) (a b : string) :
  Js.allChars p (a ++ b) = Js.allChars p a && Js.allChars p b.
Proof.
  induction a as [|c a IH]; [reflexivity|].
  cbn [append Js.allChars]. now rewrite IH, andb_assoc.
Qed.

Lemma singleLine_packageClause (packageName : string) :
  Js.allChars (fun c => negb (Js.isLineTerminator c)) packageName = true ->
  singleLine (packageClause packageName ++ " ") = true.
Proof.
  intros H. unfold packageClause.
  destruct (_ || _).
  - apply (@singleLine_app "package `"); [reflexivity|].
    rewrite !allChars_app, H. reflexivity.
  - apply (@singleLine_app "package "); [reflexivity|].
    rewrite allChars_app, H. reflexivity.
Qed.

(** The whole output: the header, the package clause and an opening brace,
    then whatever the block holds. *)
Lemma generateScalaOutput_header (sourceFile : SourceFile) (packageName : string) :
  exists rest,
    convertTsToScala sourceFile packageName
    = fileHeader ++ render "" true (packageClause packageName ++ " ")
      ++ "{" ++ Js.nl ++ rest.
Proof.
  unfold convertTsToScala, generateScalaOutput, Writer.toString.
  match goal with |- context [Writer.block ?b] => set (body := b) end.
  assert (Hbody : appendOnly body).
  { subst body. append_only.
    - apply processStatement_appendOnly.
    - apply generateGlobalScopeObject_appendOnly. }
  unfold andThen.
  change (Writer.writeLine ""
            (Writer.writeLine "import js.|"
               (Writer.writeLine "import js.annotation._"
                  (Writer.writeLine "import scala.scalajs.js"
                     (Writer.writeLine "" (Writer.create 2))))))
    with (mkWriter 2 0 false fileHeader).
  rewrite packageDeclaration_clause.
  rewrite header_block_W by (first [reflexivity | apply packageClause_space]).
  cbn [settle]. rewrite indentOf_0.
  destruct (Hbody (mkWriter 2 1 false
                     ((fileHeader ++ render "" true (packageClause packageName ++ " "))
                      ++ "{" ++ Js.nl))) as [s Hs].
  unfold closeBlock. cbn [w_text] in *. rewrite Hs.
  assert (Hens : forall f t, exists x, ensureNewLine f t = t ++ x).
  { intros f t. unfold ensureNewLine. destruct f; [eexists; reflexivity|].
    destruct (endsWithNewLine t); [exists ""; now rewrite string_app_nil_r
                                 | eexists; reflexivity]. }
  destruct (Hens (w_newLineOnNextWrite
                    (body (mkWriter 2 1 false
                       ((fileHeader
                         ++ render "" true (packageClause packageName ++ " "))
                        ++ "{" ++ Js.nl))))
                 (((fileHeader ++ render "" true (packageClause packageName ++ " "))
                   ++ "{" ++ Js.nl) ++ s)) as [x Hx].
  rewrite Hx. eexists. rewrite !string_app_assoc. reflexivity.
Qed.

(** C7, as the code has it.  For every source file and package name the
    output begins with a blank line, three fixed import lines and a blank
    line, followed by the package clause and the opening brace of the
    package block; the package name in the clause is backquoted exactly
    when it contains a hyphen, fails the bare-identifier grammar or is a
    reserved word.  (The clause is written as it stands when the package
    name has no line break in it.) *)
Theorem output_header_and_package_clause
        (sourceFile : SourceFile) (packageName : string) :
  (exists rest,
     convertTsToScala sourceFile packageName
     = fileHeader ++ render "" true (packageClause packageName ++ " ")
       ++ "{" ++ Js.nl ++ rest)
  /\ (Js.allChars (fun c => negb (Js.isLineTerminator c)) packageName = true ->
      exists rest,
        convertTsToScala sourceFile packageName
        = fileHeader ++ packageClause packageName ++ " {" ++ Js.nl ++ rest)
  /\ Js.splitNewLines fileHeader
     = [""; "import scala.scalajs.js"; "import js.annotation._"; "import js.|";
        ""; ""].
Proof.
  split; [apply generateScalaOutput_header | split; [| reflexivity]].
  intros Hline.
  destruct (generateScalaOutput_header sourceFile packageName) as [rest H].
  exists rest. rewrite H.
  rewrite (render_singleLine "" _ (singleLine_packageClause _ Hline)).
  cbn [append]. rewrite !string_app_assoc. reflexivity.
Qed.

Lemma output_header_and_package_clause_witness :
  exists rest,
    convertTsToScala [] "my-lib"
    = fileHeader ++ "package `my-lib` {" ++ Js.nl ++ rest.
Proof.
  apply (proj1 (proj2 (output_header_and_package_clause [] "my-lib"))).
  reflexivity.
Defined.

(** C7 as stated fails: there are three import lines, not four; the fifth
    line of the output is blank and the package clause is the sixth. *)
Lemma output_header_counterexample :
  Js.splitNewLines (convertTsToScala [] "facade")
  = [""; "import scala.scalajs.js"; "import js.annotation._"; "import js.|";
     ""; "package facade {"; ""; "}"]
  /\ isImportLine (nth 4 (Js.splitNewLines (convertTsToScala [] "facade")) "")
     = false.
Proof. split; reflexivity. Qed.

(* ================================================================== *)
(** ** The file-level container and top-level functions                *)
(* ================================================================== *)

Lemma forEach_functions_skip (fns : list FunctionDeclaration) (w : CodeBlockWriter) :
  forEach (map StFunction fns) (fun statement => processStatement statement "") w
  = w.
Proof.
  unfold forEach. induction fns as [|fn rest IH]; [reflexivity|].
  cbn [map fold_left processStatement]. exact IH.
Qed.

Lemma collectTopLevelExports_functions (fns : list FunctionDeclaration) :
  collectTopLevelExports (map StFunction fns)
  = mkTopLevelExports [] [] [] fns [] [].
Proof.
  unfold collectTopLevelExports.
  induction fns as [|fn rest IH]; [reflexivity|].
  injection IH as H1 H2 H3 H4 H5 H6.
  cbn [map flat_map app]. rewrite H1, H2, H3, H4, H5, H6. reflexivity.
Qed.

Lemma no_modules_among_functions (fns : list FunctionDeclaration) :
  existsb isModuleDeclaration (map StFunction fns) = false.
Proof. induction fns as [|fn rest IH]; [reflexivity | exact IH]. Qed.

(** A file whose statements are all top-level function declarations gets
    no file-level container: the guard in [generateScalaOutput] looks at the
    type aliases, the export assignments and the variables only. *)
Lemma function_only_file_has_no_container
      (fns : list FunctionDeclaration) (packageName : string) :
  convertTsToScala (map StFunction fns) packageName
  = fileHeader ++ render "" true (packageClause packageName ++ " ")
    ++ "{" ++ Js.nl ++ Js.nl ++ "}".
Proof.
  unfold convertTsToScala, generateScalaOutput, Writer.toString.
  rewrite collectTopLevelExports_functions, no_modules_among_functions.
  cbn [types exportAssignments variables length Nat.eqb negb orb].
  unfold andThen.
  change (Writer.writeLine ""
            (Writer.writeLine "import js.|"
               (Writer.writeLine "import js.annotation._"
                  (Writer.writeLine "import scala.scalajs.js"
                     (Writer.writeLine "" (Writer.create 2))))))
    with (mkWriter 2 0 false fileHeader).
  rewrite packageDeclaration_clause.
  rewrite header_block_W by (first [reflexivity | apply packageClause_space]).
  rewrite forEach_functions_skip. unfold skip.
  rewrite setIndentationLevel_W, newLine_W.
  unfold closeBlock.
  cbn [w_text w_indentNumberOfSpaces w_currentIndentation w_newLineOnNextWrite
       settle Nat.pred].
  rewrite ensureNewLine_id by ends_nl.
  rewrite !indentOf_0. cbn [append]. rewrite !string_app_assoc. reflexivity.
Qed.

(** The aggregator itself writes the direct binding of every collected
    function when it is called. *)
Lemma global_scope_object_of_functions
      (packageName : string) (fn : FunctionDeclaration)
      (fns : list FunctionDeclaration) (n i : nat) (f : bool) (t : string) :
  generateGlobalScopeObject packageName
    (mkTopLevelExports [] [] [] (fn :: fns) [] []) (mkWriter n i f t)
  = mkWriter n i false
      (t ++ annotatedObjectText n "@js.native" "@JSGlobalScope"
              ("object " ++ capitalize packageName ++ " extends js.Object ")
              (Js.dedup (map globalFunctionLine (fn :: fns)))).
Proof. rewrite generateGlobalScopeObject_W. reflexivity. Qed.

(** C1 at the failing input [export function foo(x: number): void]: the
    output has no file-level container and no binding for [foo], although
    the aggregator writes that binding when called on the collected exports,
    and although the same function inside a namespace is bound in the
    module object. *)
Theorem exported_function_without_export_assignment :
  let foo := mkFunction [ExportKeyword] "foo" []
               [@mkParameter TypeNode "x" (Some (Keyword NumberKeyword)) false false]
               (Some (Keyword VoidKeyword)) in
  convertTsToScala [StFunction foo] "p"
  = textOfLines [""; "import scala.scalajs.js"; "import js.annotation._";
                 "import js.|"; ""; "package p {"; ""; "}"]
  /\ Js.includes "def foo" (convertTsToScala [StFunction foo] "p") = false
  /\ w_text (generateGlobalScopeObject "p"
               (collectTopLevelExports [StFunction foo]) (Writer.create 2))
     = textOfLines [""; "@js.native"; "@JSGlobalScope";
                    "object P extends js.Object {";
                    "  def foo(x: Double): Unit = js.native"; "}"; ""]
  /\ convertTsToScala
       [StModule [DeclareKeyword] (ModuleIdentifier "lib") (Some [StFunction foo])]
       "p"
     = textOfLines [""; "import scala.scalajs.js"; "import js.annotation._";
                    "import js.|"; ""; "package p {"; ""; "package lib {"; "";
                    "@js.native"; "@JSGlobal(" ++ quoted "lib" ++ ")";
                    "object Lib extends js.Object {";
                    "  def foo(x: Double): Unit = js.native"; "}"; "";
                    "}"; ""; "}"].
Proof. repeat split; vm_compute; reflexivity. Qed.

(** With an export assignment naming the function, the container is written
    and holds the binding once (the forwarding binding and the direct
    binding have the same text). *)
Lemma exported_function_with_export_assignment :
  let foo := mkFunction [ExportKeyword] "foo" []
               [@mkParameter TypeNode "x" (Some (Keyword NumberKeyword)) false false]
               (Some (Keyword VoidKeyword)) in
  convertTsToScala
    [StFunction foo; StExportAssignment (mkExportAssignment [] (Identifier "foo"))]
    "p"
  = textOfLines [""; "import scala.scalajs.js"; "import js.annotation._";
                 "import js.|"; ""; "package p {"; ""; "@js.native";
                 "@JSGlobalScope"; "object P extends js.Object {";
                 "  def foo(x: Double): Unit = js.native"; "}"; ""; "}"].
Proof. vm_compute. reflexivity. Qed.

(* ================================================================== *)
(** ** Classes: the global-binding path of the static companion        *)
(* ================================================================== *)

Lemma prefix_nil (s : string) : String.prefix "" s = true.
Proof. destruct s; reflexivity. Qed.

Lemma includes_dot_cons (c : ascii) (s : string) :
  Js.includes "." (String c s) = Ascii.eqb c "."%char || Js.includes "." s.
Proof.
  cbn [Js.includes String.prefix].
  destruct (ascii_dec "."%char c) as [<- | Hne].
  - now rewrite prefix_nil.
  - assert (Ascii.eqb c "."%char = false) as ->
      by (apply Ascii.eqb_neq; congruence).
    reflexivity.
Qed.

Lemma includes_dot_app (a b : string) : Js.includes "." (a ++ "." ++ b) = true.
Proof.
  induction a as [|c a IH].
  - change ("" ++ "." ++ b) with (String "."%char b).
    now rewrite includes_dot_cons.
  - change (String c a ++ "." ++ b) with (String c (a ++ "." ++ b)).
    rewrite includes_dot_cons, IH. apply orb_true_r.
Qed.

Lemma lastDotSegment_qualified (outer inner : string) :
  Js.includes "." inner = false ->
  Js.lastDotSegment (outer ++ "." ++ inner) = inner.
Proof.
  intros H. induction outer as [|c outer IH].
  - cbn [append Js.lastDotSegment]. rewrite H. reflexivity.
  - change (String c outer ++ "." ++ inner)
      with (String c (outer ++ "." ++ inner)).
    cbn [Js.lastDotSegment]. rewrite includes_dot_app. exact IH.
Qed.

Lemma lastDotSegment_unqualified (namespace : string) :
  Js.includes "." namespace = false -> Js.lastDotSegment namespace = namespace.
Proof.
  destruct namespace as [|c rest]; [reflexivity|].
  rewrite includes_dot_cons. intros H. apply orb_false_iff in H.
  destruct H as [Hc Hrest]. cbn [Js.lastDotSegment]. now rewrite Hrest, Hc.
Qed.

(** In a namespace of one segment the class and its static companion are
    bound to the same path. *)
Lemma companion_path_single_segment (namespace className : string) :
  Js.includes "." namespace = false ->
  companionJSGlobal namespace className = classJSGlobal namespace className.
Proof.
  intros H. unfold companionJSGlobal, classJSGlobal.
  rewrite (lastDotSegment_unqualified _ H).
  destruct (Js.truthy namespace); reflexivity.
Qed.

(** In a nested namespace the companion keeps the innermost segment only,
    while the class keeps the whole path. *)
Lemma companion_path_nested (outer inner className : string) :
  inner <> "" -> Js.includes "." inner = false ->
  classJSGlobal (outer ++ "." ++ inner) className
  = "@JSGlobal(" ++ quoted (outer ++ "." ++ inner ++ "." ++ className) ++ ")"
  /\ companionJSGlobal (outer ++ "." ++ inner) className
     = "@JSGlobal(" ++ quoted (inner ++ "." ++ className) ++ ")".
Proof.
  intros Hne Hdot. unfold classJSGlobal, companionJSGlobal, quoted.
  rewrite (lastDotSegment_qualified _ _ Hdot).
  assert (Js.truthy (outer ++ "." ++ inner) = true) as ->
    by (destruct outer; reflexivity).
  assert (Js.truthy inner = true) as ->
    by (destruct inner; [congruence | reflexivity]).
  cbn [andb]. split; rewrite !string_app_assoc; reflexivity.
Qed.

(** C4 at the failing input
    [declare namespace A { namespace B { class C { static x: number } } }]:
    the class is bound to [A.B.C], its static companion to [B.C]. *)
Theorem static_companion_path_in_nested_namespace :
  let C := mkClass [] (Some "C") [] []
             [PropertyMember
                (mkProperty [StaticKeyword] "x" (Some (Keyword NumberKeyword)))] in
  convertTsToScala
    [StModule [DeclareKeyword] (ModuleIdentifier "A")
       (Some [StModule [] (ModuleIdentifier "B") (Some [StClass C])])] "p"
  = textOfLines
      [""; "import scala.scalajs.js"; "import js.annotation._"; "import js.|";
       ""; "package p {"; ""; "package A {"; ""; "package B {"; "";
       "@js.native"; "@JSGlobal(" ++ quoted "A.B.C" ++ ")";
       "class C extends js.Object {"; "}";
       "@js.native"; "@JSGlobal(" ++ quoted "B.C" ++ ")";
       "object C extends js.Object {"; "  var x: Double = js.native"; "}";
       ""; "}"; "}"; ""; "}"]
  /\ classJSGlobal "A.B" "C" = "@JSGlobal(" ++ quoted "A.B.C" ++ ")"
  /\ companionJSGlobal "A.B" "C" = "@JSGlobal(" ++ quoted "B.C" ++ ")".
Proof. repeat split; vm_compute; reflexivity. Qed.

(* ================================================================== *)
(** ** Classes: visibility of members                                  *)
(* ================================================================== *)

(** Private and protected properties and methods write nothing, as
    instance members and as members of the static companion. *)
Lemma private_property_suppressed (node : PropertyDeclaration)
      (isAbstractClass : bool) (w : CodeBlockWriter) :
  isPrivateOrProtected (prop_modifiers node) = true ->
  processPropertyDeclaration node isAbstractClass w = w
  /\ emitStaticProperty node w = w.
Proof.
  intros H. unfold processPropertyDeclaration, emitStaticProperty.
  rewrite H. split; reflexivity.
Qed.

Lemma private_method_suppressed (node : MethodDeclaration)
      (isAbstractClass : bool) (w : CodeBlockWriter) :
  isPrivateOrProtected (meth_modifiers node) = true ->
  processMethodDeclaration node isAbstractClass w = w
  /\ emitStaticMethod node w = w.
Proof.
  intros H. unfold processMethodDeclaration, emitStaticMethod.
  rewrite H. split; reflexivity.
Qed.

(** C9 at the failing input [declare class C { private constructor(x: number) }]:
    the private constructor turns the primary constructor into
    [protected ()] and is written as a secondary constructor.  A class
    whose only static member is private still gets a companion object. *)
Theorem private_constructor_is_emitted :
  let x := @mkParameter TypeNode "x" (Some (Keyword NumberKeyword)) false false in
  let withPrivateCtor :=
    mkClass [DeclareKeyword] (Some "C") [] []
      [ConstructorMember (mkConstructor [PrivateKeyword] [x])] in
  let withoutMembers := mkClass [DeclareKeyword] (Some "C") [] [] [] in
  let withPrivateStatic :=
    mkClass [DeclareKeyword] (Some "C") [] []
      [PropertyMember (mkProperty [PrivateKeyword; StaticKeyword] "secret"
                         (Some (Keyword StringKeyword)))] in
  convertTsToScala [StClass withPrivateCtor] "p"
  = textOfLines
      [""; "import scala.scalajs.js"; "import js.annotation._"; "import js.|";
       ""; "package p {"; ""; "@js.native"; "@JSGlobal";
       "class C protected () extends js.Object {";
       "  def this(x: Double) = this()"; "}"; ""; "}"]
  /\ convertTsToScala [StClass withoutMembers] "p"
     = textOfLines
         [""; "import scala.scalajs.js"; "import js.annotation._"; "import js.|";
          ""; "package p {"; ""; "@js.native"; "@JSGlobal";
          "class C extends js.Object {"; "}"; ""; "}"]
  /\ convertTsToScala [StClass withPrivateStatic] "p"
     = textOfLines
         [""; "import scala.scalajs.js"; "import js.annotation._"; "import js.|";
          ""; "package p {"; ""; "@js.native"; "@JSGlobal";
          "class C extends js.Object {"; "}";
          "@js.native"; "@JSGlobal"; "object C extends js.Object {"; "}";
          ""; "}"].
Proof. repeat split; vm_compute; reflexivity. Qed.

(* ================================================================== *)
(** ** NameSanitizer: where identifiers are quoted                     *)
(* ================================================================== *)

Lemma andThen_apply (a b : Action) (w : CodeBlockWriter) :
  (a ;; b) w = b (a w).
Proof. reflexivity. Qed.

Lemma startsWith_extend (a : Action) (p : string) (w : CodeBlockWriter) :
  appendOnly a -> startsWith p (w_text w) -> startsWith p (w_text (a w)).
Proof.
  intros Ha [r Hr]. destruct (Ha w) as [s Hs].
  exists (r ++ s). now rewrite Hs, Hr, string_app_assoc.
Qed.

Lemma startsWith_closeBlock (p : string) (w : CodeBlockWriter) :
  startsWith p (w_text w) -> startsWith p (w_text (closeBlock w)).
Proof.
  intros [r Hr]. unfold closeBlock. cbn [w_text].
  assert (Hens : exists x, ensureNewLine (w_newLineOnNextWrite w) (w_text w)
                           = w_text w ++ x).
  { unfold ensureNewLine. destruct (w_newLineOnNextWrite w);
      [eexists; reflexivity|].
    destruct (endsWithNewLine (w_text w));
      [exists ""; now rewrite string_app_nil_r | eexists; reflexivity]. }
  destruct Hens as [x ->]. rewrite Hr.
  eexists. rewrite !string_app_assoc. reflexivity.
Qed.

(** A header followed by a block: the text written so far, the header, the
    opening brace, then the rest. *)
Lemma header_block_startsWith (hdr : string) (body : Action) (n i : nat)
      (f : bool) (t : string) :
  (f || endsWithNewLine t) = true ->
  Js.lastChar hdr = Some " "%char ->
  appendOnly body ->
  startsWith (settle f t ++ render (indentOf n i) true hdr ++ "{" ++ Js.nl)
             (w_text (Writer.block body (Writer.write hdr (mkWriter n i f t)))).
Proof.
  intros Hr Hl Hb. rewrite header_block_W by assumption.
  apply startsWith_closeBlock.
  destruct (Hb (mkWriter n (S i) false
                  ((settle f t ++ render (indentOf n i) true hdr) ++ "{" ++ Js.nl)))
    as [s Hs].
  exists s. rewrite Hs. cbn [w_text]. now rewrite !string_app_assoc.
Qed.

Lemma includes_char_cons (ch c : ascii) (s : string) :
  Js.includes (String ch "") (String c s)
  = Ascii.eqb c ch || Js.includes (String ch "") s.
Proof.
  cbn [Js.includes String.prefix].
  destruct (ascii_dec ch c) as [<- | Hne].
  - now rewrite prefix_nil, Ascii.eqb_refl.
  - assert (Ascii.eqb c ch = false) as -> by (apply Ascii.eqb_neq; congruence).
    reflexivity.
Qed.

Lemma identPart_no_hyphen (s : string) :
  Js.allChars Js.identPart s = true -> Js.includes "-" s = false.
Proof.
  induction s as [|c s IH]; [reflexivity|].
  cbn [Js.allChars]. intros H. apply andb_true_iff in H. destruct H as [Hc Hs].
  rewrite includes_char_cons, (IH Hs), orb_false_r.
  destruct (Ascii.eqb c "-"%char) eqn:E; [|reflexivity].
  apply Ascii.eqb_eq in E. subst c. discriminate Hc.
Qed.

(** A name with a hyphen fails the bare-identifier grammar, so the hyphen
    test of the package clause adds nothing to the grammar test. *)
Lemma hyphen_fails_grammar (s : string) :
  Js.includes "-" s = true -> Js.matchesBareIdentifier s = false.
Proof.
  intros H. destruct s as [|c s]; [reflexivity|].
  cbn [Js.matchesBareIdentifier].
  destruct (Js.identStart c) eqn:Ec; [|reflexivity].
  destruct (Js.allChars Js.identPart s) eqn:Es; [|reflexivity].
  rewrite includes_char_cons, (identPart_no_hyphen _ Es), orb_false_r in H.
  apply Ascii.eqb_eq in H. subst c. discriminate Ec.
Qed.

Lemma packageDeclaration_sanitize (packageName : string) :
  packageDeclaration packageName = "package " ++ sanitize_spec packageName.
Proof.
  unfold packageDeclaration, sanitize_spec, backquote.
  destruct (Js.includes "-" packageName) eqn:Eh.
  - rewrite (hyphen_fails_grammar _ Eh). cbn [negb orb].
    rewrite orb_true_r. reflexivity.
  - cbn [orb].
    rewrite (orb_comm (negb (Js.matchesBareIdentifier packageName))).
    destruct (_ || _); reflexivity.
Qed.

Lemma quoteIfReserved_rule (name : string) :
  quoteIfReserved name = quoteReservedOnly name.
Proof. reflexivity. Qed.

Lemma last_space_literal (a : string) : Js.lastChar (a ++ " ") = Some " "%char.
Proof. apply lastChar_app_char. Qed.

Lemma classHeader_space (node : ClassDeclaration) (name : string) :
  Js.lastChar (classHeader node name) = Some " "%char.
Proof. unfold classHeader. last_is_space. Qed.

(** The first lines a module declaration writes. *)
Lemma processModuleDeclaration_header (moduleName : string)
      (body : option (list Statement)) (namespace : string) (w : CodeBlockWriter) :
  startsWith (w_text w ++ Js.nl
              ++ render "" true ("package " ++ quoteReservedOnly moduleName ++ " ")
              ++ "{" ++ Js.nl)
             (w_text (processModuleDeclaration (ModuleIdentifier moduleName)
                        body namespace w)).
Proof.
  destruct w as [n i f t].
  unfold processModuleDeclaration, processModuleDeclarationWith. cbv zeta.
  change (quoteIfReserved moduleName) with (quoteReservedOnly moduleName).
  rewrite !andThen_apply.
  apply startsWith_extend; [apply appendOnly_setIndentationLevel|].
  rewrite newLine_W, setIndentationLevel_W. cbn [w_text].
  assert (E : render "" true ("package " ++ quoteReservedOnly moduleName ++ " ")
              = render (indentOf n 0) true
                  ("package " ++ quoteReservedOnly moduleName ++ " "))
    by now rewrite indentOf_0.
  rewrite E, <- (string_app_assoc t). clear E.
  match goal with
  | |- context [Writer.block ?b] =>
      apply (@header_block_startsWith
               ("package " ++ quoteReservedOnly moduleName ++ " ")
               b n 0 false (t ++ Js.nl))
  end.
  - ready.
  - last_is_space.
  - destruct body as [statements|]; append_only.
    + apply processStatement_appendOnly.
    + apply generateModuleObject_appendOnly.
Qed.

Lemma emitStaticProperty_appendOnly prop : appendOnly (emitStaticProperty prop).
Proof. unfold emitStaticProperty. append_only. Qed.

Lemma emitStaticMethod_appendOnly m : appendOnly (emitStaticMethod m).
Proof.
  unfold emitStaticMethod. append_only. apply processMethodDeclaration_appendOnly.
Qed.

Lemma emitSecondaryConstructor_appendOnly cons :
  appendOnly (emitSecondaryConstructor cons).
Proof. unfold emitSecondaryConstructor. append_only. Qed.

(** The first lines a class declaration writes. *)
Lemma processClassDeclaration_header (node : ClassDeclaration)
      (namespace : string) (w : CodeBlockWriter) :
  startsWith (w_text w ++ Js.nl
              ++ renderLine "" "@js.native"
              ++ renderLine "" (classJSGlobal namespace (classNameOf node))
              ++ render "" true
                   (classHeader node (quoteReservedOnly (classNameOf node)))
              ++ "{" ++ Js.nl)
             (w_text (processClassDeclaration node namespace w)).
Proof.
  destruct w as [n i f t].
  unfold processClassDeclaration. cbv zeta.
  fold (classNameOf node).
  change (quoteIfReserved (classNameOf node))
    with (quoteReservedOnly (classNameOf node)).
  rewrite !andThen_apply.
  apply startsWith_extend; [apply appendOnly_setIndentationLevel|].
  apply startsWith_extend.
  { append_only;
      first [ apply emitStaticProperty_appendOnly
            | apply emitStaticMethod_appendOnly ]. }
  apply startsWith_extend; [apply appendOnly_newLine|].
  rewrite newLine_W, setIndentationLevel_W.
  rewrite write_newLine_W by ready. rewrite write_newLine_W by ready.
  cbn [settle w_text].
  match goal with
  | |- startsWith _ (w_text (Writer.block ?b
                               (Writer.write ?h (mkWriter ?n0 ?i0 ?f0 ?t0)))) =>
      pose proof (@header_block_startsWith h b n0 i0 f0 t0) as H
  end.
  rewrite !indentOf_0 in *. cbn [settle] in H.
  rewrite !string_app_assoc in *. apply H.
  - ready.
  - apply classHeader_space.
  - append_only;
      first [ apply emitSecondaryConstructor_appendOnly
            | apply processClassMember_appendOnly ].
Qed.

Lemma methodSignatureParam_rule (p : ParameterDeclaration) :
  methodSignatureParam p = quoteReservedOnly (param_name p) ++ paramSuffix p.
Proof.
  unfold methodSignatureParam, paramSuffix.
  change (quoteIfReserved (param_name p)) with (quoteReservedOnly (param_name p)).
  destruct (dotDotDotToken p); reflexivity.
Qed.

Lemma methodDeclarationParam_rule (p : ParameterDeclaration) :
  methodDeclarationParam p = param_name p ++ paramSuffix p.
Proof.
  unfold methodDeclarationParam, paramSuffix.
  destruct (dotDotDotToken p); reflexivity.
Qed.

(** The line of a public class method. *)
Lemma processMethodDeclaration_line (node : MethodDeclaration)
      (isAbstractClass : bool) (n i : nat) (t : string) :
  endsWithNewLine t = true ->
  isPrivateOrProtected (meth_modifiers node) = false ->
  w_text (processMethodDeclaration node isAbstractClass (mkWriter n i false t))
  = t ++ renderLine (indentOf n i)
           (overridePrefix (meth_name node) ++ "def "
            ++ quoteReservedOnly (meth_name node)
            ++ typeParamString (meth_typeParameters node)
            ++ "(" ++ Js.join ", "
                        (map (fun p => param_name p ++ paramSuffix p)
                             (meth_parameters node))
            ++ "): " ++ typeOrDefault (meth_type node) "Unit"
            ++ (if isAbstractClass then "" else " = js.native")).
Proof.
  intros Ht Hpub. unfold processMethodDeclaration. rewrite Hpub.
  rewrite writeLine_W by (cbn; exact Ht). cbn [settle w_text].
  rewrite (map_ext _ _ methodDeclarationParam_rule). reflexivity.
Qed.

(** The line of an interface method signature. *)
Lemma processMethodSignature_line (name : string)
      (typeParameters : list TypeParameterDeclaration)
      (parameters : list ParameterDeclaration) (type : option TypeNode)
      (n i : nat) (t : string) :
  endsWithNewLine t = true ->
  w_text (processInterfaceMember
            (MethodSignature name typeParameters parameters type)
            (mkWriter n i false t))
  = t ++ renderLine (indentOf n i)
           (overridePrefix name ++ "def " ++ quoteReservedOnly name
            ++ typeParamString typeParameters
            ++ "(" ++ Js.join ", "
                        (map (fun p => quoteReservedOnly (param_name p)
                                       ++ paramSuffix p) parameters)
            ++ "): " ++ typeOrDefault type "js.Dynamic" ++ " = js.native").
Proof.
  intros Ht. cbn [processInterfaceMember]. unfold processMethodSignature.
  rewrite writeLine_W by (cbn; exact Ht). cbn [settle w_text].
  rewrite (map_ext _ _ methodSignatureParam_rule). reflexivity.
Qed.

Lemma quoteReservedOnly_valid (identifier : string) :
  Js.matchesBareIdentifier identifier = true ->
  quoteReservedOnly identifier = sanitize_spec identifier.
Proof.
  intros H. unfold quoteReservedOnly, sanitize_spec. rewrite H.
  cbn [negb]. now rewrite orb_false_r.
Qed.

(** C2, as the code has it.  The package name is backquoted exactly when
    it is a reserved word or fails the bare-identifier grammar (a name with
    a hyphen fails it).  Module names, class names, method names and the
    parameter names of interface method signatures are backquoted exactly
    when they are reserved words and written unchanged otherwise, whether
    or not they satisfy the grammar; on grammar-valid identifiers this is
    the specified sanitizer, so no non-reserved, grammar-valid identifier
    is quoted. *)
Theorem identifier_quoting :
  (forall packageName,
     packageDeclaration packageName = "package " ++ sanitize_spec packageName)
  /\ (forall moduleName body namespace w,
        startsWith
          (w_text w ++ Js.nl
           ++ render "" true ("package " ++ quoteReservedOnly moduleName ++ " ")
           ++ "{" ++ Js.nl)
          (w_text (processModuleDeclaration (ModuleIdentifier moduleName)
                     body namespace w)))
  /\ (forall node namespace w,
        startsWith
          (w_text w ++ Js.nl
           ++ renderLine "" "@js.native"
           ++ renderLine "" (classJSGlobal namespace (classNameOf node))
           ++ render "" true
                (classHeader node (quoteReservedOnly (classNameOf node)))
           ++ "{" ++ Js.nl)
          (w_text (processClassDeclaration node namespace w)))
  /\ (forall node isAbstractClass n i t,
        endsWithNewLine t = true ->
        isPrivateOrProtected (meth_modifiers node) = false ->
        w_text (processMethodDeclaration node isAbstractClass
                  (mkWriter n i false t))
        = t ++ renderLine (indentOf n i)
                 (overridePrefix (meth_name node) ++ "def "
                  ++ quoteReservedOnly (meth_name node)
                  ++ typeParamString (meth_typeParameters node)
                  ++ "(" ++ Js.join ", "
                              (map (fun p => param_name p ++ paramSuffix p)
                                   (meth_parameters node))
                  ++ "): " ++ typeOrDefault (meth_type node) "Unit"
                  ++ (if isAbstractClass then "" else " = js.native")))
  /\ (forall name typeParameters parameters type n i t,
        endsWithNewLine t = true ->
        w_text (processInterfaceMember
                  (MethodSignature name typeParameters parameters type)
                  (mkWriter n i false t))
        = t ++ renderLine (indentOf n i)
                 (overridePrefix name ++ "def " ++ quoteReservedOnly name
                  ++ typeParamString typeParameters
                  ++ "(" ++ Js.join ", "
                              (map (fun p => quoteReservedOnly (param_name p)
                                             ++ paramSuffix p) parameters)
                  ++ "): " ++ typeOrDefault type "js.Dynamic" ++ " = js.native"))
  /\ (forall identifier,
        Js.matchesBareIdentifier identifier = true ->
        quoteReservedOnly identifier = sanitize_spec identifier)
  /\ (forall identifier,
        Js.matchesBareIdentifier identifier = true ->
        Js.arrayIncludes SCALA_RESERVED_WORDS identifier = false ->
        quoteReservedOnly identifier = identifier
        /\ sanitize_spec identifier = identifier).
Proof.
  split; [exact packageDeclaration_sanitize|].
  split; [exact processModuleDeclaration_header|].
  split; [exact processClassDeclaration_header|].
  split; [exact processMethodDeclaration_line|].
  split; [exact processMethodSignature_line|].
  split; [exact quoteReservedOnly_valid|].
  intros identifier Hvalid Hres. unfold quoteReservedOnly, sanitize_spec.
  rewrite Hvalid, Hres. split; reflexivity.
Qed.

Lemma identifier_quoting_witness :
  quoteReservedOnly "match" = sanitize_spec "match"
  /\ quoteReservedOnly "render" = "render"
  /\ w_text (processMethodDeclaration (mkMethod [] "type" [] [] None) false
               (mkWriter 2 1 false Js.nl))
     = Js.nl ++ "  def `type`(): Unit = js.native" ++ Js.nl
  /\ w_text (processInterfaceMember
               (MethodSignature "on" []
                  [@mkParameter TypeNode "val" (Some (Keyword NumberKeyword))
                                false false] None)
               (mkWriter 2 1 false Js.nl))
     = Js.nl ++ "  def on(`val`: Double): js.Dynamic = js.native" ++ Js.nl.
Proof.
  destruct identifier_quoting as [_ [_ [_ [Hmeth [Hsig [Hvalid Hplain]]]]]].
  split; [apply Hvalid; reflexivity|].
  split; [apply Hplain; reflexivity|].
  split.
  - apply (Hmeth (mkMethod [] "type" [] [] None) false 2 1 Js.nl); reflexivity.
  - apply (Hsig "on" []
             [@mkParameter TypeNode "val" (Some (Keyword NumberKeyword)) false false]
             None 2 1 Js.nl); reflexivity.
Defined.

(** C2 as stated fails: [$Element] is a class name of the input language
    that fails the bare-identifier grammar, yet the class is written with
    the name as it stands. *)
Lemma identifier_quoting_counterexample :
  Js.matchesBareIdentifier "$Element" = false
  /\ sanitize_spec "$Element" = "`$Element`"
  /\ convertTsToScala
       [StClass (mkClass [DeclareKeyword] (Some "$Element") [] [] [])] "p"
     = textOfLines
         [""; "import scala.scalajs.js"; "import js.annotation._"; "import js.|";
          ""; "package p {"; ""; "@js.native"; "@JSGlobal";
          "class $Element extends js.Object {"; "}"; ""; "}"].
Proof. repeat split; vm_compute; reflexivity. Qed.

(** Two places where a reserved word is written as it stands: the name of
    an interface and the parameter names of a class method. *)
Lemma reserved_words_left_unquoted :
  let val := @mkParameter TypeNode "val" (Some (Keyword NumberKeyword))
                          false false in
  convertTsToScala [StInterface (mkInterface [] "type" [] [])] "p"
  = textOfLines
      [""; "import scala.scalajs.js"; "import js.annotation._"; "import js.|";
       ""; "package p {"; ""; "@js.native"; "trait type extends js.Object {";
       "}"; ""; "}"]
  /\ convertTsToScala
       [StClass (mkClass [DeclareKeyword] (Some "C") [] []
                   [MethodMember (mkMethod [] "on" [] [val] None)])] "p"
     = textOfLines
         [""; "import scala.scalajs.js"; "import js.annotation._"; "import js.|";
          ""; "package p {"; ""; "@js.native"; "@JSGlobal";
          "class C extends js.Object {"; "  def on(val: Double): Unit = js.native";
          "}"; ""; "}"].
Proof. split; vm_compute; reflexivity. Qed.

(* ================================================================== *)
(** ** Interfaces: nested traits for inline type literals              *)
(* ================================================================== *)

Lemma processInterfaceMember_W (member : TypeElement) (n i : nat) (t : string) :
  endsWithNewLine t = true ->
  processInterfaceMember member (mkWriter n i false t)
  = mkWriter n i false (t ++ linesText (indentOf n i) (memberLines member)).
Proof.
  intros Ht. destruct member as [name mods ty|name tps params ty|mods p ty| |];
    cbn [processInterfaceMember memberLines].
  - unfold processPropertySignature.
    rewrite writeLine_W by (cbn; exact Ht). cbn [settle linesText].
    now rewrite string_app_nil_r.
  - unfold processMethodSignature.
    rewrite writeLine_W by (cbn; exact Ht). cbn [settle linesText].
    now rewrite string_app_nil_r.
  - unfold processIndexSignature. rewrite !andThen_apply.
    rewrite writeLine_W by (cbn; exact Ht). cbn [settle].
    rewrite writeLine_W by ready. cbn [settle].
    destruct (hasModifier ReadonlyKeyword mods).
    + unfold skip. cbn [app linesText].
      now rewrite string_app_nil_r, !string_app_assoc.
    + rewrite !andThen_apply.
      rewrite writeLine_W by ready. cbn [settle].
      rewrite writeLine_W by ready. cbn [settle app linesText].
      now rewrite string_app_nil_r, !string_app_assoc.
  - unfold skip. cbn [linesText]. now rewrite string_app_nil_r.
  - unfold skip. cbn [linesText]. now rewrite string_app_nil_r.
Qed.

(** A run of actions that each write some lines from the start of a line. *)
Lemma forEach_lines_W {A : Type} (g : A -> Action) (lines : A -> list string)
      (n i : nat) (arr : list A) (t : string) :
  (forall x t', endsWithNewLine t' = true ->
     g x (mkWriter n i false t')
     = mkWriter n i false (t' ++ linesText (indentOf n i) (lines x))) ->
  endsWithNewLine t = true ->
  forEach arr g (mkWriter n i false t)
  = mkWriter n i false (t ++ linesText (indentOf n i) (flat_map lines arr)).
Proof.
  intros Hg. unfold forEach. revert t.
  induction arr as [|x rest IH]; intros t Ht.
  - cbn. now rewrite string_app_nil_r.
  - cbn [fold_left flat_map]. rewrite Hg by assumption.
    rewrite IH by ready. now rewrite linesText_app, string_app_assoc.
Qed.

Lemma emitNestedMember_W (traitName : string) (member : TypeElement)
      (n i : nat) (t : string) :
  endsWithNewLine t = true ->
  emitNestedMember traitName member (mkWriter n i false t)
  = mkWriter n i false
      (t ++ linesText (indentOf n i) (nestedMemberLines traitName member)).
Proof.
  intros Ht. unfold emitNestedMember, nestedMemberLines.
  destruct (inlineTypeLiteral member) as [[[name mods] members]|].
  - rewrite writeLine_W by (cbn; exact Ht). cbn [settle linesText].
    now rewrite string_app_nil_r.
  - now apply processInterfaceMember_W.
Qed.

Lemma trait_header_space (traitName : string) :
  Js.lastChar ("trait " ++ traitName ++ " extends js.Object ") = Some " "%char.
Proof. last_is_space. Qed.

Lemma object_header_space (objectName : string) :
  Js.lastChar ("object " ++ objectName ++ " ") = Some " "%char.
Proof. last_is_space. Qed.

(** A trait written as annotation, header and a block of lines. *)
Lemma trait_emitsBlock (traitName : string) (body : Action)
      (bodyLines : list string) (n i : nat) :
  (forall t, endsWithNewLine t = true ->
     body (mkWriter n (S i) false t)
     = mkWriter n (S i) false (t ++ linesText (indentOf n (S i)) bodyLines)) ->
  emitsBlock (Writer.write "@js.native" ;; Writer.newLine ;;
              Writer.write ("trait " ++ traitName ++ " extends js.Object ") ;;
              Writer.block body)
             n i (traitBlock n i traitName bodyLines).
Proof.
  intros Hbody f t Hready. rewrite !andThen_apply.
  rewrite write_newLine_W by assumption.
  rewrite header_block_W by (first [ready | apply trait_header_space]).
  cbn [settle]. rewrite Hbody by ready.
  unfold closeBlock.
  cbn [w_indentNumberOfSpaces w_currentIndentation w_newLineOnNextWrite w_text
       Nat.pred].
  rewrite ensureNewLine_id by ready.
  eexists. split; [reflexivity|].
  unfold traitBlock. rewrite !string_app_assoc. reflexivity.
Qed.

(** A non-empty run of block-writing actions writes the blocks one after
    the other. *)
Lemma forEach_emitsBlock {A : Type} (g : A -> Action) (blk : A -> string)
      (n i : nat) (arr : list A) :
  (forall x, emitsBlock (g x) n i (blk x)) ->
  arr <> [] ->
  emitsBlock (forEach arr g) n i (concatBlocks (map blk arr)).
Proof.
  intros Hg. unfold forEach.
  induction arr as [|x rest IH]; intros Hne f t Hready; [congruence|].
  cbn [fold_left map concatBlocks].
  destruct (Hg x f t Hready) as [t1 [E1 H1]]. rewrite E1.
  destruct rest as [|y rest'].
  - cbn [fold_left map concatBlocks]. exists t1. split; [reflexivity|].
    now rewrite string_app_nil_r.
  - destruct (IH ltac:(discriminate) true t1 eq_refl) as [t2 [E2 H2]].
    exists t2. split; [exact E2|].
    rewrite H2. cbn [settle]. rewrite <- string_app_assoc, H1.
    now rewrite string_app_assoc.
Qed.

(** An object written as a header and a block of blocks, from the start of
    a line. *)
Lemma object_of_blocks_W (objectName : string) (body : Action)
      (blocks : string) (n i : nat) (t : string) :
  endsWithNewLine t = true ->
  emitsBlock body n (S i) blocks ->
  Writer.block body (Writer.write ("object " ++ objectName ++ " ")
                       (mkWriter n i false t))
  = mkWriter n i true
      (t ++ render (indentOf n i) true ("object " ++ objectName ++ " ")
       ++ "{" ++ Js.nl ++ blocks ++ indentOf n i ++ "}").
Proof.
  intros Ht Hbody.
  rewrite header_block_W by (first [ready | apply object_header_space]).
  cbn [settle].
  destruct (Hbody false ((t ++ render (indentOf n i) true
                                 ("object " ++ objectName ++ " "))
                         ++ "{" ++ Js.nl)) as [t' [E H]]; [ready|].
  rewrite E. unfold closeBlock, ensureNewLine.
  cbn [w_indentNumberOfSpaces w_currentIndentation w_newLineOnNextWrite w_text
       Nat.pred settle] in *.
  rewrite H. now rewrite !string_app_assoc.
Qed.

Lemma emitDeepTrait_emitsBlock (n : nat)
      (propSig : string * list Modifier * list TypeElement) :
  emitsBlock (emitDeepTrait propSig) n 2 (deepTraitBlock n propSig).
Proof.
  destruct propSig as [[name mods] members].
  unfold emitDeepTrait, deepTraitBlock.
  apply trait_emitsBlock. intros t Ht.
  apply forEach_lines_W; [|assumption].
  intros x t' Ht'. now apply processInterfaceMember_W.
Qed.

Lemma inlineTypeLiteralMembersOf_nil {A : Type} (l : list A) :
  Nat.eqb (length l) 0 = false -> l <> [].
Proof. destruct l; [discriminate | discriminate]. Qed.

Lemma emitNestedTrait_emitsBlock (n : nat)
      (propSig : string * list Modifier * list TypeElement) :
  emitsBlock (emitNestedTrait propSig) n 1 (nestedTraitBlock n propSig).
Proof.
  destruct propSig as [[name mods] members].
  unfold emitNestedTrait, nestedTraitBlock. cbv zeta.
  intros f t Hready. rewrite andThen_apply.
  destruct (@trait_emitsBlock (capitalize name)
              (forEach members (emitNestedMember (capitalize name)))
              (flat_map (nestedMemberLines (capitalize name)) members) n 1)
    with (f := f) (t := t) as [t1 [E1 H1]]; [| assumption |].
  { intros t0 Ht0. apply forEach_lines_W; [|assumption].
    intros x t' Ht'. now apply emitNestedMember_W. }
  rewrite E1.
  destruct (Nat.eqb (length (inlineTypeLiteralMembersOf members)) 0) eqn:Edeep;
    cbn [negb].
  - unfold skip. exists t1. split; [reflexivity|].
    rewrite H1. now rewrite string_app_nil_r.
  - rewrite !andThen_apply, newLine_W.
    rewrite (@object_of_blocks_W (capitalize name) _
               (concatBlocks (map (deepTraitBlock n)
                                  (inlineTypeLiteralMembersOf members)))).
    + eexists. split; [reflexivity|].
      unfold objectBlock. rewrite H1. now rewrite !string_app_assoc.
    + ready.
    + apply forEach_emitsBlock;
        [apply emitDeepTrait_emitsBlock
        | now apply inlineTypeLiteralMembersOf_nil].
Qed.

Lemma interface_header_space (node : InterfaceDeclaration) :
  Js.lastChar ("trait " ++ iface_name node
               ++ typeParamString (iface_typeParameters node)
               ++ " extends js.Object ") = Some " "%char.
Proof. last_is_space. Qed.

Lemma writeInterfaceTrait_W (node : InterfaceDeclaration) (n : nat) (t : string) :
  endsWithNewLine t = true ->
  writeInterfaceTrait node (mkWriter n 0 false t)
  = mkWriter n 0 true
      (t ++ renderLine "" "@js.native"
       ++ render "" true ("trait " ++ iface_name node
                          ++ typeParamString (iface_typeParameters node)
                          ++ " extends js.Object ")
       ++ "{" ++ Js.nl
       ++ linesText (indentOf n 1)
            (Js.dedup (map (interfaceTraitLine (iface_name node))
                           (iface_members node)))
       ++ "}").
Proof.
  intros Ht. unfold writeInterfaceTrait. rewrite !andThen_apply.
  rewrite write_newLine_W by (cbn; exact Ht).
  rewrite header_block_W by (first [ready | apply interface_header_space]).
  cbn [settle].
  rewrite fold_writeLineOnce_map, fold_writeLineOnce_W by ready.
  cbn [snd]. unfold closeBlock.
  cbn [w_indentNumberOfSpaces w_currentIndentation w_newLineOnNextWrite w_text
       Nat.pred].
  rewrite ensureNewLine_id by ready.
  rewrite !indentOf_0. unfold Js.dedup. cbn [append].
  now rewrite !string_app_assoc.
Qed.

(** The text [processInterfaceDeclaration] appends, from any buffer state. *)
Lemma processInterfaceDeclaration_W (node : InterfaceDeclaration)
      (namespace : string) (n i : nat) (f : bool) (t : string) :
  processInterfaceDeclaration node namespace (mkWriter n i f t)
  = mkWriter n i false (t ++ interfaceText n node).
Proof.
  unfold processInterfaceDeclaration. cbv zeta.
  unfold Writer.getIndentationLevel. rewrite !andThen_apply.
  rewrite !newLine_W at 1. cbn [w_currentIndentation].
  rewrite setIndentationLevel_W.
  rewrite writeInterfaceTrait_W by ready.
  unfold interfaceText.
  destruct (Nat.eqb (length (inlineTypeLiteralMembersOf (iface_members node))) 0)
    eqn:E; cbn [negb].
  - unfold skip. rewrite newLine_W, setIndentationLevel_W.
    now rewrite string_app_nil_r, !string_app_assoc.
  - rewrite !andThen_apply, newLine_W.
    rewrite (@object_of_blocks_W (iface_name node) _
               (concatBlocks (map (nestedTraitBlock n)
                                  (inlineTypeLiteralMembersOf (iface_members node))))).
    + rewrite newLine_W, setIndentationLevel_W.
      unfold objectBlock. now rewrite !string_app_assoc.
    + ready.
    + apply forEach_emitsBlock;
        [apply emitNestedTrait_emitsBlock
        | now apply inlineTypeLiteralMembersOf_nil].
Qed.

Lemma inlineTypeLiteralMembersOf_In (name : string) (modifiers : list Modifier)
      (literalMembers members : list TypeElement) :
  In (PropertySignature name modifiers (Some (TypeLiteral literalMembers))) members ->
  In (name, modifiers, literalMembers) (inlineTypeLiteralMembersOf members).
Proof.
  intros H. unfold inlineTypeLiteralMembersOf. apply in_flat_map.
  eexists. split; [exact H|]. cbn. now left.
Qed.

(** The two levels the code expands.  The text of an interface declaration
    is the trait, whose line for a property typed by a type literal names
    the nested type [Interface.Property], followed, when there are such
    properties, by a companion object that holds one trait per property.
    Inside such a trait a property typed by a type literal is expanded once
    more: its line names [Trait.Property] and its members form a trait in
    an object named after the enclosing trait.  The members of a
    third-level trait are written as ordinary members. *)
Lemma interface_expansion_two_levels :
  (forall node namespace n i f t,
     processInterfaceDeclaration node namespace (mkWriter n i f t)
     = mkWriter n i false (t ++ interfaceText n node))
  /\ (forall interfaceName name modifiers literalMembers,
        interfaceTraitLine interfaceName
          (PropertySignature name modifiers (Some (TypeLiteral literalMembers)))
        = (if hasModifier ReadonlyKeyword modifiers then "def" else "var")
          ++ " " ++ name ++ ": " ++ interfaceName ++ "." ++ capitalize name
          ++ " = js.native")
  /\ (forall name modifiers literalMembers members,
        In (PropertySignature name modifiers (Some (TypeLiteral literalMembers)))
           members ->
        In (name, modifiers, literalMembers) (inlineTypeLiteralMembersOf members))
  /\ (forall traitName name modifiers literalMembers,
        nestedMemberLines traitName
          (PropertySignature name modifiers (Some (TypeLiteral literalMembers)))
        = ["var " ++ name ++ ": " ++ traitName ++ "." ++ capitalize name
           ++ " = js.native"])
  /\ (forall name modifiers literalMembers,
        memberLines
          (PropertySignature name modifiers (Some (TypeLiteral literalMembers)))
        = [(if hasModifier ReadonlyKeyword modifiers then "def" else "var")
           ++ " " ++ name ++ ": js.Any = js.native"]).
Proof.
  split; [exact processInterfaceDeclaration_W|].
  split; [reflexivity|].
  split; [exact inlineTypeLiteralMembersOf_In|].
  split; reflexivity.
Qed.

(** C5 at the failing input
    [interface I { a: { b: { c: { d: string } } } }].  The properties [a]
    and [b], at the first and second level, are expanded as the claim says:
    their lines name [I.A] and [A.B], and the traits [A] and [B] are
    emitted inside the objects [I] and [A].  The property [c] of the third
    literal is not: its line has the universal type [js.Any], and the
    output holds neither a trait [C] nor an object [B], so the member [d]
    appears nowhere. *)
Theorem type_literal_at_depth_three_is_not_expanded :
  let d := PropertySignature "d" [] (Some (Keyword StringKeyword)) in
  let c := PropertySignature "c" [] (Some (TypeLiteral [d])) in
  let b := PropertySignature "b" [] (Some (TypeLiteral [c])) in
  let a := PropertySignature "a" [] (Some (TypeLiteral [b])) in
  convertTsToScala [StInterface (mkInterface [] "I" [] [a])] "p"
  = textOfLines
      [""; "import scala.scalajs.js"; "import js.annotation._"; "import js.|";
       ""; "package p {"; "";
       "@js.native";
       "trait I extends js.Object {";
       "  var a: I.A = js.native";
       "}";
       "object I {";
       "  @js.native";
       "  trait A extends js.Object {";
       "    var b: A.B = js.native";
       "  }";
       "  object A {";
       "    @js.native";
       "    trait B extends js.Object {";
       "      var c: js.Any = js.native";
       "    }";
       "  }";
       "}"; ""; "}"]
  /\ Js.includes "var c: B.C"
       (convertTsToScala [StInterface (mkInterface [] "I" [] [a])] "p") = false
  /\ Js.includes "trait C"
       (convertTsToScala [StInterface (mkInterface [] "I" [] [a])] "p") = false
  /\ Js.includes "object B"
       (convertTsToScala [StInterface (mkInterface [] "I" [] [a])] "p") = false
  /\ Js.includes "d: String"
       (convertTsToScala [StInterface (mkInterface [] "I" [] [a])] "p") = false.
Proof. repeat split; vm_compute; reflexivity. Qed.

(* ================================================================== *)
(** ** TypeMapper: unions, intersections, functions and arrays         *)
(* ================================================================== *)

(** X1.  A union of string literal types maps to [String], whatever the
    literals and however many there are. *)
Theorem union_of_string_literals (texts : list string) :
  convertTypeToScala (UnionType (map stringLiteralType texts)) = "String".
Proof.
  cbn [convertTypeToScala]. unfold convertUnionType.
  assert (forallb isStringLiteralType (map stringLiteralType texts) = true) as ->.
  { induction texts as [|s rest IH]; [reflexivity | exact IH]. }
  reflexivity.
Qed.

Lemma dedupFrom_repeat_seen (s : string) (n : nat) (seen : list string) :
  In s seen -> Js.dedupFrom seen (repeat s n) = [].
Proof.
  intros H. apply dedupFrom_all_seen. intros x Hx.
  apply repeat_spec in Hx. now subst.
Qed.

Lemma dedup_repeat (s : string) (n : nat) : Js.dedup (repeat s (S n)) = [s].
Proof.
  unfold Js.dedup. cbn [repeat Js.dedupFrom Js.arrayIncludes existsb].
  rewrite dedupFrom_repeat_seen by (now left). reflexivity.
Qed.

Lemma forallb_repeat {A : Type} (p : A -> bool) (x : A) (n : nat) :
  forallb p (repeat x (S n)) = p x.
Proof.
  induction n as [|n IH]; cbn [repeat forallb] in *.
  - apply andb_true_r.
  - rewrite IH. destruct (p x); reflexivity.
Qed.

Lemma existsb_repeat {A : Type} (p : A -> bool) (x : A) (n : nat) :
  existsb p (repeat x (S n)) = p x.
Proof.
  induction n as [|n IH]; cbn [repeat existsb] in *.
  - apply orb_false_r.
  - rewrite IH. destruct (p x); reflexivity.
Qed.

Lemma map_repeat {A B : Type} (f : A -> B) (x : A) (n : nat) :
  map f (repeat x n) = repeat (f x) n.
Proof. induction n as [|n IH]; [reflexivity | cbn; now rewrite IH]. Qed.

Lemma Null_and_Unit_not_in_singleton (s : string) :
  Js.arrayIncludes [s] "Null" && Js.arrayIncludes [s] "Unit" = false.
Proof.
  unfold Js.arrayIncludes. cbn [existsb]. rewrite !orb_false_r.
  destruct (String.eqb "Null" s) eqn:E; [|reflexivity].
  apply String.eqb_eq in E. subst s. reflexivity.
Qed.

(** X2.  A union that repeats one member maps as that member: the repeated
    branches collapse, for literal and non-literal members alike. *)
Theorem union_of_copies (t : TypeNode) (n : nat) :
  convertTypeToScala (UnionType (repeat t (S n))) = convertTypeToScala t.
Proof.
  cbn [convertTypeToScala]. unfold convertUnionType.
  rewrite !forallb_repeat, !existsb_repeat, map_repeat, dedup_repeat.
  destruct (isStringLiteralType t) eqn:Es.
  - destruct t; try discriminate. destruct literal; try discriminate. reflexivity.
  - destruct (isNumericLiteralType t) eqn:En.
    + destruct t; try discriminate. destruct literal; try discriminate.
      cbn [numericLiteralHasDot convertTypeToScala convertLiteralType andb].
      destruct (Js.includes "." text); reflexivity.
    + cbn [andb]. rewrite Null_and_Unit_not_in_singleton. reflexivity.
Qed.

(** X3.  An intersection maps to the [with]-join of its mapped members without
    repetition: the joined parts are pairwise different and are exactly the
    mapped members; an intersection that repeats one member maps as that
    member. *)
Theorem intersection_without_duplicates (types : list TypeNode) :
  (exists parts,
     convertTypeToScala (IntersectionType types) = Js.join " with " parts
     /\ NoDup parts
     /\ forall x, In x parts <-> In x (map convertTypeToScala types))
  /\ (forall t n,
        convertTypeToScala (IntersectionType (repeat t (S n)))
        = convertTypeToScala t).
Proof.
  split.
  - exists (Js.dedup (map convertTypeToScala types)). split; [reflexivity|].
    split; [apply dedupFrom_NoDup | intros x; apply dedup_In].
  - intros t n. cbn [convertTypeToScala]. unfold convertIntersectionType.
    rewrite map_repeat, dedup_repeat. reflexivity.
Qed.

(** X4.  A function type of at most two parameters maps to the function generic
    of that arity, applied to the mapped parameter types followed by the
    mapped return type; with three or more parameters every type is dropped
    and the result is the bare [js.Function]. *)
Theorem function_type_by_arity (parameters : list ParameterDeclaration)
        (returnType : TypeNode) :
  convertTypeToScala (FunctionType parameters (Some returnType))
  = match length parameters with
    | 0 => "js.Function0["
    | 1 => "js.Function1["
    | 2 => "js.Function2["
    | _ => "js.Function"
    end
    ++ (if Nat.leb (length parameters) 2
        then Js.join ", " (app (map functionParamType parameters)
                               [convertTypeToScala returnType]) ++ "]"
        else "").
Proof.
  cbn [convertTypeToScala].
  change (fun p : ParameterDeclarationOf TypeNode =>
            match param_type p with
            | Some t => convertTypeToScala t
            | None => "js.Any"
            end) with functionParamType.
  destruct parameters as [|p0 [|p1 [|p2 rest]]]; try reflexivity.
  - cbn [map convertFunctionType length Nat.leb app Js.join String.concat].
    now rewrite !string_app_assoc.
  - cbn [map convertFunctionType length Nat.leb app Js.join String.concat].
    now rewrite !string_app_assoc.
Qed.

(** The two spellings of an array, [T[]] and [Array<T>], map to the same
    type; [ReadonlyArray<T>] maps to the covariant form. *)
Theorem array_spellings_agree (elementType : TypeNode) :
  convertTypeToScala (TypeReference "Array" [elementType])
  = convertTypeToScala (ArrayType elementType)
  /\ convertTypeToScala (TypeReference "ReadonlyArray" [elementType])
     = "js.Array[_ <: " ++ convertTypeToScala elementType ++ "]".
Proof. split; reflexivity. Qed.

(* ================================================================== *)
(** ** Rest parameters: one array level is unwrapped                   *)
(* ================================================================== *)

Lemma list_ascii_app (a b : string) :
  list_ascii_of_string (a ++ b)
  = app (list_ascii_of_string a) (list_ascii_of_string b).
Proof. induction a as [|c a IH]; [reflexivity | cbn; now rewrite IH]. Qed.

Lemma reverse_app_char (x : string) (c : ascii) :
  Js.reverse (x ++ String c "") = String c (Js.reverse x).
Proof.
  unfold Js.reverse. rewrite list_ascii_app, rev_app_distr. reflexivity.
Qed.

Lemma reverse_involutive (x : string) : Js.reverse (Js.reverse x) = x.
Proof.
  unfold Js.reverse.
  rewrite list_ascii_of_string_of_list_ascii, rev_involutive.
  apply string_of_list_ascii_of_string.
Qed.

Lemma allChars_list (p : ascii -> bool) (x : string) :
  Js.allChars p x = forallb p (list_ascii_of_string x).
Proof. induction x as [|c x IH]; [reflexivity | cbn; now rewrite IH]. Qed.

Lemma forallb_rev {A : Type} (p : A -> bool) (l : list A) :
  forallb p (rev l) = forallb p l.
Proof.
  induction l as [|a l IH]; [reflexivity|].
  cbn [rev forallb]. rewrite forallb_app, IH. cbn [forallb].
  rewrite andb_true_r. apply andb_comm.
Qed.

Lemma allChars_reverse (p : ascii -> bool) (x : string) :
  Js.allChars p (Js.reverse x) = Js.allChars p x.
Proof.
  rewrite !allChars_list. unfold Js.reverse.
  rewrite list_ascii_of_string_of_list_ascii. apply forallb_rev.
Qed.

Lemma reverse_nonempty (x : string) : x <> "" -> Js.reverse x <> "".
Proof.
  intros Hx Hr. apply Hx. rewrite <- (reverse_involutive x), Hr. reflexivity.
Qed.

Lemma stripPrefix_app (p s : string) : Js.stripPrefix p (p ++ s) = Some s.
Proof.
  induction p as [|c p IH]; [reflexivity|].
  cbn [append Js.stripPrefix]. now rewrite Ascii.eqb_refl.
Qed.

(** Unwrapping undoes the array wrapping: the text of an array type loses
    exactly its outer [js.Array[...]]. *)
Lemma unwrapJsArray_convertArrayType (elementType : string) :
  elementType <> "" ->
  Js.allChars (fun c => negb (Js.isLineTerminator c)) elementType = true ->
  Js.unwrapJsArray (convertArrayType elementType) = elementType.
Proof.
  intros Hne Hline. unfold Js.unwrapJsArray, convertArrayType.
  rewrite stripPrefix_app, reverse_app_char.
  rewrite Ascii.eqb_refl, allChars_reverse, Hline.
  pose proof (reverse_nonempty Hne) as Hr.
  destruct (Js.reverse elementType) eqn:E; [congruence|].
  cbn [String.length Nat.eqb negb andb].
  rewrite <- E. apply reverse_involutive.
Qed.

(** X5.  A rest parameter of array type [T[]] is rendered as the variadic
    parameter [name: T*], in class methods and in interface method
    signatures (where the name is also quoted when reserved). *)
Theorem rest_parameter_is_variadic (name : string) (elementType : TypeNode)
        (optional : bool) :
  convertTypeToScala elementType <> "" ->
  Js.allChars (fun c => negb (Js.isLineTerminator c))
              (convertTypeToScala elementType) = true ->
  let p := @mkParameter TypeNode name (Some (ArrayType elementType)) true optional in
  methodDeclarationParam p = name ++ ": " ++ convertTypeToScala elementType ++ "*"
  /\ methodSignatureParam p
     = quoteIfReserved name ++ ": " ++ convertTypeToScala elementType ++ "*".
Proof.
  intros Hne Hline p. unfold methodDeclarationParam, methodSignatureParam, p.
  cbn [dotDotDotToken param_type param_name typeOrDefault convertTypeToScala].
  rewrite (unwrapJsArray_convertArrayType Hne Hline). split; reflexivity.
Qed.

Lemma rest_parameter_is_variadic_witness :
  methodDeclarationParam
    (@mkParameter TypeNode "args"
       (Some (ArrayType (ArrayType (Keyword NumberKeyword)))) true false)
  = "args: js.Array[Double]*".
Proof.
  apply (proj1 (@rest_parameter_is_variadic "args"
                  (ArrayType (Keyword NumberKeyword)) false
                  ltac:(discriminate) eq_refl)).
Defined.

(* ================================================================== *)
(** ** Statement emitters keep the layout of the buffer                *)
(* ================================================================== *)

Lemma layout_after_newLine (z : CodeBlockWriter) (i : nat) :
  atLineBoundary (Writer.setIndentationLevel i (Writer.newLine z)) = true
  /\ w_currentIndentation (Writer.setIndentationLevel i (Writer.newLine z)) = i.
Proof.
  destruct z as [n j f t]. rewrite newLine_W, setIndentationLevel_W.
  unfold atLineBoundary. rewrite isLastNewLine_W, endsWithNewLine_app_nl.
  split; reflexivity.
Qed.

Lemma layout_after_block (body : Action) (z : CodeBlockWriter) (i : nat) :
  atLineBoundary (Writer.setIndentationLevel i (Writer.block body z)) = true
  /\ w_currentIndentation (Writer.setIndentationLevel i (Writer.block body z)) = i.
Proof. split; reflexivity. Qed.

Lemma processClassDeclaration_layout node namespace w :
  atLineBoundary (processClassDeclaration node namespace w) = true
  /\ w_currentIndentation (processClassDeclaration node namespace w)
     = w_currentIndentation w.
Proof.
  unfold processClassDeclaration. cbv zeta. rewrite !andThen_apply.
  change (Writer.getIndentationLevel (Writer.newLine w))
    with (w_currentIndentation w).
  destruct (negb (Nat.eqb (length (staticMethodsOf (class_members node))) 0)
            || negb (Nat.eqb (length (staticPropertiesOf (class_members node))) 0)).
  - rewrite !andThen_apply. apply layout_after_newLine.
  - unfold skip. apply layout_after_newLine.
Qed.

Lemma processInterfaceDeclaration_layout node namespace w :
  atLineBoundary (processInterfaceDeclaration node namespace w) = true
  /\ w_currentIndentation (processInterfaceDeclaration node namespace w)
     = w_currentIndentation w.
Proof.
  unfold processInterfaceDeclaration. cbv zeta. rewrite !andThen_apply.
  change (Writer.getIndentationLevel (Writer.newLine w))
    with (w_currentIndentation w).
  apply layout_after_newLine.
Qed.

Lemma processEnumDeclaration_layout node namespace w :
  atLineBoundary (processEnumDeclaration node namespace w) = true
  /\ w_currentIndentation (processEnumDeclaration node namespace w)
     = w_currentIndentation w.
Proof.
  unfold processEnumDeclaration. cbv zeta. rewrite !andThen_apply.
  change (Writer.getIndentationLevel (Writer.newLine w))
    with (w_currentIndentation w).
  apply layout_after_newLine.
Qed.

Lemma processVariableDeclaration_layout decl namespace w :
  atLineBoundary w = true ->
  atLineBoundary (processVariableDeclaration decl namespace w) = true
  /\ w_currentIndentation (processVariableDeclaration decl namespace w)
     = w_currentIndentation w.
Proof.
  intros Hw. unfold processVariableDeclaration.
  destruct (var_type decl) as [[]|]; try (split; [exact Hw | reflexivity]).
  cbv zeta. rewrite !andThen_apply.
  change (Writer.getIndentationLevel (Writer.newLine w))
    with (w_currentIndentation w).
  apply layout_after_newLine.
Qed.

Lemma processVariableStatement_layout node namespace w :
  atLineBoundary w = true ->
  atLineBoundary (processVariableStatement node namespace w) = true
  /\ w_currentIndentation (processVariableStatement node namespace w)
     = w_currentIndentation w.
Proof.
  unfold processVariableStatement, forEach. revert w.
  induction (declarations node) as [|decl rest IH]; intros w Hw.
  - split; [exact Hw | reflexivity].
  - cbn [fold_left].
    destruct (processVariableDeclaration_layout decl namespace w Hw) as [H1 H2].
    destruct (IH _ H1) as [H3 H4]. split; [exact H3 | now rewrite H4].
Qed.

(** X6.  Every statement emitter leaves the buffer as it found it in two
    respects: at a line boundary, and at the indentation level of entry,
    also on the paths that return without writing. *)
Theorem statement_keeps_layout (statement : Statement) (namespace : string)
        (w : CodeBlockWriter) :
  atLineBoundary w = true ->
  atLineBoundary (processStatement statement namespace w) = true
  /\ w_currentIndentation (processStatement statement namespace w)
     = w_currentIndentation w.
Proof.
  intros Hw.
  destruct statement as [mods name body| | | | | | | | | |];
    cbn [processStatement];
    try (split; [exact Hw | reflexivity]).
  - unfold processModuleDeclarationWith.
    destruct name as [moduleName|]; [| split; [exact Hw | reflexivity]].
    cbv zeta. rewrite !andThen_apply.
    change (Writer.getIndentationLevel (Writer.newLine w))
      with (w_currentIndentation w).
    apply layout_after_block.
  - apply processClassDeclaration_layout.
  - apply processInterfaceDeclaration_layout.
  - apply processEnumDeclaration_layout.
  - now apply processVariableStatement_layout.
Qed.

Lemma statement_keeps_layout_witness :
  w_currentIndentation
    (processStatement
       (StEnum (mkEnum [] "Color" ["Red"; "Green"])) "ns"
       (mkWriter 2 3 false Js.nl)) = 3.
Proof.
  apply (proj2 (@statement_keeps_layout
                  (StEnum (mkEnum [] "Color" ["Red"; "Green"])) "ns"
                  (mkWriter 2 3 false Js.nl) eq_refl)).
Defined.

(* ================================================================== *)
(** ** Enums and variables of type-literal type                        *)
(* ================================================================== *)

Lemma if_write (c : bool) (a b : string) (w : CodeBlockWriter) :
  (if c then Writer.write a else Writer.write b) w
  = Writer.write (if c then a else b) w.
Proof. destruct c; reflexivity. Qed.

Lemma sealed_trait_header_space (enumName : string) :
  Js.lastChar ("sealed trait " ++ enumName ++ " extends js.Object ")
  = Some " "%char.
Proof. last_is_space. Qed.

Lemma object_extends_header_space (name : string) :
  Js.lastChar ("object " ++ name ++ " extends js.Object ") = Some " "%char.
Proof. last_is_space. Qed.

Lemma enum_body_W (node : EnumDeclaration) (n : nat) (t : string) :
  endsWithNewLine t = true ->
  (forEach (enum_members node)
     (fun memberName =>
        if Js.truthy memberName
        then Writer.writeLine ("var " ++ memberName ++ ": " ++ enum_name node
                               ++ " = js.native")
        else skip) ;;
   Writer.writeLine "@JSBracketAccess" ;;
   Writer.writeLine ("def apply(value: " ++ enum_name node
                     ++ "): String = js.native")) (mkWriter n 1 false t)
  = mkWriter n 1 false (t ++ linesText (indentOf n 1) (enumObjectLines node)).
Proof.
  intros Ht. rewrite !andThen_apply.
  rewrite (@forEach_lines_W _ _
             (fun memberName =>
                if Js.truthy memberName
                then ["var " ++ memberName ++ ": " ++ enum_name node
                      ++ " = js.native"]
                else [])) by
    (first [ assumption
           | intros x t' Ht'; destruct (Js.truthy x);
             [ rewrite writeLine_W by (cbn; exact Ht'); cbn [settle linesText];
               now rewrite string_app_nil_r
             | unfold skip; cbn [linesText]; now rewrite string_app_nil_r ] ]).
  rewrite writeLine_W by ready. cbn [settle].
  rewrite writeLine_W by ready. cbn [settle].
  unfold enumObjectLines. rewrite linesText_app. cbn [linesText].
  now rewrite string_app_nil_r, !string_app_assoc.
Qed.

(** What [processEnumDeclaration] does to the buffer. *)
Lemma processEnumDeclaration_W (node : EnumDeclaration) (namespace : string)
      (n i : nat) (f : bool) (t : string) :
  processEnumDeclaration node namespace (mkWriter n i f t)
  = mkWriter n i false (t ++ enumText n namespace node).
Proof.
  unfold processEnumDeclaration. cbv zeta.
  unfold Writer.getIndentationLevel. rewrite !andThen_apply, if_write.
  rewrite !newLine_W at 1. cbn [w_currentIndentation].
  rewrite setIndentationLevel_W.
  rewrite write_newLine_W by ready.
  rewrite header_block_W by (first [ready | apply sealed_trait_header_space]).
  unfold skip. unfold closeBlock.
  cbn [w_indentNumberOfSpaces w_currentIndentation w_newLineOnNextWrite w_text
       Nat.pred settle].
  rewrite ensureNewLine_id by ready.
  rewrite !newLine_W.
  rewrite write_newLine_W by ready. rewrite write_newLine_W by ready.
  rewrite header_block_W by (first [ready | apply object_extends_header_space]).
  cbn [settle]. rewrite enum_body_W by ready.
  unfold closeBlock.
  cbn [w_indentNumberOfSpaces w_currentIndentation w_newLineOnNextWrite w_text
       Nat.pred].
  rewrite ensureNewLine_id by ready.
  rewrite newLine_W, setIndentationLevel_W.
  unfold enumText, annotatedObjectText, enumJSGlobal.
  rewrite !indentOf_0, indentOf_1.
  f_equal. cbn [append]. rewrite !string_app_assoc. reflexivity.
Qed.

(** X7.  The whole text of an enum declaration, from any buffer state: a sealed
    marker trait with an empty body, and an object bound to the enum's
    global path that holds one [var] binding per named member, in source
    order, followed by the subscript-style lookup from a member to its
    display name. *)
Theorem processEnumDeclaration_text (node : EnumDeclaration) (namespace : string)
        (n i : nat) (f : bool) (t : string) :
  processEnumDeclaration node namespace (mkWriter n i f t)
  = mkWriter n i false (t ++ enumText n namespace node).
Proof. apply processEnumDeclaration_W. Qed.

Lemma emitObjectMember_W (member : TypeElement) (n i : nat) (t : string) :
  endsWithNewLine t = true ->
  emitObjectMember member (mkWriter n i false t)
  = mkWriter n i false (t ++ linesText (indentOf n i) (objectMemberLines member)).
Proof.
  intros Ht.
  destruct member; cbn [emitObjectMember objectMemberLines];
    try (unfold skip; cbn [linesText]; now rewrite string_app_nil_r).
  cbv zeta. rewrite writeLine_W by (cbn; exact Ht). cbn [settle linesText].
  now rewrite string_app_nil_r.
Qed.

Lemma processVariableDeclaration_W (decl : VariableDeclaration)
      (namespace : string) (n i : nat) (f : bool) (t : string) :
  exists f',
    processVariableDeclaration decl namespace (mkWriter n i f t)
    = mkWriter n i f' (t ++ variableObjectText n namespace decl).
Proof.
  unfold processVariableDeclaration, variableObjectText.
  destruct (var_type decl) as [ty|];
    [| exists f; now rewrite string_app_nil_r].
  destruct ty; try (exists f; now rewrite string_app_nil_r).
  exists false. cbv zeta.
  unfold Writer.getIndentationLevel. rewrite !andThen_apply, if_write.
  rewrite newLine_W at 1. cbn [w_currentIndentation].
  apply annotatedObject_W; [apply object_extends_header_space|].
  intros t' Ht'. apply forEach_lines_W; [|assumption].
  intros x t0 Ht0. now apply emitObjectMember_W.
Qed.

(** X8.  What a variable statement writes at its place: for each declaration
    whose declared type is a type literal, an object of its own, bound to
    the variable's global path, with one [var] binding per property
    signature of the literal (a name that starts with a digit or contains a
    dot is backquoted); nothing for any other declaration. *)
Theorem processVariableStatement_text (node : VariableStatement)
        (namespace : string) (n i : nat) (f : bool) (t : string) :
  w_text (processVariableStatement node namespace (mkWriter n i f t))
  = t ++ concatBlocks (map (variableObjectText n namespace) (declarations node)).
Proof.
  unfold processVariableStatement, forEach. revert f t.
  induction (declarations node) as [|decl rest IH]; intros f t.
  - cbn. now rewrite string_app_nil_r.
  - cbn [fold_left map concatBlocks].
    destruct (processVariableDeclaration_W decl namespace n i f t) as [f' ->].
    rewrite IH. now rewrite string_app_assoc.
Qed.

(* ================================================================== *)
(** ** Classes: the whole text                                         *)
(* ================================================================== *)

Lemma emitSecondaryConstructor_W (cons : ConstructorDeclaration)
      (n i : nat) (t : string) :
  endsWithNewLine t = true ->
  emitSecondaryConstructor cons (mkWriter n i false t)
  = mkWriter n i false
      (t ++ linesText (indentOf n i) (secondaryConstructorLines cons)).
Proof.
  intros Ht. unfold emitSecondaryConstructor, secondaryConstructorLines.
  destruct (Nat.eqb (length (ctor_parameters cons)) 0).
  - unfold skip. cbn [linesText]. now rewrite string_app_nil_r.
  - rewrite writeLine_W by (cbn; exact Ht). cbn [settle linesText].
    now rewrite string_app_nil_r.
Qed.

Lemma processMethodDeclaration_W (node : MethodDeclaration)
      (isAbstractClass : bool) (n i : nat) (t : string) :
  endsWithNewLine t = true ->
  processMethodDeclaration node isAbstractClass (mkWriter n i false t)
  = mkWriter n i false
      (t ++ linesText (indentOf n i)
              (if isPrivateOrProtected (meth_modifiers node) then []
               else [methodLine node isAbstractClass])).
Proof.
  intros Ht. unfold processMethodDeclaration.
  destruct (isPrivateOrProtected (meth_modifiers node)).
  - unfold skip. cbn [linesText]. now rewrite string_app_nil_r.
  - rewrite writeLine_W by (cbn; exact Ht). cbn [settle linesText].
    now rewrite string_app_nil_r.
Qed.

Lemma class_member_W (isAbstractClass : bool) (member : ClassElement)
      (n i : nat) (t : string) :
  endsWithNewLine t = true ->
  (if isStaticMember member then skip
   else processClassMember member isAbstractClass) (mkWriter n i false t)
  = mkWriter n i false
      (t ++ linesText (indentOf n i) (classMemberLines isAbstractClass member)).
Proof.
  intros Ht. unfold classMemberLines.
  destruct (isStaticMember member) eqn:Es.
  - unfold skip. cbn [linesText]. now rewrite string_app_nil_r.
  - destruct member as [node|node|node|mods]; cbn [processClassMember].
    + unfold processPropertyDeclaration.
      destruct (isPrivateOrProtected (prop_modifiers node)).
      * unfold skip. cbn [linesText]. now rewrite string_app_nil_r.
      * change (hasModifier StaticKeyword (prop_modifiers node))
          with (isStaticMember (PropertyMember node)).
        rewrite Es. rewrite writeLine_W by (cbn; exact Ht).
        cbn [settle linesText]. now rewrite string_app_nil_r.
    + now apply processMethodDeclaration_W.
    + unfold skip. cbn [linesText]. now rewrite string_app_nil_r.
    + unfold skip. cbn [linesText]. now rewrite string_app_nil_r.
Qed.

Lemma emitStaticProperty_W (prop : PropertyDeclaration) (n i : nat) (t : string) :
  endsWithNewLine t = true ->
  emitStaticProperty prop (mkWriter n i false t)
  = mkWriter n i false (t ++ linesText (indentOf n i) (staticPropertyLines prop)).
Proof.
  intros Ht. unfold emitStaticProperty, staticPropertyLines.
  destruct (isPrivateOrProtected (prop_modifiers prop)).
  - unfold skip. cbn [linesText]. now rewrite string_app_nil_r.
  - cbv zeta. rewrite writeLine_W by (cbn; exact Ht). cbn [settle linesText].
    now rewrite string_app_nil_r.
Qed.

Lemma emitStaticMethod_W (m : MethodDeclaration) (n i : nat) (t : string) :
  endsWithNewLine t = true ->
  emitStaticMethod m (mkWriter n i false t)
  = mkWriter n i false (t ++ linesText (indentOf n i) (staticMethodLines m)).
Proof.
  intros Ht. unfold emitStaticMethod, staticMethodLines.
  destruct (isPrivateOrProtected (meth_modifiers m)) eqn:E.
  - unfold skip. cbn [linesText]. now rewrite string_app_nil_r.
  - rewrite processMethodDeclaration_W by assumption. now rewrite E.
Qed.

Lemma class_body_W (node : ClassDeclaration) (n : nat) (t : string) :
  endsWithNewLine t = true ->
  (forEach (ctorDeclarationsOf (class_members node)) emitSecondaryConstructor ;;
   forEach (class_members node)
     (fun member =>
        if isStaticMember member then skip
        else processClassMember member
               (hasModifier AbstractKeyword (class_modifiers node))))
    (mkWriter n 1 false t)
  = mkWriter n 1 false (t ++ linesText (indentOf n 1) (classBodyLines node)).
Proof.
  intros Ht. rewrite andThen_apply.
  rewrite (@forEach_lines_W _ _ secondaryConstructorLines)
    by (first [assumption | intros; now apply emitSecondaryConstructor_W]).
  rewrite (@forEach_lines_W _ _
             (classMemberLines (hasModifier AbstractKeyword (class_modifiers node))))
    by (first [ready | intros; now apply class_member_W]).
  unfold classBodyLines. now rewrite linesText_app, string_app_assoc.
Qed.

Lemma companion_body_W (node : ClassDeclaration) (n : nat) (t : string) :
  endsWithNewLine t = true ->
  (forEach (staticPropertiesOf (class_members node)) emitStaticProperty ;;
   forEach (staticMethodsOf (class_members node)) emitStaticMethod)
    (mkWriter n 1 false t)
  = mkWriter n 1 false (t ++ linesText (indentOf n 1) (companionLines node)).
Proof.
  intros Ht. rewrite andThen_apply.
  rewrite (@forEach_lines_W _ _ staticPropertyLines)
    by (first [assumption | intros; now apply emitStaticProperty_W]).
  rewrite (@forEach_lines_W _ _ staticMethodLines)
    by (first [ready | intros; now apply emitStaticMethod_W]).
  unfold companionLines. now rewrite linesText_app, string_app_assoc.
Qed.

(** What [processClassDeclaration] does to the buffer. *)
Lemma processClassDeclaration_W (node : ClassDeclaration)
      (namespace : string) (n i : nat) (f : bool) (t : string) :
  processClassDeclaration node namespace (mkWriter n i f t)
  = mkWriter n i false (t ++ classText n namespace node).
Proof.
  unfold processClassDeclaration. cbv zeta.
  fold (classNameOf node). fold (hasStaticMembers node).
  unfold Writer.getIndentationLevel. rewrite !andThen_apply.
  rewrite !newLine_W at 1. cbn [w_currentIndentation].
  rewrite setIndentationLevel_W.
  rewrite write_newLine_W by ready. rewrite write_newLine_W by ready.
  change ((if hasModifier AbstractKeyword (class_modifiers node)
           then "abstract " else "")
          ++ "class " ++ quoteIfReserved (classNameOf node)
          ++ typeParamString (class_typeParameters node)
          ++ (if existsb (fun c => negb (Nat.eqb (length (ctor_parameters c)) 0))
                         (ctorDeclarationsOf (class_members node))
              then " protected ()" else "")
          ++ " extends " ++ heritageString (class_heritageClauses node) ++ " ")
    with (classHeader node (quoteIfReserved (classNameOf node))).
  rewrite header_block_W by (first [ready | apply classHeader_space]).
  cbn [settle]. rewrite class_body_W by ready.
  unfold closeBlock at 1.
  cbn [w_indentNumberOfSpaces w_currentIndentation w_newLineOnNextWrite w_text
       Nat.pred].
  rewrite ensureNewLine_id by ready. rewrite newLine_W.
  unfold classText.
  destruct (hasStaticMembers node).
  - rewrite !andThen_apply.
    rewrite write_newLine_W by ready. rewrite write_newLine_W by ready.
    rewrite header_block_W by (first [ready | apply object_extends_header_space]).
    cbn [settle]. rewrite companion_body_W by ready.
    unfold closeBlock.
    cbn [w_indentNumberOfSpaces w_currentIndentation w_newLineOnNextWrite w_text
         Nat.pred].
    rewrite ensureNewLine_id by ready.
    rewrite newLine_W, setIndentationLevel_W.
    rewrite !indentOf_0, !indentOf_1.
    f_equal. cbn [append]. rewrite !string_app_assoc. reflexivity.
  - unfold skip. rewrite setIndentationLevel_W.
    rewrite !indentOf_0, !indentOf_1.
    f_equal. cbn [append]. rewrite !string_app_assoc, string_app_nil_r.
    reflexivity.
Qed.

(** X9.  The whole text of a class declaration, from any buffer state: the
    annotated class with the lines of its secondary constructors and of its
    instance members, then, when the class has static members, the
    annotated companion object with the lines of the static properties and
    of the static methods. *)
Theorem processClassDeclaration_text (node : ClassDeclaration)
        (namespace : string) (n i : nat) (f : bool) (t : string) :
  processClassDeclaration node namespace (mkWriter n i f t)
  = mkWriter n i false (t ++ classText n namespace node).
Proof. apply processClassDeclaration_W. Qed.

Section SilentMembers.

Variable members : list ClassElement.

Let kept : list ClassElement :=
  filter (fun m => negb (leavesNoTrace m)) members.

Lemma kept_hasParamCtor :
  existsb (fun c => negb (Nat.eqb (length (ctor_parameters c)) 0))
          (ctorDeclarationsOf kept)
  = existsb (fun c => negb (Nat.eqb (length (ctor_parameters c)) 0))
            (ctorDeclarationsOf members).
Proof.
  subst kept. induction members as [|m rest IH]; [reflexivity|].
  cbn [filter]. destruct m as [p|md|c|mods]; cbn [leavesNoTrace].
  - destruct (negb (negb _ && _)); cbn [ctorDeclarationsOf flat_map app]; exact IH.
  - destruct (negb (negb _ && _)); cbn [ctorDeclarationsOf flat_map app]; exact IH.
  - destruct (Nat.eqb (length (ctor_parameters c)) 0) eqn:E; cbn [negb].
    + unfold ctorDeclarationsOf in *. cbn [flat_map app existsb].
      rewrite E. cbn [negb orb]. exact IH.
    + unfold ctorDeclarationsOf in *. cbn [flat_map app existsb].
      now rewrite IH.
  - cbn [negb]. exact IH.
Qed.

Lemma kept_secondaryConstructors :
  flat_map secondaryConstructorLines (ctorDeclarationsOf kept)
  = flat_map secondaryConstructorLines (ctorDeclarationsOf members).
Proof.
  subst kept. induction members as [|m rest IH]; [reflexivity|].
  cbn [filter]. destruct m as [p|md|c|mods]; cbn [leavesNoTrace].
  - destruct (negb (negb _ && _)); cbn [ctorDeclarationsOf flat_map app]; exact IH.
  - destruct (negb (negb _ && _)); cbn [ctorDeclarationsOf flat_map app]; exact IH.
  - destruct (Nat.eqb (length (ctor_parameters c)) 0) eqn:E; cbn [negb].
    + unfold ctorDeclarationsOf in *. cbn [flat_map app].
      unfold secondaryConstructorLines at 2. rewrite E. exact IH.
    + unfold ctorDeclarationsOf in *. cbn [flat_map app]. now rewrite IH.
  - cbn [negb]. exact IH.
Qed.

Lemma kept_memberLines (isAbstractClass : bool) :
  flat_map (classMemberLines isAbstractClass) kept
  = flat_map (classMemberLines isAbstractClass) members.
Proof.
  subst kept. induction members as [|m rest IH]; [reflexivity|].
  cbn [filter flat_map].
  destruct (leavesNoTrace m) eqn:E; cbn [negb flat_map].
  - rewrite IH.
    assert (classMemberLines isAbstractClass m = []) as ->; [|reflexivity].
    unfold classMemberLines. destruct (isStaticMember m) eqn:Es; [reflexivity|].
    destruct m as [p|md|c|mods]; cbn [leavesNoTrace] in E; try reflexivity.
    + rewrite Es in E. cbn in E. now rewrite E.
    + rewrite Es in E. cbn in E. now rewrite E.
  - now rewrite IH.
Qed.

Lemma kept_staticMethods : staticMethodsOf kept = staticMethodsOf members.
Proof.
  subst kept. unfold staticMethodsOf.
  induction members as [|m rest IH]; [reflexivity|].
  cbn [filter flat_map].
  destruct (leavesNoTrace m) eqn:E; cbn [negb flat_map].
  - rewrite IH. destruct m as [p|md|c|mods]; try reflexivity.
    cbn [leavesNoTrace] in E.
    destruct (isStaticMember (MethodMember md)); [discriminate E | reflexivity].
  - now rewrite IH.
Qed.

Lemma kept_staticProperties : staticPropertiesOf kept = staticPropertiesOf members.
Proof.
  subst kept. unfold staticPropertiesOf.
  induction members as [|m rest IH]; [reflexivity|].
  cbn [filter flat_map].
  destruct (leavesNoTrace m) eqn:E; cbn [negb flat_map].
  - rewrite IH. destruct m as [p|md|c|mods]; try reflexivity.
    cbn [leavesNoTrace] in E.
    destruct (isStaticMember (PropertyMember p)); [discriminate E | reflexivity].
  - now rewrite IH.
Qed.

End SilentMembers.

(** X10.  A class is written the same with or without the members that leave no
    trace: private and protected instance properties and methods,
    parameterless constructors, accessors and the other member kinds have
    no influence on any part of the output. *)
Theorem silent_members_leave_no_trace (node : ClassDeclaration)
        (namespace : string) (w : CodeBlockWriter) :
  processClassDeclaration (withoutSilentMembers node) namespace w
  = processClassDeclaration node namespace w.
Proof.
  destruct w as [n i f t]. rewrite !processClassDeclaration_W.
  f_equal. f_equal.
  unfold classText, classHeader, classBodyLines, companionLines,
    hasStaticMembers, classNameOf, withoutSilentMembers.
  cbn [class_modifiers class_name class_typeParameters class_heritageClauses
       class_members].
  rewrite kept_hasParamCtor, kept_secondaryConstructors, kept_memberLines,
    kept_staticMethods, kept_staticProperties.
  reflexivity.
Qed.

(* ================================================================== *)
(** ** Interfaces: duplicate member signatures                         *)
(* ================================================================== *)

Lemma dedupFrom_app (seen a b : list string) :
  Js.dedupFrom seen (app a b)
  = app (Js.dedupFrom seen a) (Js.dedupFrom (seenAfter seen a) b).
Proof.
  revert seen. induction a as [|x a IH]; intros seen; [reflexivity|].
  cbn [app Js.dedupFrom]. unfold seenAfter. cbn [fold_left].
  fold (seenAfter (if Js.arrayIncludes seen x then seen else x :: seen) a).
  destruct (Js.arrayIncludes seen x).
  - apply IH.
  - cbn [app]. now rewrite IH.
Qed.

Lemma dedup_app_seen (a b : list string) :
  (forall x, In x b -> In x a) -> Js.dedup (app a b) = Js.dedup a.
Proof.
  intros H. unfold Js.dedup. rewrite dedupFrom_app.
  rewrite (@dedupFrom_all_seen b (seenAfter [] a)); [apply app_nil_r|].
  intros x Hx. apply seenAfter_In. right. now apply H.
Qed.

(** X11.  Members whose rendered signature already occurs among the earlier
    members of an interface are suppressed: adding them changes nothing in
    the output (for members that are not properties of type-literal
    type). *)
Theorem interface_duplicate_signatures_suppressed
        (modifiers : list Modifier) (name : string)
        (typeParameters : list TypeParameterDeclaration)
        (members extra : list TypeElement) (namespace : string)
        (w : CodeBlockWriter) :
  inlineTypeLiteralMembersOf extra = [] ->
  (forall m, In m extra ->
     In (interfaceTraitLine name m) (map (interfaceTraitLine name) members)) ->
  processInterfaceDeclaration
    (mkInterface modifiers name typeParameters (app members extra)) namespace w
  = processInterfaceDeclaration
      (mkInterface modifiers name typeParameters members) namespace w.
Proof.
  intros Hinline Hdup. destruct w as [n i f t].
  rewrite !processInterfaceDeclaration_W. f_equal. f_equal.
  unfold interfaceText. cbn [iface_name iface_typeParameters iface_members].
  assert (E1 : inlineTypeLiteralMembersOf (app members extra)
               = inlineTypeLiteralMembersOf members).
  { unfold inlineTypeLiteralMembersOf in *.
    rewrite flat_map_app, Hinline. apply app_nil_r. }
  rewrite E1, map_app, dedup_app_seen; [reflexivity|].
  intros x Hx. apply in_map_iff in Hx. destruct Hx as [m [<- Hm]].
  now apply Hdup.
Qed.

Lemma interface_duplicate_signatures_suppressed_witness :
  let size := PropertySignature "size" [] (Some (Keyword NumberKeyword)) in
  let get := MethodSignature "get" []
               [@mkParameter TypeNode "key" (Some (Keyword StringKeyword))
                             false false]
               (Some (Keyword AnyKeyword)) in
  processInterfaceDeclaration (mkInterface [] "Store" [] [size; get; get; size])
                              "" (Writer.create 2)
  = processInterfaceDeclaration (mkInterface [] "Store" [] [size; get])
                                "" (Writer.create 2).
Proof.
  intros size get.
  apply (@interface_duplicate_signatures_suppressed [] "Store" []
           [size; get] [get; size] "" (Writer.create 2)).
  - reflexivity.
  - intros m [<- | [<- | []]]; cbn [map In]; auto.
Defined.

(* ================================================================== *)
(** ** The text of a whole file                                        *)
(* ================================================================== *)

Lemma forEach_texts_W {A : Type} (g : A -> Action) (txt : A -> string)
      (arr : list A) (n i : nat) :
  Forall (fun x => forall f t, exists f',
            g x (mkWriter n i f t) = mkWriter n i f' (t ++ txt x)) arr ->
  forall f t, exists f',
    forEach arr g (mkWriter n i f t)
    = mkWriter n i f' (t ++ concatBlocks (map txt arr)).
Proof.
  unfold forEach. induction 1 as [|x rest Hx _ IH]; intros f t.
  - exists f. cbn. now rewrite string_app_nil_r.
  - cbn [fold_left map concatBlocks].
    destruct (Hx f t) as [f1 ->]. destruct (IH f1 (t ++ txt x)) as [f2 ->].
    exists f2. now rewrite string_app_assoc.
Qed.

Lemma package_header_space (name : string) :
  Js.lastChar ("package " ++ name ++ " ") = Some " "%char.
Proof. last_is_space. Qed.

Lemma generateModuleObject_guarded_W (moduleName : string)
      (exports : ModuleExports) (n i : nat) (f : bool) (t : string) :
  exists f',
    (if negb (Nat.eqb (length (m_types exports)) 0)
        || negb (Nat.eqb (length (m_functions exports)) 0)
        || negb (Nat.eqb (length (m_variables exports)) 0)
     then generateModuleObject moduleName exports
     else skip) (mkWriter n i f t)
    = mkWriter n i f' (t ++ moduleObjectText n moduleName exports).
Proof.
  unfold moduleObjectText.
  destruct (Nat.eqb (length (m_types exports)) 0) eqn:E1;
    destruct (Nat.eqb (length (m_functions exports)) 0) eqn:E2;
    destruct (Nat.eqb (length (m_variables exports)) 0) eqn:E3;
    cbn [negb orb andb];
    try rewrite generateModuleObject_W, E1, E2, E3; cbn [andb];
    unfold skip; eexists; rewrite ?string_app_nil_r; reflexivity.
Qed.

Lemma generateGlobalScopeObject_guarded_W (packageName : string)
      (exports : TopLevelExports) (n i : nat) (f : bool) (t : string) :
  exists f',
    (if negb (Nat.eqb (length (types exports)) 0)
        || negb (Nat.eqb (length (exportAssignments exports)) 0)
        || negb (Nat.eqb (length (variables exports)) 0)
     then generateGlobalScopeObject packageName exports
     else skip) (mkWriter n i f t)
    = mkWriter n i f' (t ++ globalScopeObjectText n packageName exports).
Proof.
  unfold globalScopeObjectText.
  destruct (Nat.eqb (length (types exports)) 0) eqn:E1;
    destruct (Nat.eqb (length (exportAssignments exports)) 0) eqn:E3;
    destruct (Nat.eqb (length (variables exports)) 0) eqn:E4;
    cbn [negb orb andb];
    try (rewrite generateGlobalScopeObject_W, E1, E3, E4;
         destruct (Nat.eqb (length (functions exports)) 0));
    cbn [andb];
    unfold skip; eexists; rewrite ?string_app_nil_r; reflexivity.
Qed.

(** A package block whose body appends [bodyText] and then moves to the
    left margin and breaks the line. *)
Lemma packageBlock_W (header bodyText : string) (body : Action)
      (n i : nat) (f : bool) (t : string) :
  Js.lastChar header = Some " "%char ->
  (forall t', exists f',
     body (mkWriter n 1 false t') = mkWriter n 1 f' (t' ++ bodyText)) ->
  Writer.setIndentationLevel i
    (Writer.block (body ;; Writer.setIndentationLevel 0 ;; Writer.newLine)
       (Writer.write header
          (Writer.setIndentationLevel 0 (Writer.newLine (mkWriter n i f t)))))
  = mkWriter n i true (t ++ packageBlockText header bodyText).
Proof.
  intros Hhdr Hbody.
  rewrite newLine_W, setIndentationLevel_W.
  rewrite header_block_W by (first [ready | assumption]). cbn [settle].
  rewrite !andThen_apply.
  match goal with
  | |- context [body (mkWriter n 1 false ?x)] =>
      destruct (Hbody x) as [f' ->]
  end.
  rewrite setIndentationLevel_W, newLine_W.
  unfold closeBlock.
  cbn [w_indentNumberOfSpaces w_currentIndentation w_newLineOnNextWrite w_text
       Nat.pred].
  rewrite ensureNewLine_id by ready.
  rewrite setIndentationLevel_W.
  unfold packageBlockText. rewrite !indentOf_0.
  f_equal. cbn [append]. rewrite !string_app_assoc. reflexivity.
Qed.

Lemma processModuleDeclarationWith_W
      (processStatement : Statement -> string -> Action)
      (txt : Statement -> string)
      (moduleName : string) (body : option (list Statement))
      (namespace : string) (n : nat) :
  match body with
  | Some statements =>
      Forall (fun st => forall f t, exists f',
                processStatement st (newNamespaceOf namespace moduleName)
                                 (mkWriter n 1 f t)
                = mkWriter n 1 f' (t ++ txt st)) statements
  | None => True
  end ->
  forall i f t,
    processModuleDeclarationWith processStatement (ModuleIdentifier moduleName)
                                 body namespace (mkWriter n i f t)
    = mkWriter n i true
        (t ++ packageBlockText
                ("package " ++ quoteIfReserved moduleName ++ " ")
                (match body with
                 | Some statements =>
                     concatBlocks (map txt statements)
                     ++ moduleObjectText n moduleName
                          (collectModuleExports statements)
                 | None => ""
                 end)).
Proof.
  intros Hbody i f t.
  unfold processModuleDeclarationWith. cbv zeta.
  unfold Writer.getIndentationLevel. rewrite !andThen_apply.
  rewrite newLine_W at 1. cbn [w_currentIndentation].
  match goal with
  | |- context [Writer.block ?b] =>
      match b with
      | (?inner ;; _ ;; _) =>
          apply (@packageBlock_W
                   ("package " ++ quoteIfReserved moduleName ++ " ") _ inner)
      end
  end; [apply package_header_space|].
  intros t'. destruct body as [statements|].
  - rewrite andThen_apply.
    destruct (forEach_texts_W
                (fun st => processStatement st
                             (if Js.truthy namespace
                              then namespace ++ "." ++ moduleName
                              else moduleName))
                txt Hbody false t') as [f1 ->].
    destruct (generateModuleObject_guarded_W moduleName
                (collectModuleExports statements) n 1 f1
                (t' ++ concatBlocks (map txt statements))) as [f2 ->].
    exists f2. now rewrite string_app_assoc.
  - exists false. unfold skip. now rewrite string_app_nil_r.
Qed.

(** What any statement does to the buffer: it appends its text, whatever
    the buffer held, and keeps the indentation level. *)
Lemma processStatement_W (statement : Statement) :
  forall (namespace : string) (n i : nat) (f : bool) (t : string),
  exists f',
    processStatement statement namespace (mkWriter n i f t)
    = mkWriter n i f' (t ++ statementText n namespace statement).
Proof.
  revert statement.
  fix IH 1. intros statement namespace n i f t.
  destruct statement as [mods name body|node|node|node|node|node|node| |node| |m];
    cbn [processStatement statementText];
    try (exists f; unfold skip, processTypeAliasDeclaration,
                  processFunctionDeclaration, processExportAssignment, skip;
         now rewrite string_app_nil_r).
  - destruct name as [moduleName|s].
    + exists true.
      apply (@processModuleDeclarationWith_W processStatement
               (statementText n (newNamespaceOf namespace moduleName))).
      destruct body as [statements|]; [|exact I].
      induction statements as [|st rest IHrest]; constructor.
      * intros f0 t0. apply IH.
      * exact IHrest.
    + exists f. unfold processModuleDeclarationWith.
      now rewrite string_app_nil_r.
  - exists false. apply processClassDeclaration_W.
  - exists false. apply processInterfaceDeclaration_W.
  - exists false. apply processEnumDeclaration_W.
  - unfold processVariableStatement.
    apply (@forEach_texts_W _
             (fun decl => processVariableDeclaration decl namespace)
             (variableObjectText n namespace)).
    apply Forall_forall. intros decl _ f0 t0.
    apply processVariableDeclaration_W.
Qed.

Lemma generateScalaOutput_W (sourceFile : SourceFile) (packageName : string) :
  convertTsToScala sourceFile packageName = fileText sourceFile packageName.
Proof.
  unfold convertTsToScala, generateScalaOutput, Writer.toString.
  rewrite !andThen_apply.
  change (Writer.writeLine ""
            (Writer.writeLine "import js.|"
               (Writer.writeLine "import js.annotation._"
                  (Writer.writeLine "import scala.scalajs.js"
                     (Writer.writeLine "" (Writer.create 2))))))
    with (mkWriter 2 0 false fileHeader).
  rewrite header_block_W
    by (first [reflexivity | apply lastChar_app; discriminate]).
  cbn [settle]. cbv zeta. rewrite !andThen_apply.
  match goal with
  | |- context [forEach sourceFile ?g (mkWriter 2 1 false ?x)] =>
      destruct (@forEach_texts_W _ g (statementText 2 "") sourceFile 2 1
                  ltac:(apply Forall_forall; intros st _ f0 t0;
                        apply processStatement_W) false x) as [f1 ->]
  end.
  match goal with
  | |- context [mkWriter 2 1 f1 ?x] =>
      destruct (generateGlobalScopeObject_guarded_W packageName
                  (collectTopLevelExports sourceFile) 2 1 f1 x) as [f2 ->]
  end.
  rewrite setIndentationLevel_W, newLine_W.
  unfold fileText.
  destruct (existsb isModuleDeclaration sourceFile).
  - rewrite newLine_W. unfold closeBlock.
    cbn [w_indentNumberOfSpaces w_currentIndentation w_newLineOnNextWrite
         w_text Nat.pred].
    rewrite ensureNewLine_id by ready.
    rewrite !indentOf_0. cbn [append]. rewrite !string_app_assoc. reflexivity.
  - unfold skip, closeBlock.
    cbn [w_indentNumberOfSpaces w_currentIndentation w_newLineOnNextWrite
         w_text Nat.pred].
    rewrite ensureNewLine_id by ready.
    rewrite !indentOf_0. cbn [append]. rewrite !string_app_assoc. reflexivity.
Qed.

(** X12.  What a statement writes, from any buffer state: a class, an interface,
    an enum or a variable statement writes its own text; a namespace writes
    a package block at the left margin that holds the texts of its
    statements, taken under the namespace path extended by its name,
    followed by the module object of what it collected; a module named by a
    string literal and every other kind of statement write nothing.  The
    text depends on neither the text before it nor the indentation level
    of entry, which is kept. *)
Theorem processStatement_text (statement : Statement) (namespace : string)
        (w : CodeBlockWriter) :
  w_text (processStatement statement namespace w)
  = w_text w ++ statementText (w_indentNumberOfSpaces w) namespace statement
  /\ w_currentIndentation (processStatement statement namespace w)
     = w_currentIndentation w
  /\ w_indentNumberOfSpaces (processStatement statement namespace w)
     = w_indentNumberOfSpaces w.
Proof.
  destruct w as [n i f t].
  destruct (processStatement_W statement namespace n i f t) as [f' ->].
  repeat split.
Qed.

(** X13.  The whole output of a conversion: the fixed header, the package clause
    and its block, holding the texts of the statements in source order,
    then the global scope object when a type alias, an export assignment or
    a typed variable was collected, a line break, one more when the file
    has a module declaration, and the closing brace. *)
Theorem convertTsToScala_text (sourceFile : SourceFile) (packageName : string) :
  convertTsToScala sourceFile packageName
  = fileHeader
    ++ render "" true (packageDeclaration packageName ++ " ") ++ "{" ++ Js.nl
    ++ concatBlocks (map (statementText 2 "") sourceFile)
    ++ globalScopeObjectText 2 packageName (collectTopLevelExports sourceFile)
    ++ Js.nl
    ++ (if existsb isModuleDeclaration sourceFile then Js.nl else "")
    ++ "}".
Proof. apply generateScalaOutput_W. Qed.

Lemma concatBlocks_app (a b : list string) :
  concatBlocks (app a b) = concatBlocks a ++ concatBlocks b.
Proof.
  induction a as [|x a IH]; [reflexivity|].
  cbn [app concatBlocks]. now rewrite IH, string_app_assoc.
Qed.

Lemma collectTopLevelExports_app (a b : list Statement) :
  collectTopLevelExports (app a b)
  = mkTopLevelExports
      (app (interfaces (collectTopLevelExports a))
           (interfaces (collectTopLevelExports b)))
      (app (types (collectTopLevelExports a)) (types (collectTopLevelExports b)))
      (app (classes (collectTopLevelExports a))
           (classes (collectTopLevelExports b)))
      (app (functions (collectTopLevelExports a))
           (functions (collectTopLevelExports b)))
      (app (exportAssignments (collectTopLevelExports a))
           (exportAssignments (collectTopLevelExports b)))
      (app (variables (collectTopLevelExports a))
           (variables (collectTopLevelExports b))).
Proof.
  unfold collectTopLevelExports.
  cbn [interfaces types classes functions exportAssignments variables].
  now rewrite !flat_map_app.
Qed.

Lemma untyped_declarations_not_collected (decls : list VariableDeclaration) :
  forallb (fun decl => match var_type decl with
                       | Some _ => false
                       | None => true
                       end) decls = true ->
  filter (fun decl => match var_type decl with
                      | Some t => negb (isTypeLiteralNode t)
                      | None => false
                      end) decls = []
  /\ forall n namespace,
       concatBlocks (map (variableObjectText n namespace) decls) = "".
Proof.
  induction decls as [|d rest IH]; [split; reflexivity|].
  cbn [forallb]. intros H. apply andb_true_iff in H. destruct H as [Hd Hrest].
  destruct (IH Hrest) as [IH1 IH2]. split.
  - cbn [filter]. destruct (var_type d); [discriminate | exact IH1].
  - intros n namespace. cbn [map concatBlocks]. rewrite IH2.
    unfold variableObjectText. destruct (var_type d); [discriminate|reflexivity].
Qed.

Lemma ignoredAtTopLevel_silent (statement : Statement) :
  ignoredAtTopLevel statement = true ->
  collectTopLevelExports [statement] = mkTopLevelExports [] [] [] [] [] []
  /\ isModuleDeclaration statement = false
  /\ forall n namespace, statementText n namespace statement = "".
Proof.
  destruct statement; try discriminate; intros H;
    try (repeat split; reflexivity).
  cbn [ignoredAtTopLevel] in H.
  destruct (untyped_declarations_not_collected _ H) as [H1 H2].
  repeat split.
  - unfold collectTopLevelExports. cbn [flat_map]. rewrite H1. reflexivity.
  - intros n namespace. cbn [statementText]. apply H2.
Qed.

Lemma fileText_without_ignored (before after : list Statement)
      (statement : Statement) (packageName : string) :
  ignoredAtTopLevel statement = true ->
  fileText (app before (statement :: after)) packageName
  = fileText (app before after) packageName.
Proof.
  intros H. destruct (ignoredAtTopLevel_silent _ H) as [Hc [Hm Ht]].
  unfold fileText.
  change (statement :: after) with (app [statement] after).
  rewrite !map_app, !concatBlocks_app, !existsb_app.
  cbn [map concatBlocks existsb]. rewrite Ht, Hm. cbn [orb append].
  rewrite !collectTopLevelExports_app, Hc.
  cbn [interfaces types classes functions exportAssignments variables app].
  rewrite <- (collectTopLevelExports_app before after).
  reflexivity.
Qed.

(** X14.  Statements that leave no trace at the top level of a file: an import,
    an export declaration, a statement of a kind the dispatcher has no case
    for, or a variable statement whose declarations all lack a type
    annotation can be removed from the file, wherever it stands, without
    changing the output. *)
Theorem ignored_top_level_statements (before after : list Statement)
        (statement : Statement) (packageName : string) :
  ignoredAtTopLevel statement = true ->
  convertTsToScala (app before (statement :: after)) packageName
  = convertTsToScala (app before after) packageName.
Proof.
  intros H. rewrite !generateScalaOutput_W.
  now apply fileText_without_ignored.
Qed.

Lemma ignored_top_level_statements_witness :
  let x := mkVariable "x" None 0 in
  let alias := StTypeAlias (mkTypeAlias [] "Id" [] (Keyword StringKeyword)) in
  convertTsToScala [alias; StVariable (mkVariableStatement [] [x])] "pkg"
  = convertTsToScala [alias] "pkg".
Proof.
  intros x alias.
  apply (@ignored_top_level_statements [alias] []
           (StVariable (mkVariableStatement [] [x])) "pkg").
  reflexivity.
Defined.

Lemma string_named_module_silent (modifiers : list Modifier) (s : string)
      (body : option (list Statement)) :
  collectTopLevelExports [StModule modifiers (ModuleStringLiteral s) body]
  = mkTopLevelExports [] [] [] [] [] []
  /\ forall n namespace,
       statementText n namespace
         (StModule modifiers (ModuleStringLiteral s) body) = "".
Proof. split; reflexivity. Qed.

(** X15.  A module declaration named by a string literal contributes nothing but
    its presence: the output does not depend on its modifiers, on its name
    or on anything declared in its body. *)
Theorem string_named_module_contents_are_dropped
        (before after : list Statement)
        (modifiers modifiers' : list Modifier) (s s' : string)
        (body body' : option (list Statement)) (packageName : string) :
  convertTsToScala
    (app before (StModule modifiers (ModuleStringLiteral s) body :: after))
    packageName
  = convertTsToScala
      (app before (StModule modifiers' (ModuleStringLiteral s') body' :: after))
      packageName.
Proof.
  rewrite !generateScalaOutput_W. unfold fileText.
  change (StModule modifiers (ModuleStringLiteral s) body :: after)
    with (app [StModule modifiers (ModuleStringLiteral s) body] after).
  change (StModule modifiers' (ModuleStringLiteral s') body' :: after)
    with (app [StModule modifiers' (ModuleStringLiteral s') body'] after).
  rewrite !map_app, !concatBlocks_app, !existsb_app.
  rewrite !collectTopLevelExports_app.
  destruct (string_named_module_silent modifiers s body) as [-> _].
  destruct (string_named_module_silent modifiers' s' body') as [-> _].
  reflexivity.
Qed.

(* ================================================================== *)
(** ** Variables of a namespace                                        *)
(* ================================================================== *)





(* ================================================================== *)
(** ** The function bindings of the global scope object                *)
(* ================================================================== *)

Lemma forwardingLines_subset (exports : TopLevelExports) (l : string) :
  In l (forwardingLines exports) ->
  In l (map globalFunctionLine (functions exports)).
Proof.
  unfold forwardingLines. rewrite in_flat_map.
  intros [ea [_ H]]. unfold exportedFunction in H.
  destruct (expression ea) as [exportedName|]; [|contradiction].
  destruct (find (fun func => String.eqb (fn_name func) exportedName)
                 (functions exports)) as [func|] eqn:E; [|contradiction].
  destruct H as [<- | []]. apply in_map.
  now apply find_some in E.
Qed.

Lemma forwardingLines_In (exports : TopLevelExports) (l : string) :
  In l (forwardingLines exports)
  <-> exists exportAssignment exportedName func,
        In exportAssignment (exportAssignments exports)
        /\ expression exportAssignment = Identifier exportedName
        /\ find (fun func => String.eqb (fn_name func) exportedName)
                (functions exports) = Some func
        /\ l = globalFunctionLine func.
Proof.
  unfold forwardingLines. rewrite in_flat_map. unfold exportedFunction. split.
  - intros [ea [Hea H]].
    destruct (expression ea) as [exportedName|] eqn:Ee; [|contradiction].
    destruct (find (fun func => String.eqb (fn_name func) exportedName)
                   (functions exports)) as [func|] eqn:E; [|contradiction].
    destruct H as [<- | []]. exists ea, exportedName, func. auto.
  - intros [ea [exportedName [func [Hea [Ee [E ->]]]]]].
    exists ea. split; [exact Hea|]. rewrite Ee, E. now left.
Qed.

Lemma globalScope_function_bindings (exports : TopLevelExports) :
  NoDup (app (Js.dedup (forwardingLines exports))
             (Js.dedupFrom (seenAfter [] (forwardingLines exports))
                           (map globalFunctionLine (functions exports))))
  /\ forall l,
       In l (app (Js.dedup (forwardingLines exports))
                 (Js.dedupFrom (seenAfter [] (forwardingLines exports))
                               (map globalFunctionLine (functions exports))))
       <-> In l (map globalFunctionLine (functions exports)).
Proof.
  unfold Js.dedup at 1 2. rewrite <- dedupFrom_app. split.
  - apply dedupFrom_NoDup.
  - intros l. fold (Js.dedup (app (forwardingLines exports)
                                  (map globalFunctionLine (functions exports)))).
    rewrite dedup_In, in_app_iff. split.
    + intros [H | H]; [now apply forwardingLines_subset | exact H].
    + now right.
Qed.

(** X17.  When the global scope object is written, its body is made of the type
    alias lines, the forwarding bindings, the variable lines and the direct
    bindings, in that order.  The forwarding bindings are the lines, without
    repetition and in the order of the export assignments, of the functions
    that an export assignment names; the direct bindings are the lines, in
    declaration order, of the collected functions whose line is not among
    the forwarding bindings.  Together they hold the binding line of every
    collected function exactly once, and nothing else. *)
Theorem global_scope_functions_bound_once
        (packageName : string) (exports : TopLevelExports)
        (n i : nat) (f : bool) (t : string) :
  w_text (generateGlobalScopeObject packageName exports (mkWriter n i f t))
  = t ++ (if Nat.eqb (length (types exports)) 0
             && Nat.eqb (length (functions exports)) 0
             && Nat.eqb (length (exportAssignments exports)) 0
             && Nat.eqb (length (variables exports)) 0
          then ""
          else annotatedObjectText n "@js.native" "@JSGlobalScope"
                 ("object " ++ capitalize packageName ++ " extends js.Object ")
                 (app (map typeAliasLine (types exports))
                      (app (Js.dedup (forwardingLines exports))
                           (app (map variableLine (variables exports))
                                (Js.dedupFrom
                                   (seenAfter [] (forwardingLines exports))
                                   (map globalFunctionLine
                                        (functions exports)))))))
  /\ (forall l,
        In l (Js.dedup (forwardingLines exports))
        <-> exists exportAssignment exportedName func,
              In exportAssignment (exportAssignments exports)
              /\ expression exportAssignment = Identifier exportedName
              /\ find (fun func => String.eqb (fn_name func) exportedName)
                      (functions exports) = Some func
              /\ l = globalFunctionLine func)
  /\ (forall l,
        In l (Js.dedupFrom (seenAfter [] (forwardingLines exports))
                           (map globalFunctionLine (functions exports)))
        <-> In l (map globalFunctionLine (functions exports))
            /\ ~ In l (Js.dedup (forwardingLines exports)))
  /\ NoDup (app (Js.dedup (forwardingLines exports))
                (Js.dedupFrom (seenAfter [] (forwardingLines exports))
                              (map globalFunctionLine (functions exports))))
  /\ (forall l,
        In l (app (Js.dedup (forwardingLines exports))
                  (Js.dedupFrom (seenAfter [] (forwardingLines exports))
                                (map globalFunctionLine (functions exports))))
        <-> In l (map globalFunctionLine (functions exports))).
Proof.
  split; [|split; [|split]].
  - rewrite generateGlobalScopeObject_W.
    destruct (Nat.eqb (length (types exports)) 0
              && Nat.eqb (length (functions exports)) 0
              && Nat.eqb (length (exportAssignments exports)) 0
              && Nat.eqb (length (variables exports)) 0); cbn [w_text].
    + now rewrite string_app_nil_r.
    + reflexivity.
  - intros l. rewrite dedup_In. apply forwardingLines_In.
  - intros l. rewrite dedupFrom_In, dedup_In.
    split; intros [H1 H2]; (split; [exact H1|]); intros H; apply H2.
    + apply seenAfter_In. now right.
    + apply seenAfter_In in H. destruct H as [[] | H]. exact H.
  - apply globalScope_function_bindings.
Qed.

(* ================================================================== *)
(** ** The batch driver: package names and output paths                *)
(* ================================================================== *)

Lemma string_of_list_ascii_app (a b : list ascii) :
  string_of_list_ascii (app a b)
  = string_of_list_ascii a ++ string_of_list_ascii b.
Proof. induction a as [|c a IH]; [reflexivity | cbn; now rewrite IH]. Qed.

Lemma reverse_app (a b : string) :
  Js.reverse (a ++ b) = Js.reverse b ++ Js.reverse a.
Proof.
  unfold Js.reverse.
  now rewrite list_ascii_app, rev_app_distr, string_of_list_ascii_app.
Qed.

Lemma replaceDeclarationSuffix_present (replacement base : string) :
  Run.replaceDeclarationSuffix replacement (base ++ ".d.ts")
  = base ++ replacement.
Proof.
  unfold Run.replaceDeclarationSuffix. rewrite reverse_app.
  change (Js.reverse ".d.ts") with "st.d.".
  now rewrite stripPrefix_app, reverse_involutive.
Qed.

Lemma replaceChars_app (f : ascii -> ascii) (a b : string) :
  Run.replaceChars f (a ++ b) = Run.replaceChars f a ++ Run.replaceChars f b.
Proof. induction a as [|c a IH]; [reflexivity | cbn; now rewrite IH]. Qed.

Lemma replaceChars_length (f : ascii -> ascii) (s : string) :
  String.length (Run.replaceChars f s) = String.length s.
Proof. induction s as [|c s IH]; [reflexivity | cbn; now rewrite IH]. Qed.

Lemma replaceChars_id (f : ascii -> ascii) (p : ascii -> bool) (s : string) :
  (forall c, p c = true -> f c = c) ->
  Js.allChars p s = true -> Run.replaceChars f s = s.
Proof.
  intros Hf. induction s as [|c s IH]; [reflexivity|].
  cbn [Js.allChars Run.replaceChars]. intros H. apply andb_true_iff in H.
  destruct H as [Hc Hs]. now rewrite (Hf _ Hc), (IH Hs).
Qed.

Lemma replaceUnsafe_charset (s : string) :
  Js.allChars Run.isPackageChar (Run.replaceUnsafe s) = true.
Proof.
  unfold Run.replaceUnsafe. induction s as [|c s IH]; [reflexivity|].
  cbn [Run.replaceChars Js.allChars]. rewrite IH, andb_true_r.
  destruct (Run.isPackageChar c) eqn:E; [exact E | reflexivity].
Qed.

Lemma allChars_impl (p q : ascii -> bool) (s : string) :
  (forall c, p c = true -> q c = true) ->
  Js.allChars p s = true -> Js.allChars q s = true.
Proof.
  intros Hpq. induction s as [|c s IH]; [reflexivity|].
  cbn [Js.allChars]. intros H. apply andb_true_iff in H. destruct H as [Hc Hs].
  now rewrite (Hpq _ Hc), (IH Hs).
Qed.

Lemma packageChar_cases (c : ascii) :
  Run.isPackageChar c = true ->
  Ascii.eqb c "-"%char = false /\ Js.isLineTerminator c = false.
Proof.
  intros H.
  destruct (Ascii.eqb c "-"%char) eqn:E1.
  { apply Ascii.eqb_eq in E1. subst c. discriminate H. }
  destruct (Js.isLineTerminator c) eqn:E2; [|split; reflexivity].
  unfold Js.isLineTerminator in E2. apply orb_true_iff in E2.
  destruct E2 as [E | E]; apply Ascii.eqb_eq in E; subst c; discriminate H.
Qed.

Lemma allChars_no_hyphen (p : ascii -> bool) (s : string) :
  (forall c, p c = true -> Ascii.eqb c "-"%char = false) ->
  Js.allChars p s = true -> Js.includes "-" s = false.
Proof.
  intros Hp. induction s as [|c s IH]; [reflexivity|].
  cbn [Js.allChars]. intros H. apply andb_true_iff in H. destruct H as [Hc Hs].
  now rewrite includes_char_cons, (IH Hs), (Hp _ Hc).
Qed.

Lemma packageNameOf_single_line (relativePath : string) :
  Js.allChars (fun c => negb (Js.isLineTerminator c))
              (Run.packageNameOf relativePath) = true.
Proof.
  apply (@allChars_impl Run.isPackageChar); [|apply replaceUnsafe_charset].
  intros c Hc. apply negb_true_iff. now apply packageChar_cases.
Qed.

(** X18.  The package name derived from a path holds only letters, digits,
    underscores and dots, whatever the path: it has no hyphen and no line
    break; and for a path that ends with [.d.ts] it has one character per
    character of the path before that suffix. *)
Theorem package_name_charset (relativePath : string) :
  Js.allChars Run.isPackageChar (Run.packageNameOf relativePath) = true
  /\ Js.includes "-" (Run.packageNameOf relativePath) = false
  /\ Js.allChars (fun c => negb (Js.isLineTerminator c))
                 (Run.packageNameOf relativePath) = true
  /\ String.length (Run.packageNameOf (relativePath ++ ".d.ts"))
     = String.length relativePath.
Proof.
  assert (H : Js.allChars Run.isPackageChar (Run.packageNameOf relativePath)
              = true) by apply replaceUnsafe_charset.
  split; [exact H|]. split; [|split].
  - apply (@allChars_no_hyphen Run.isPackageChar); [|exact H].
    intros c Hc. now apply packageChar_cases.
  - apply (@allChars_impl Run.isPackageChar); [|exact H].
    intros c Hc. apply negb_true_iff. now apply packageChar_cases.
  - unfold Run.packageNameOf. rewrite replaceDeclarationSuffix_present.
    unfold Run.replaceUnsafe, Run.replaceSeparators.
    now rewrite !replaceChars_length, string_app_nil_r.
Qed.

Lemma identPart_cases (c : ascii) :
  Js.identPart c = true ->
  Run.isPackageChar c = true /\ Run.isSeparator c = false.
Proof.
  intros H. split.
  - unfold Run.isPackageChar. unfold Js.identPart in H. now rewrite H.
  - destruct (Run.isSeparator c) eqn:E; [|reflexivity].
    unfold Run.isSeparator in E. apply orb_true_iff in E.
    destruct E as [E | E]; apply Ascii.eqb_eq in E; subst c; discriminate H.
Qed.

Lemma identStart_identPart (c : ascii) :
  Js.identStart c = true -> Js.identPart c = true.
Proof.
  unfold Js.identStart, Js.identPart.
  destruct (Js.isLower c), (Js.isUpper c), (Js.isUnderscore c),
    (Js.isDigit c); cbn; congruence.
Qed.

Lemma bareIdentifier_allChars (s : string) :
  Js.matchesBareIdentifier s = true -> Js.allChars Js.identPart s = true.
Proof.
  destruct s as [|c s]; [discriminate|].
  cbn [Js.matchesBareIdentifier Js.allChars]. intros H.
  apply andb_true_iff in H. destruct H as [Hc Hs].
  now rewrite (identStart_identPart _ Hc), Hs.
Qed.

Lemma segmentName_identifier (s : string) :
  Js.allChars Js.identPart s = true -> Run.segmentName s = s.
Proof.
  intros H. unfold Run.segmentName, Run.replaceUnsafe, Run.replaceSeparators.
  rewrite (@replaceChars_id _ Js.identPart s) at 1; [|  |exact H].
  - apply (@replaceChars_id _ Js.identPart); [|exact H].
    intros c Hc. now rewrite (proj1 (identPart_cases _ Hc)).
  - intros c Hc. now rewrite (proj2 (identPart_cases _ Hc)).
Qed.

(** X19.  A declaration file at the top of the input folder whose base name is a
    plain identifier is converted under that very name: the package clause
    is the unquoted base name, unless it is a reserved word. *)
Theorem identifier_base_name_is_package_name (base : string) :
  Js.matchesBareIdentifier base = true ->
  Run.packageNameOf (base ++ ".d.ts") = base
  /\ packageDeclaration (Run.packageNameOf (base ++ ".d.ts"))
     = if Js.arrayIncludes SCALA_RESERVED_WORDS base
       then "package `" ++ base ++ "`"
       else "package " ++ base.
Proof.
  intros H.
  assert (E : Run.packageNameOf (base ++ ".d.ts") = base).
  { unfold Run.packageNameOf. rewrite replaceDeclarationSuffix_present.
    rewrite string_app_nil_r.
    apply segmentName_identifier. now apply bareIdentifier_allChars. }
  split; [exact E|]. rewrite E.
  unfold packageDeclaration, backquote. rewrite H.
  rewrite (identPart_no_hyphen _ (bareIdentifier_allChars _ H)).
  cbn [negb orb].
  destruct (Js.arrayIncludes SCALA_RESERVED_WORDS base); reflexivity.
Qed.

Lemma identifier_base_name_is_package_name_witness :
  Run.packageNameOf "three.d.ts" = "three"
  /\ packageDeclaration (Run.packageNameOf "three.d.ts") = "package three".
Proof.
  apply (@identifier_base_name_is_package_name "three"). reflexivity.
Defined.

Lemma dotted_name_fails_grammar (a b : string) :
  Js.matchesBareIdentifier (a ++ "." ++ b) = false.
Proof.
  destruct a as [|c a]; [reflexivity|].
  cbn [append Js.matchesBareIdentifier].
  change (a ++ String "."%char b) with (a ++ "." ++ b).
  rewrite allChars_app.
  change (Js.allChars Js.identPart ("." ++ b)) with false.
  now rewrite !andb_false_r.
Qed.

Lemma packageNameOf_nested (dir base : string) :
  Run.packageNameOf (dir ++ String Run.slash base ++ ".d.ts")
  = Run.segmentName dir ++ "." ++ Run.segmentName base.
Proof.
  unfold Run.packageNameOf.
  replace (dir ++ String Run.slash base ++ ".d.ts")
    with ((dir ++ String Run.slash base) ++ ".d.ts")
    by (cbn [append]; now rewrite !string_app_assoc).
  rewrite replaceDeclarationSuffix_present, string_app_nil_r.
  unfold Run.segmentName, Run.replaceUnsafe, Run.replaceSeparators.
  rewrite !replaceChars_app. reflexivity.
Qed.

(** X20.  A declaration file in a sub-folder is converted under a package name
    with a dot for the path separator, and that dotted name is written as
    one backquoted identifier: the output begins with the fixed header and
    the clause [package `dir.base`] with its opening brace. *)
Theorem nested_path_package_is_backquoted
        (sourceFile : SourceFile) (dir base : string) :
  exists rest,
    Run.scalaContent sourceFile (dir ++ String Run.slash base ++ ".d.ts")
    = fileHeader
      ++ "package `" ++ Run.segmentName dir ++ "." ++ Run.segmentName base
      ++ "` {" ++ Js.nl ++ rest.
Proof.
  unfold Run.scalaContent. rewrite generateScalaOutput_W. unfold fileText.
  assert (Hs : Js.allChars (fun c => negb (Js.isLineTerminator c))
                 (Run.packageNameOf (dir ++ String Run.slash base ++ ".d.ts"))
               = true) by apply packageNameOf_single_line.
  rewrite packageDeclaration_clause.
  rewrite render_singleLine by (now apply singleLine_packageClause).
  rewrite <- packageDeclaration_clause.
  rewrite packageNameOf_nested.
  unfold packageDeclaration, backquote.
  rewrite dotted_name_fails_grammar. rewrite orb_true_r. cbn [negb orb].
  eexists. cbn [append]. rewrite !string_app_assoc. cbn [append].
  reflexivity.
Qed.

(** X21.  The converted file keeps the relative path of the declaration file,
    with [.scala] appended; the package name is derived from the same path
    without its [.d.ts] suffix. *)
Theorem output_path_appends_scala (path : string) :
  Run.outputRelativePath (path ++ ".d.ts") = (path ++ ".d.ts") ++ ".scala"
  /\ Run.packageNameOf (path ++ ".d.ts") = Run.segmentName path.
Proof.
  unfold Run.outputRelativePath, Run.packageNameOf.
  rewrite !replaceDeclarationSuffix_present, string_app_nil_r.
  split; [|reflexivity]. now rewrite string_app_assoc.
Qed.

(* ================================================================== *)
(** ** Unions that mix string literals with other members              *)
(* ================================================================== *)

Lemma existsb_not_forallb {A : Type} (p : A -> bool) (l : list A) :
  existsb (fun x => negb (p x)) l = true -> forallb p l = false.
Proof.
  induction l as [|x l IH]; [discriminate|].
  cbn [existsb forallb]. destruct (p x); cbn [negb orb andb]; auto.
Qed.

Lemma string_literal_not_all_numeric (l : list TypeNode) :
  existsb isStringLiteralType l = true -> forallb isNumericLiteralType l = false.
Proof.
  intros H. apply existsb_not_forallb.
  apply existsb_exists in H. destruct H as [x [Hin Hx]].
  apply existsb_exists. exists x. split; [exact Hin|].
  destruct x; try discriminate. destruct literal; try discriminate. reflexivity.
Qed.

Lemma flat_map_non_string_literals (l : list TypeNode) :
  flat_map (fun t => if isStringLiteralType t then []
                     else [convertTypeToScala t]) l
  = map convertTypeToScala (filter (fun t => negb (isStringLiteralType t)) l).
Proof.
  induction l as [|t l IH]; [reflexivity|].
  cbn [flat_map filter]. destruct (isStringLiteralType t); cbn [negb app map].
  - exact IH.
  - now rewrite IH.
Qed.

Lemma arrayIncludes_dedup (arr : list string) (x : string) :
  Js.arrayIncludes (Js.dedup arr) x = Js.arrayIncludes arr x.
Proof.
  destruct (Js.arrayIncludes arr x) eqn:E.
  - apply arrayIncludes_In. apply dedup_In. now apply arrayIncludes_In.
  - destruct (Js.arrayIncludes (Js.dedup arr) x) eqn:E'; [|reflexivity].
    apply (proj1 (arrayIncludes_In _ _)) in E'.
    apply (proj1 (dedup_In _ _)) in E'.
    apply (proj2 (arrayIncludes_In _ _)) in E'. congruence.
Qed.

(** X22.  A union with at least one string literal member and at least one
    member of another kind, whose mapped members do not hold both [Null]
    and [Unit], maps to [String] followed by every mapped member of
    another kind, in source order: on this path repeated members are kept,
    unlike on the path of a union without string literals. *)
Theorem mixed_union_keeps_duplicates (types : list TypeNode) :
  existsb isStringLiteralType types = true ->
  existsb (fun t => negb (isStringLiteralType t)) types = true ->
  Js.arrayIncludes (map convertTypeToScala types) "Null"
  && Js.arrayIncludes (map convertTypeToScala types) "Unit" = false ->
  convertTypeToScala (UnionType types)
  = Js.join " | "
      ("String" :: map convertTypeToScala
                     (filter (fun t => negb (isStringLiteralType t)) types)).
Proof.
  intros Hs Hn Hnull. cbn [convertTypeToScala]. unfold convertUnionType.
  rewrite (existsb_not_forallb _ _ Hn).
  rewrite (string_literal_not_all_numeric _ Hs). cbn [andb].
  rewrite !arrayIncludes_dedup, Hnull. cbn [andb].
  rewrite Hs, Hn. cbn [andb].
  now rewrite flat_map_non_string_literals.
Qed.

Lemma mixed_union_keeps_duplicates_witness :
  convertTypeToScala
    (UnionType [stringLiteralType "a"; Keyword StringKeyword;
                Keyword StringKeyword])
  = "String | String | String".
Proof.
  apply (@mixed_union_keeps_duplicates
           [stringLiteralType "a"; Keyword StringKeyword; Keyword StringKeyword]);
    reflexivity.
Defined.

(* ================================================================== *)
(** ** Files with nothing to show                                      *)
(* ================================================================== *)

Lemma declaresNothingVisible_silent (sourceFile : SourceFile) :
  forallb declaresNothingVisible sourceFile = true ->
  concatBlocks (map (statementText 2 "") sourceFile) = ""
  /\ types (collectTopLevelExports sourceFile) = []
  /\ exportAssignments (collectTopLevelExports sourceFile) = []
  /\ variables (collectTopLevelExports sourceFile) = []
  /\ existsb isModuleDeclaration sourceFile = false.
Proof.
  induction sourceFile as [|st rest IH]; [repeat split|].
  cbn [forallb]. intros H. apply andb_true_iff in H. destruct H as [Hst Hrest].
  destruct (IH Hrest) as [H1 [H2 [H3 [H4 H5]]]].
  change (st :: rest) with (app [st] rest).
  rewrite map_app, concatBlocks_app, existsb_app, collectTopLevelExports_app.
  cbn [types exportAssignments variables].
  rewrite H1, H2, H3, H4, H5.
  unfold declaresNothingVisible in Hst. apply orb_true_iff in Hst.
  destruct Hst as [Hig | Hfn].
  - destruct (ignoredAtTopLevel_silent _ Hig) as [Hc [Hm Ht]].
    rewrite Hc. cbn [map concatBlocks existsb]. rewrite Ht, Hm.
    repeat split.
  - destruct st; try discriminate. repeat split.
Qed.

(** X23.  A file that holds nothing but function declarations, imports, export
    declarations, untyped variables and statements of unhandled kinds, the
    empty file included, is converted to the header and an empty package
    block: no declaration and no container is written. *)
Theorem file_without_declarations_is_empty_package
        (sourceFile : SourceFile) (packageName : string) :
  forallb declaresNothingVisible sourceFile = true ->
  convertTsToScala sourceFile packageName
  = fileHeader
    ++ render "" true (packageDeclaration packageName ++ " ")
    ++ "{" ++ Js.nl ++ Js.nl ++ "}".
Proof.
  intros H. rewrite generateScalaOutput_W. unfold fileText.
  destruct (declaresNothingVisible_silent _ H) as [H1 [H2 [H3 [H4 H5]]]].
  unfold globalScopeObjectText. rewrite H1, H2, H3, H4, H5. reflexivity.
Qed.

Lemma file_without_declarations_is_empty_package_witness :
  convertTsToScala
    [StImportDeclaration;
     StVariable (mkVariableStatement [] [mkVariable "x" None 0])] "pkg"
  = fileHeader ++ render "" true (packageDeclaration "pkg" ++ " ")
    ++ "{" ++ Js.nl ++ Js.nl ++ "}".
Proof.
  apply (@file_without_declarations_is_empty_package
           [StImportDeclaration;
            StVariable (mkVariableStatement [] [mkVariable "x" None 0])] "pkg").
  reflexivity.
Defined.
